(** * The LLM advisor worker of SymbolicDet ([src/chat_llm.py])

    A shallow embedding of [process_llm_response] (the retry coordinator
    with its inline response validation), of the prompt construction of
    [PromptTemplates] and of the dispatcher loop [llama_main], followed by
    the properties of the specification that concern them.

    Conventions of the embedding.
    - A Python [str] is a [string]; a Python [int] is a [Z].
    - Python values produced by [json.loads] / [ast.literal_eval] and
      carried in message payloads are the inductive [pyvalue].
    - An exception is a value of [exn]; code that may raise returns an
      [outcome].  [exn] stands for instances of [Exception]: the
      interpreter's exit signals ([KeyboardInterrupt], [SystemExit]), which
      are not instances of [Exception], are outside the model.
    - The two lists [init_dialogs] and [dialogs] are references into a
      store of list objects and dict objects, so that aliasing is visible.
    - Library functions are parameters, bundled in [Runtime]; the model
      backend is a parameter [create] acting on a backend state of any
      type, so that its answers may depend on the conversation sent and on
      everything it was sent before.  A call that never returns is outside
      the model.
    - Console output ([cprint]) is not modelled. *)

From Stdlib Require Import ZArith String Ascii List Bool Lia DecimalString.
From stdpp Require Import base strings list.
From Equations Require Import Equations.

Local Open Scope Z_scope.
Local Open Scope string_scope.
Local Open Scope list_scope.

(** ** Exceptions *)

(** The classes the handlers of the source tell apart.  A constructor
    stands for the class itself and for its subclasses that have no
    constructor of their own; [Exception] is every other instance of
    [Exception]. *)
Inductive exn_class : Set :=
| JSONDecodeError
| ValueError
| SyntaxError
| TypeError
| KeyError
| AttributeError
| Exception.

(** [exn_str] is [str(e)]. *)
Record exn : Set := Exn { exn_cls : exn_class; exn_str : string }.

(** [issubclass c d]: [json.JSONDecodeError] derives from [ValueError],
    everything derives from [Exception]. *)
Definition issubclass (c d : exn_class) : bool :=
  match d, c with
  | Exception, _ => true
  | ValueError, (JSONDecodeError | ValueError) => true
  | JSONDecodeError, JSONDecodeError => true
  | SyntaxError, SyntaxError => true
  | TypeError, TypeError => true
  | KeyError, KeyError => true
  | AttributeError, AttributeError => true
  | _, _ => false
  end.

(** [except (c1, ..., cn)] matches [e]. *)
Definition isinstance (e : exn) (classes : list exn_class) : bool :=
  existsb (issubclass (exn_cls e)) classes.

Inductive outcome (A : Type) : Type :=
| Ok (a : A)
| Raise (e : exn).
Arguments Ok {A} a.
Arguments Raise {A} e.

#[global] Instance outcome_ret : MRet outcome := @Ok.
#[global] Instance outcome_bind : MBind outcome :=
  fun A B f m => match m with Ok a => f a | Raise e => Raise e end.

Definition is_ok {A} (m : outcome A) : bool :=
  match m with Ok _ => true | Raise _ => false end.

(** ** Python values *)

#[local] Set Warnings "-register-all".
Inductive pyvalue : Set :=
| PyNone
| PyEllipsis
| PyBool (b : bool)
| PyInt (z : Z)
| PyFloat (repr : string)
| PyComplex (repr : string)
| PyStr (s : string)
| PyBytes (s : string)
| PyList (l : list pyvalue)
| PyTuple (l : list pyvalue)
| PySet (l : list pyvalue)        (* in iteration order *)
| PyDict (kv : list (pyvalue * pyvalue)).  (* in insertion order, keys unique *)

(** Errors the interpreter itself raises; their text depends on the
    interpreter's version and is supplied by the [Runtime]. *)
Inductive fault : Set :=
| NotContainer (v : pyvalue)              (* [k in v] *)
| NotSubscriptable (v : pyvalue)          (* [v[k]], [k] a str *)
| NotIterable (v : pyvalue)               (* [for x in v] *)
| MissingKey (k : string)                 (* [d[k]] *)
| NoAttribute (v : pyvalue) (name : string).

(** ** Library functions the source calls *)

Record Runtime : Type := {
  json_loads : string -> outcome pyvalue;
  literal_eval : string -> outcome pyvalue;     (* ast.literal_eval *)
  py_str : pyvalue -> string;                   (* str(v), format(v, '') *)
  format_4f : pyvalue -> outcome string;        (* format(v, '.4f') *)
  fault_str : fault -> string;
}.

(** [needle in hay] on two strs. *)
Fixpoint is_substring (needle hay : string) : bool :=
  String.prefix needle hay ||
  match hay with
  | EmptyString => false
  | String _ rest => is_substring needle rest
  end.

(** [k == v] for a str [k]: only an equal str is equal to a str. *)
Definition py_eq_str (k : string) (v : pyvalue) : bool :=
  match v with
  | PyStr s => String.eqb k s
  | _ => false
  end.

Definition dict_lookup (k : string) (kv : list (pyvalue * pyvalue)) : option pyvalue :=
  snd <$> List.find (fun p => py_eq_str k (fst p)) kv.

Definition dict_has (k : string) (kv : list (pyvalue * pyvalue)) : bool :=
  existsb (fun p => py_eq_str k (fst p)) kv.

Definition chars_of (s : string) : list pyvalue :=
  (fun c => PyStr (String c EmptyString)) <$> list_ascii_of_string s.

Definition bytes_of (s : string) : list pyvalue :=
  (fun c => PyInt (Z.of_nat (nat_of_ascii c))) <$> list_ascii_of_string s.

(** ** Prompt templates ([resp_format] and class [PromptTemplates]) *)

(** The double-quote character. *)
Definition dq : string := String "034"%char EmptyString.

(** [json.dumps(resp_format, indent=2, ensure_ascii=False)], the text the
    source computes at lines 189, 236 and 270 from the module constant
    [resp_format]. *)
Definition resp_format_json : string :=
  "{
  " +:+ dq +:+
  "suggestions" +:+ dq +:+
  ": [
    {
      " +:+ dq +:+
  "expression" +:+ dq +:+
  ": " +:+ dq +:+
  "< Improved expression (please follow the given expression format) >" +:+ dq +:+
  ",
      " +:+ dq +:+
  "reason" +:+ dq +:+
  ": " +:+ dq +:+
  "< Reason for the suggested improvement >" +:+ dq +:+
  "
    }
  ],
  " +:+ dq +:+
  "anomaly_score" +:+ dq +:+
  ": " +:+ dq +:+
  "< Your assessment score for the current scenario's anomaly level >" +:+ dq +:+
  ",
  " +:+ dq +:+
  "reason" +:+ dq +:+
  ": " +:+ dq +:+
  "< Reason for the anomaly score >" +:+ dq +:+
  "
}".

(** The text of [SYSTEM] around its placeholders [{labels}], [{operators}], [{format}]. *)
Definition SYSTEM_0 : string :=
  "
You are a Visual Logic Architect and Logic Expression Optimizer. You can explain visual scene descriptions and help improve logical expressions to make them more accurate, efficient, and interpretable to meet the requirements of visual scene features and relationships.

Key Capabilities:
1. Expression Analysis: Evaluate the logical coherence, redundancy, and semantic consistency of current symbolic expressions.
2. Optimization Suggestions: Identify potential simplifications or adjustments (e.g., removing redundant terms, optimizing conditions) while maintaining or enhancing the descriptive power.
3. Task-Specific Optimization: Propose modifications based on specific scenario requirements (e.g., safety, target tracking) and apply symbolic regression optimization rules to improve task performance while minimizing performance loss.
4. Interpretability Enhancement: Make expressions more understandable through simplified relationships, context-aware labels, or reformatting to reflect intuitive conditional structures.

Essential steps for fulfilling this role:
1. Initial Analysis: Extract information from logical expressions and corresponding metrics. Evaluate expressions for immediate improvements from context. This includes identifying overly complex nested structures and ambiguities in terminology.
2. Contextual Optimization: Suggest simplifications or replacements of logical structures based on specific visual task objectives (e.g., ensuring safety compliance, identifying specific object behaviors), simplifying expression complexity while maintaining original intent.
3. Iterative Improvement: LLM repeatedly reviews and modifies symbolic expressions, ideally interacting with symbolic regression feedback loops to evaluate improvements in task accuracy or computational efficiency.

Current task scenario elements:
1. Available variable symbols: ".

Definition SYSTEM_1 : string :=
  "
2. Supported operators: ".

Definition SYSTEM_2 : string :=
  "
3. Example expression format: " +:+ dq +:+ "and_(gt(x0, x2), or_(x1, x2))" +:+ dq +:+ ", where x0, x1, x2 are variable symbols, gt, or_, and_ are operators
4. Keep expressions concise, avoid overly complex expressions, minimize the use of operators and variable symbols.

Note: Ensure that variable symbols exist in the current task scenario and operators are supported in the current task scenario!!!

Please think carefully, but provide your suggestions in the following format (maximum 3 suggestions):
".

Definition SYSTEM_3 : string :=
  "
".

(** [SYSTEM.format(labels=labels, operators=operators, format=format)] on strs. *)
Definition SYSTEM_format (labels operators format : string) : string :=
  SYSTEM_0 +:+ labels +:+ SYSTEM_1 +:+ operators +:+ SYSTEM_2 +:+ format +:+ SYSTEM_3.

(** The text of [FIRST_ROUND] around its placeholders [{top_individuals}]. *)
Definition FIRST_ROUND_0 : string :=
  "
I've noticed the following well-performing individuals in the current population:

".

Definition FIRST_ROUND_1 : string :=
  "

As the first round of interaction, please carefully analyze the characteristics of these expressions and provide improvement suggestions. You can:
1. Analyze common patterns or unique features of these expressions
2. Identify potential optimization opportunities
3. Propose new expression combination methods

Please ensure your suggestions maintain the basic structure of expressions while trying to improve their performance.
".

(** [FIRST_ROUND.format(top_individuals=top_individuals)] on strs. *)
Definition FIRST_ROUND_format (top_individuals : string) : string :=
  FIRST_ROUND_0 +:+ top_individuals +:+ FIRST_ROUND_1.

(** The text of [SUBSEQUENT_ROUND] around its placeholders [{top_individuals}], [{previous_results}]. *)
Definition SUBSEQUENT_ROUND_0 : string :=
  "
I've noticed the following well-performing individuals in the current population:

".

Definition SUBSEQUENT_ROUND_1 : string :=
  "

In the previous round of interaction, your suggestions and their effects were as follows:

".

Definition SUBSEQUENT_ROUND_2 : string :=
  "

Based on the above information, especially the effects of previous suggestions, please propose new improvement plans. You can:
1. Learn from successful suggestions
2. Analyze reasons for failed suggestions and avoid similar issues
3. Incorporate characteristics of excellent individuals in the current population
4. Provide maximum of 3 expressions in suggestions
5. Keep expressions concise, avoid overly complex expressions, minimize operators and variable symbols.
".

(** [SUBSEQUENT_ROUND.format(top_individuals=top_individuals, previous_results=previous_results)] on strs. *)
Definition SUBSEQUENT_ROUND_format (top_individuals previous_results : string) : string :=
  SUBSEQUENT_ROUND_0 +:+ top_individuals +:+ SUBSEQUENT_ROUND_1 +:+ previous_results +:+ SUBSEQUENT_ROUND_2.

(** The text of [ERROR_FEEDBACK] around its placeholders [{format}], [{error}]. *)
Definition ERROR_FEEDBACK_0 : string :=
  "
I noticed your last response had formatting issues. Please strictly follow this JSON format:

".

Definition ERROR_FEEDBACK_1 : string :=
  "

Error message: ".

Definition ERROR_FEEDBACK_2 : string :=
  "

Please regenerate your suggestions, ensuring:
1. Response must be valid JSON format
2. Include all required fields
3. Expression field must use correct operators and variables
4. Don't wrap json data in markdown code blocks, just provide raw json data

".

(** [ERROR_FEEDBACK.format(format=format, error=error)] on strs. *)
Definition ERROR_FEEDBACK_format (format error : string) : string :=
  ERROR_FEEDBACK_0 +:+ format +:+ ERROR_FEEDBACK_1 +:+ error +:+ ERROR_FEEDBACK_2.

(** The text appended to every round prompt (line 270). *)
Definition JSON_SUFFIX : string :=
  "

Please provide your suggestions in the following JSON format (give json data directly, don't wrap in code blocks):
" +:+ resp_format_json.

Section Operators.
Context (rt : Runtime).

Definition raise_fault {A} (c : exn_class) (f : fault) : outcome A :=
  Raise (Exn c (fault_str rt f)).

(** [k in v] for a str [k]. *)
Definition py_contains (k : string) (v : pyvalue) : outcome bool :=
  match v with
  | PyStr s => Ok (is_substring k s)
  | PyList l | PyTuple l | PySet l => Ok (existsb (py_eq_str k) l)
  | PyDict kv => Ok (dict_has k kv)
  | _ => raise_fault TypeError (NotContainer v)
  end.

(** [v[k]] for a str [k]. *)
Definition py_getitem (v : pyvalue) (k : string) : outcome pyvalue :=
  match v with
  | PyDict kv =>
      match dict_lookup k kv with
      | Some x => Ok x
      | None => raise_fault KeyError (MissingKey k)
      end
  | _ => raise_fault TypeError (NotSubscriptable v)
  end.

(** The elements [for x in v] goes through. *)
Definition py_iter (v : pyvalue) : outcome (list pyvalue) :=
  match v with
  | PyStr s => Ok (chars_of s)
  | PyBytes s => Ok (bytes_of s)
  | PyList l | PyTuple l | PySet l => Ok l
  | PyDict kv => Ok (fst <$> kv)
  | _ => raise_fault TypeError (NotIterable v)
  end.

(** [v.get(k, default)]; only a dict has [get]. *)
Definition py_get (v : pyvalue) (k : string) (default : pyvalue) : outcome pyvalue :=
  match v with
  | PyDict kv => Ok (from_option id default (dict_lookup k kv))
  | _ => raise_fault AttributeError (NoAttribute v "get")
  end.

(** *** Response validation (lines 152-169 of [process_llm_response]) *)

(** Lines 152-161: [json.loads], and [ast.literal_eval] when that raised
    [json.JSONDecodeError]. *)
Definition parse_response (model_response : string) : outcome pyvalue :=
  match json_loads rt model_response with
  | Ok v => Ok v
  | Raise e =>
      if isinstance e [JSONDecodeError] then
        match literal_eval rt model_response with
        | Ok v => Ok v
        | Raise e' =>
            if isinstance e' [ValueError; SyntaxError]
            then Raise (Exn ValueError ("Cannot parse response format: " +:+ exn_str e'))
            else Raise e'
        end
      else Raise e
  end.

(** Lines 167-169, the loop over [suggestion_payload['suggestions']]. *)
Fixpoint check_suggestions (items : list pyvalue) : outcome unit :=
  match items with
  | [] => Ok tt
  | suggestion :: rest =>
      has_e ← py_contains "expression" suggestion;
      if negb has_e
      then Raise (Exn ValueError "Suggestion missing required fields 'expression' or 'reason'")
      else
        has_r ← py_contains "reason" suggestion;
        if negb has_r
        then Raise (Exn ValueError "Suggestion missing required fields 'expression' or 'reason'")
        else check_suggestions rest
  end.

(** Lines 164-169. *)
Definition validate_payload (suggestion_payload : pyvalue) : outcome unit :=
  has_s ← py_contains "suggestions" suggestion_payload;
  if negb has_s
  then Raise (Exn ValueError "Response missing 'suggestions' field")
  else
    suggestions ← py_getitem suggestion_payload "suggestions";
    items ← py_iter suggestions;
    check_suggestions items.

(** Lines 152-169: the payload that is sent when nothing raised. *)
Definition validate_response (model_response : string) : outcome pyvalue :=
  suggestion_payload ← parse_response model_response;
  validate_payload suggestion_payload;;
  Ok suggestion_payload.

End Operators.

(** ** Dialog turns and the object store *)

(** The dict [{"role": role, "content": content}]. *)
Record turn : Set := Turn { role : string; content : string }.

(** References to list objects and to turn dicts. *)
Abbreviation lref := nat (only parsing).
Abbreviation dref := nat (only parsing).

(** The objects the worker allocates: lists of references to turn dicts,
    and turn dicts.  A new object takes the next free index. *)
Record store : Set := Store {
  lists : list (list dref);
  dicts : list turn;
}.

(** [[]] *)
Definition new_list (m : store) : lref * store :=
  (length (lists m), Store (lists m ++ [[]]) (dicts m)).

(** [{"role": ..., "content": ...}] *)
Definition new_dict (t : turn) (m : store) : dref * store :=
  (length (dicts m), Store (lists m) (dicts m ++ [t])).

(** [l.append(d)], in place. *)
Definition list_append (l : lref) (d : dref) (m : store) : store :=
  Store (alter (fun items => items ++ [d]) l (lists m)) (dicts m).

(** [d[key] = value] for a turn dict, in place.  The worker never does
    this; it is what modifying a turn of a list means. *)
Definition dict_assign (d : dref) (t : turn) (m : store) : store :=
  Store (lists m) (<[d := t]> (dicts m)).

(** [l.append({"role": ..., "content": ...})] *)
Definition append_turn (l : lref) (t : turn) (m : store) : store :=
  let '(d, m1) := new_dict t m in list_append l d m1.

(** The references a list holds, and the turns they point to. *)
Definition items_of (m : store) (l : lref) : list dref :=
  default [] (lists m !! l).

Definition turns_of (m : store) (l : lref) : list turn :=
  omap (fun d => dicts m !! d) (items_of m l).

(** [copy.deepcopy] of a list of turn dicts: a new list, then a copy of
    each dict in order; [memo] maps the dicts already copied to their copy,
    as [deepcopy]'s memo does.  The strs are immutable and are kept. *)
Fixpoint deepcopy_items (memo : list (dref * dref)) (items : list dref)
    (y : lref) (m : store) : store :=
  match items with
  | [] => m
  | a :: rest =>
      match List.find (fun p => Nat.eqb (fst p) a) memo with
      | Some p => deepcopy_items memo rest y (list_append y (snd p) m)
      | None =>
          match dicts m !! a with
          | Some t =>
              let '(a', m1) := new_dict t m in
              deepcopy_items ((a, a') :: memo) rest y (list_append y a' m1)
          | None => deepcopy_items memo rest y m
          end
      end
  end.

Definition deepcopy (x : lref) (m : store) : lref * store :=
  let '(y, m1) := new_list m in
  (y, deepcopy_items [] (items_of m x) y m1).

(** ** Envelopes *)

(** Modelled from the spec: [MessageType] of the absent module [message]
    ("MessageKind ∈ {INIT, COMMAND, EVOLUTION_UPDATE, THRESHOLD_START,
    SUGGESTION, ERROR}"). *)
Inductive MessageType : Set :=
| INIT
| COMMAND
| EVOLUTION_UPDATE
| THRESHOLD_START
| SUGGESTION
| ERROR.

#[global] Instance MessageType_eq_dec : EqDecision MessageType.
Proof. solve_decision. Defined.

(** Modelled from the spec: [Message] of the absent module [message]
    ("Envelope: { type: MessageKind, payload: map<string, value> }").  A
    serialized envelope on a queue is identified with the envelope. *)
Record Message : Set := Msg { msg_type : MessageType; payload : pyvalue }.

(** ** The retry coordinator *)

(** What the worker acts on: the object store, the outgoing queue (oldest
    first), the text written to [output.txt] and the state of the model
    backend. *)
Record world (B : Type) : Type := World {
  mem : store;
  queue_snd : list Message;
  out_f : string;
  llm_client : B;
}.
Arguments World {B} _ _ _ _.
Arguments mem {B} _.
Arguments queue_snd {B} _.
Arguments out_f {B} _.
Arguments llm_client {B} _.

Definition with_mem {B} (f : store -> store) (w : world B) : world B :=
  World (f (mem w)) (queue_snd w) (out_f w) (llm_client w).

(** [queue_snd.put(msg.serialize())]; building, serializing and putting
    an envelope are taken not to raise. *)
Definition put {B} (msg : Message) (w : world B) : world B :=
  World (mem w) (queue_snd w ++ [msg]) (out_f w) (llm_client w).

(** [out_f.write(text)] *)
Definition write {B} (text : string) (w : world B) : world B :=
  World (mem w) (queue_snd w) (out_f w +:+ text) (llm_client w).

(** [ERROR_FEEDBACK.format(format=json.dumps(resp_format, ...), error=error_msg)] *)
Definition error_prompt_of (error_msg : string) : string :=
  ERROR_FEEDBACK_format resp_format_json error_msg.

(** The two [except] clauses at lines 179-184, tried in order: the text
    [error_msg] the matching clause builds, [None] when neither matches and
    the exception leaves the function. *)
Definition except_clauses (e : exn) : option string :=
  if isinstance e [JSONDecodeError; ValueError]
  then Some ("Response format error: " +:+ exn_str e)
  else if isinstance e [Exception]
  then Some ("Unknown error: " +:+ exn_str e)
  else None.

(** The payload [{"error": error_msg, "retries": retries}]. *)
Definition error_payload (error_msg : string) (retries : Z) : pyvalue :=
  PyDict [(PyStr "error", PyStr error_msg); (PyStr "retries", PyInt retries)].

Section Worker.
Context (rt : Runtime).
Context {B : Type}.
(** [create b model_name messages] stands for lines 142-146: the call
    [llm_client.chat.completions.create(model, messages)] followed by
    [results.choices[0].message.content.strip()].  It gives the stripped
    text [model_response] or the exception one of these raised, and the
    backend's next state. *)
Context (create : B -> string -> list turn -> outcome string * B).

(** Lines 141-177, the body of the outer [try]: [Ok tt] when it reached
    [return True]. *)
Definition attempt (model_name : string) (dialogs : lref) (w : world B)
    : outcome unit * world B :=
  let '(results, b) := create (llm_client w) model_name (turns_of (mem w) dialogs) in
  let w0 := World (mem w) (queue_snd w) (out_f w) b in
  match results with
  | Raise e => (Raise e, w0)
  | Ok model_response =>
      let w1 := with_mem (append_turn dialogs (Turn "assistant" model_response)) w0 in
      match validate_response rt model_response with
      | Raise e => (Raise e, w1)
      | Ok suggestion_payload => (Ok tt, put (Msg SUGGESTION suggestion_payload) w1)
      end
  end.

(** Lines 186-193. *)
Definition send_feedback (dialogs : lref) (error_msg : string) (w : world B) : world B :=
  with_mem (append_turn dialogs (Turn "user" (error_prompt_of error_msg))) w.

(** Lines 195-203. *)
Definition send_error (error_msg : string) (retries : Z) (w : world B) : world B :=
  put (Msg ERROR (error_payload error_msg retries)) w.

(** Lines 140-204, one round of the [while] loop entered with [retries]:
    the way the function is left ([Ok v] for [return v], [Raise e] for an
    exception no clause caught), or the world in which the next round
    starts (with [retries + 1]). *)
Definition loop_body (model_name : string) (dialogs : lref)
    (max_retries retries : Z) (w : world B)
    : (outcome pyvalue * world B) + world B :=
  let '(r, w1) := attempt model_name dialogs w in
  match r with
  | Ok _ => inl (Ok (PyBool true), w1)
  | Raise e =>
      match except_clauses e with
      | None => inl (Raise e, w1)
      | Some error_msg =>
          let retries := retries + 1 in
          if decide (retries < max_retries)
          then inr (send_feedback dialogs error_msg w1)
          else inl (Ok (PyBool false), send_error error_msg retries w1)
      end
  end.

(** Lines 138-204: the [while] loop, entered with the current value of
    [retries].  [Ok PyNone] is the result of falling off the end of the
    function. *)
Equations? retry_loop (model_name : string) (dialogs : lref)
    (max_retries retries : Z) (w : world B) : outcome pyvalue * world B
    by wf (Z.to_nat (max_retries - retries)) lt :=
retry_loop model_name dialogs max_retries retries w
    with decide (retries < max_retries) := {
  | right _ => (Ok PyNone, w)
  | left _ =>
      match loop_body model_name dialogs max_retries retries w with
      | inl left_with => left_with
      | inr w' => retry_loop model_name dialogs max_retries (retries + 1) w'
      end }.
Proof. lia. Qed.

Definition process_llm_response (model_name : string) (dialogs : lref)
    (max_retries : Z) (w : world B) : outcome pyvalue * world B :=
  retry_loop model_name dialogs max_retries 0 w.

(** The default value of the parameter [max_retries]. *)
Definition default_max_retries : Z := 3.

(** ** Prompt construction *)

Definition nl : string := String "010"%char EmptyString.

(** [str(n)] for a natural number. *)
Definition decimal (n : nat) : string := NilEmpty.string_of_uint (Nat.to_uint n).

(** The text the generator of [format_top_individuals] yields for the
    pair [(i, ind)] of [enumerate(individuals)]. *)
Definition format_individual (i : nat) (ind : pyvalue) : outcome string :=
  expression ← py_getitem rt ind "expression";
  fitness ← py_getitem rt ind "fitness";
  fitness_4f ← format_4f rt fitness;
  Ok ("Individual " +:+ decimal (i + 1) +:+ ":" +:+ nl +:+
      "- Expression: " +:+ py_str rt expression +:+ nl +:+
      "- Fitness: " +:+ fitness_4f).

Fixpoint format_individuals_from (i : nat) (individuals : list pyvalue)
    : outcome (list string) :=
  match individuals with
  | [] => Ok []
  | ind :: rest =>
      block ← format_individual i ind;
      blocks ← format_individuals_from (S i) rest;
      Ok (block :: blocks)
  end.

Definition format_top_individuals (individuals : pyvalue) : outcome string :=
  inds ← py_iter rt individuals;
  blocks ← format_individuals_from 0 inds;
  Ok (String.concat nl blocks).

(** One round of the loop of [format_previous_results]. *)
Definition format_previous_result (sugg : pyvalue) : outcome string :=
  status ← py_getitem rt sugg "status";
  if py_eq_str "success" status then
    expression ← py_getitem rt sugg "expression";
    fitness ← py_getitem rt sugg "fitness";
    fitness_4f ← format_4f rt fitness;
    reason ← py_getitem rt sugg "reason";
    Ok ("Suggested Expression: " +:+ py_str rt expression +:+ nl +:+
        "- Actual Fitness: " +:+ fitness_4f +:+ nl +:+
        "- Improvement Reason: " +:+ py_str rt reason)
  else
    expression ← py_getitem rt sugg "expression";
    error ← py_getitem rt sugg "error";
    reason ← py_getitem rt sugg "reason";
    Ok ("Suggested Expression: " +:+ py_str rt expression +:+ nl +:+
        "- Evaluation Failed: " +:+ py_str rt error +:+ nl +:+
        "- Improvement Reason: " +:+ py_str rt reason).

Fixpoint format_previous_results_loop (suggs : list pyvalue) : outcome (list string) :=
  match suggs with
  | [] => Ok []
  | sugg :: rest =>
      block ← format_previous_result sugg;
      blocks ← format_previous_results_loop rest;
      Ok (block :: blocks)
  end.

Definition format_previous_results (suggestions : pyvalue) : outcome string :=
  suggs ← py_getitem rt suggestions "suggestions";
  items ← py_iter rt suggs;
  result ← format_previous_results_loop items;
  Ok (String.concat (nl +:+ nl) result).

Definition create_system_prompt (labels operators : pyvalue) (format_example : string) : string :=
  SYSTEM_format (py_str rt labels) (py_str rt operators) format_example.

(** Lines 252-270: the text of the user turn of an [EVOLUTION_UPDATE]. *)
Definition round_prompt (msg_payload : pyvalue) : outcome string :=
  top_individuals ← py_get rt msg_payload "top_individuals" (PyList []);
  previous_suggestions ← py_get rt msg_payload "previous_suggestions" PyNone;
  formatted_individuals ← format_top_individuals top_individuals;
  prompt ←
    match previous_suggestions with
    | PyNone => Ok (FIRST_ROUND_format formatted_individuals)
    | _ =>
        formatted_results ← format_previous_results previous_suggestions;
        Ok (SUBSEQUENT_ROUND_format formatted_individuals formatted_results)
    end;
  Ok (prompt +:+ JSON_SUFFIX).

End Worker.

(** ** The dispatcher [llama_main] *)

(** [s.capitalize()] on ASCII text: the first character in upper case,
    the others in lower case. *)
Definition upper (c : ascii) : ascii :=
  let n := nat_of_ascii c in
  if (97 <=? n)%nat && (n <=? 122)%nat then ascii_of_nat (n - 32) else c.

Definition lower (c : ascii) : ascii :=
  let n := nat_of_ascii c in
  if (65 <=? n)%nat && (n <=? 90)%nat then ascii_of_nat (n + 32) else c.

Fixpoint lower_all (s : string) : string :=
  match s with
  | EmptyString => EmptyString
  | String c rest => String (lower c) (lower_all rest)
  end.

Definition capitalize (s : string) : string :=
  match s with
  | EmptyString => EmptyString
  | String c rest => String (upper c) (lower_all rest)
  end.

Definition ENDED : string :=
  nl +:+ "============Conversation ended.============" +:+ nl.

Definition SEPARATOR : string :=
  "==================================" +:+ nl.

(** Lines 296-297: the two writes for one turn. *)
Definition transcript_block (msg : turn) : string :=
  (capitalize (role msg) +:+ ": " +:+ content msg +:+ nl +:+ nl) +:+ SEPARATOR.

(** Lines 293-297: the text the final loop writes. *)
Fixpoint transcript (turns : list turn) : string :=
  match turns with
  | [] => EmptyString
  | msg :: rest => transcript_block msg +:+ transcript rest
  end.

(** The local variables of [llama_main] that hold references. *)
Record locals : Set := Locals { init_dialogs : lref; dialogs : lref }.

(** What one round of [while True] finds on [queue_recv]: nothing within
    the timeout, data that [Message.deserialize] rejects, or an envelope. *)
Inductive event : Set :=
| QueueEmpty
| Undecodable
| Received (msg : Message).

Inductive status (B : Type) : Type :=
| Running (st : locals) (w : world B)   (* back at the head of the loop *)
| Exited (w : world B)                  (* [llama_main] returned *)
| Crashed (e : exn) (w : world B).      (* an exception left [llama_main] *)
Arguments Running {B} st w.
Arguments Exited {B} w.
Arguments Crashed {B} e w.

Section Dispatcher.
Context (rt : Runtime).
Context {B : Type}.
Context (create : B -> string -> list turn -> outcome string * B).
Context (model_name : string).

(** Lines 212-215: the file opened for writing and the two empty lists. *)
Definition llama_start (queue : list Message) (b : B) : locals * world B :=
  (Locals 0%nat 1%nat, World (Store [[]; []] []) queue EmptyString b).

(** Lines 229-241. *)
Definition handle_INIT (msg : Message) (st : locals) (w : world B)
    : outcome (locals * world B) :=
  labels ← py_get rt (payload msg) "labels" (PyList []);
  operators ← py_get rt (payload msg) "operators" (PyList []);
  let '(init_dialogs_setting, m1) := new_list (mem w) in
  let system_prompt := create_system_prompt rt labels operators resp_format_json in
  let m2 := append_turn init_dialogs_setting (Turn "system" system_prompt) m1 in
  Ok (Locals init_dialogs_setting (dialogs st),
      World m2 (queue_snd w) (out_f w) (llm_client w)).

(** Lines 251-278.  The value [process_llm_response] returns only
    decides whether a line is printed. *)
Definition handle_EVOLUTION_UPDATE (msg : Message) (st : locals) (w : world B)
    : status B :=
  match round_prompt rt (payload msg) with
  | Raise e => Crashed e w
  | Ok prompt =>
      let w1 := with_mem (append_turn (dialogs st) (Turn "user" prompt)) w in
      let '(returned, w2) := process_llm_response rt create model_name (dialogs st)
                               default_max_retries w1 in
      match returned with
      | Ok _ => Running st w2
      | Raise e => Crashed e w2
      end
  end.

(** Lines 279-287. *)
Definition handle_THRESHOLD_START (msg : Message) (st : locals) (w : world B)
    : outcome (locals * world B) :=
  threshold ← py_get rt (payload msg) "threshold" PyNone;
  train_size ← py_get rt (payload msg) "train_size" PyNone;
  test_size ← py_get rt (payload msg) "test_size" PyNone;
  let info :=
    "Received threshold experiment start message: Threshold = " +:+ py_str rt threshold +:+
    ", Training set size = " +:+ py_str rt train_size +:+
    ", Test set size = " +:+ py_str rt test_size in
  let '(copy, m1) := deepcopy (init_dialogs st) (mem w) in
  Ok (Locals (init_dialogs st) copy,
      write (info +:+ nl) (World m1 (queue_snd w) (out_f w) (llm_client w))).

(** Lines 292-299, after the [break]. *)
Definition flush_transcript (st : locals) (w : world B) : world B :=
  write (transcript (turns_of (mem w) (dialogs st))) w.

(** Lines 218-290: one round of [while True]. *)
Definition step (st : locals) (w : world B) (ev : event) : status B :=
  match ev with
  | QueueEmpty => Running st w
  | Undecodable => Running st w
  | Received msg =>
      match msg_type msg with
      | INIT =>
          match handle_INIT msg st w with
          | Ok (st', w') => Running st' w'
          | Raise e => Crashed e w
          end
      | COMMAND =>
          match py_get rt (payload msg) "command" (PyStr EmptyString) with
          | Ok command =>
              if py_eq_str "exit" command
              then Exited (flush_transcript st (write ENDED w))
              else Running st w
          | Raise e => Crashed e w
          end
      | EVOLUTION_UPDATE => handle_EVOLUTION_UPDATE msg st w
      | THRESHOLD_START =>
          match handle_THRESHOLD_START msg st w with
          | Ok (st', w') => Running st' w'
          | Raise e => Crashed e w
          end
      | _ => Running st w
      end
  end.

(** [llama_main] fed the events [evs]: it stops at the first round that
    exits or crashes, and is back at the head of the loop when they have
    all been taken. *)
Fixpoint run (st : locals) (w : world B) (evs : list event) : status B :=
  match evs with
  | [] => Running st w
  | ev :: rest =>
      match step st w ev with
      | Running st' w' => run st' w' rest
      | stopped => stopped
      end
  end.

Definition llama_main (queue : list Message) (b : B) (evs : list event) : status B :=
  let '(st, w) := llama_start queue b in run st w evs.

End Dispatcher.

(** * Vocabulary of the statements *)

(** No list holds a reference to a dict that does not exist. *)
Definition wf_store (m : store) : Prop :=
  Forall (Forall (fun d => (d < length (dicts m))%nat)) (lists m).

(** Both variables refer to existing lists, and not to the same one. *)
Definition wf_state {B} (st : locals) (w : world B) : Prop :=
  wf_store (mem w) /\
  (init_dialogs st < length (lists (mem w)))%nat /\
  (dialogs st < length (lists (mem w)))%nat /\
  init_dialogs st <> dialogs st.

(** [l.append(...)] for each turn of [ts] in order. *)
Definition append_turns (l : lref) (ts : list turn) (m : store) : store :=
  foldl (fun m t => append_turn l t m) m ts.

(** The text [error_msg] built for [e]. *)
Definition error_msg_of (e : exn) : string :=
  (if isinstance e [JSONDecodeError; ValueError]
   then "Response format error: " else "Unknown error: ") +:+ exn_str e.

(** The envelopes put on [queue_snd] between [w] and [w']. *)
Definition emitted {B} (w w' : world B) : list Message :=
  drop (length (queue_snd w)) (queue_snd w').

Definition count_type (ty : MessageType) (msgs : list Message) : nat :=
  length (filter (fun m => msg_type m = ty) msgs).

(** The two errors of the schema check and the error of the parse, as
    the source raises them. *)
Definition ParseError (underlying : string) : exn :=
  Exn ValueError ("Cannot parse response format: " +:+ underlying).

Definition SchemaError_suggestions : exn :=
  Exn ValueError "Response missing 'suggestions' field".

Definition SchemaError_fields : exn :=
  Exn ValueError "Suggestion missing required fields 'expression' or 'reason'".

(** The payload is a dict with the key [k]. *)
Definition has_key (k : string) (v : pyvalue) : bool :=
  match v with
  | PyDict kv => dict_has k kv
  | _ => false
  end.

(** A suggestion with both mandatory fields. *)
Definition complete (suggestion : pyvalue) : bool :=
  has_key "expression" suggestion && has_key "reason" suggestion.

Definition is_dict (v : pyvalue) : bool :=
  match v with
  | PyDict _ => true
  | _ => false
  end.





(** An [EVOLUTION_UPDATE] payload of the shape of the interface table:
    [top_individuals], when present, is a list of dicts with [expression]
    and a [fitness] that formats as a float; [previous_suggestions], when
    present and not [None], is a dict whose [suggestions] is a list of
    dicts with [status], [expression], [reason], and [fitness] (for a
    success) or [error] (otherwise). *)
Definition well_formed_individual (rt : Runtime) (ind : pyvalue) : bool :=
  match ind with
  | PyDict d =>
      match dict_lookup "expression" d, dict_lookup "fitness" d with
      | Some _, Some fitness => is_ok (format_4f rt fitness)
      | _, _ => false
      end
  | _ => false
  end.

Definition well_formed_outcome (rt : Runtime) (sugg : pyvalue) : bool :=
  match sugg with
  | PyDict d =>
      match dict_lookup "status" d, dict_lookup "expression" d, dict_lookup "reason" d with
      | Some status, Some _, Some _ =>
          if py_eq_str "success" status
          then match dict_lookup "fitness" d with
               | Some fitness => is_ok (format_4f rt fitness)
               | None => false
               end
          else bool_decide (is_Some (dict_lookup "error" d))
      | _, _, _ => false
      end
  | _ => false
  end.

Definition well_formed_update (rt : Runtime) (msg_payload : pyvalue) : bool :=
  match msg_payload with
  | PyDict kv =>
      match dict_lookup "top_individuals" kv with
      | None => true
      | Some (PyList inds) => forallb (well_formed_individual rt) inds
      | Some _ => false
      end &&
      match dict_lookup "previous_suggestions" kv with
      | None | Some PyNone => true
      | Some (PyDict prev) =>
          match dict_lookup "suggestions" prev with
          | Some (PyList suggs) => forallb (well_formed_outcome rt) suggs
          | _ => false
          end
      | Some _ => false
      end
  | _ => false
  end.

(** The event is an envelope of kind [ty]. *)
Definition is_kind (ty : MessageType) (ev : event) : bool :=
  match ev with
  | Received msg => bool_decide (msg_type msg = ty)
  | _ => false
  end.

(** A turn the retry loop or the [EVOLUTION_UPDATE] handler appends. *)
Definition conversational (t : turn) : Prop :=
  role t = "assistant" \/ role t = "user".

(** What a round that leaves the worker running has done to the two
    lists: it keeps the state well formed, leaves every list other than
    [dialogs] as it was, and either (1) kept both references and appended
    conversational turns to [dialogs], or (2) was an [INIT], which points
    [init_dialogs] to a new list and leaves [dialogs] alone, or (3) was a
    [THRESHOLD_START], which points [dialogs] to a new list equal to
    [init_dialogs]. *)
Definition round_effect {B} (st : locals) (w : world B) (ev : event)
    (st' : locals) (w' : world B) : Prop :=
  wf_state st' w' /\
  (length (lists (mem w)) <= length (lists (mem w')))%nat /\
  (forall r, (r < length (lists (mem w)))%nat -> r <> dialogs st ->
     turns_of (mem w') r = turns_of (mem w) r) /\
  ((is_kind INIT ev = false /\ is_kind THRESHOLD_START ev = false /\
    st' = st /\
    exists extra,
      turns_of (mem w') (dialogs st) = turns_of (mem w) (dialogs st) ++ extra /\
      Forall conversational extra) \/
   (is_kind INIT ev = true /\
    dialogs st' = dialogs st /\
    init_dialogs st' = length (lists (mem w)) /\
    turns_of (mem w') (dialogs st) = turns_of (mem w) (dialogs st)) \/
   (is_kind THRESHOLD_START ev = true /\
    init_dialogs st' = init_dialogs st /\
    dialogs st' = length (lists (mem w)) /\
    turns_of (mem w') (dialogs st') = turns_of (mem w) (init_dialogs st) /\
    turns_of (mem w') (dialogs st) = turns_of (mem w) (dialogs st))).

(** ** A concrete runtime and concrete backends, for examples *)

(** The raw text of the specification's example and the value
    [json.loads] gives for it. *)
Definition example_text : string :=
  "{" +:+ dq +:+ "suggestions" +:+ dq +:+ ":[{" +:+ dq +:+ "expression" +:+ dq +:+ ":" +:+
  dq +:+ "gt(x0,x1)" +:+ dq +:+ "," +:+ dq +:+ "reason" +:+ dq +:+ ":" +:+ dq +:+ "simpler" +:+
  dq +:+ "}]," +:+ dq +:+ "anomaly_score" +:+ dq +:+ ":0.2," +:+ dq +:+ "reason" +:+ dq +:+
  ":" +:+ dq +:+ "ok" +:+ dq +:+ "}".

Definition example_payload : pyvalue :=
  PyDict [(PyStr "suggestions",
           PyList [PyDict [(PyStr "expression", PyStr "gt(x0,x1)");
                           (PyStr "reason", PyStr "simpler")]]);
          (PyStr "anomaly_score", PyFloat "0.2");
          (PyStr "reason", PyStr "ok")].

(** The same batch with [reason] left out of the suggestion. *)
Definition example_text_no_reason : string :=
  "{" +:+ dq +:+ "suggestions" +:+ dq +:+ ":[{" +:+ dq +:+ "expression" +:+ dq +:+ ":" +:+
  dq +:+ "gt(x0,x1)" +:+ dq +:+ "}]}".

Definition example_payload_no_reason : pyvalue :=
  PyDict [(PyStr "suggestions",
           PyList [PyDict [(PyStr "expression", PyStr "gt(x0,x1)")]])].

(** A runtime that knows the texts of the examples: [json.loads] and
    [ast.literal_eval] give what Python gives on them and reject every
    other text; the texts of the interpreter's errors are CPython 3.11's. *)
Definition example_runtime : Runtime := {|
  json_loads s :=
    if String.eqb s example_text then Ok example_payload
    else if String.eqb s example_text_no_reason then Ok example_payload_no_reason
    else if String.eqb s "42" then Ok (PyInt 42)
    else Raise (Exn JSONDecodeError "Expecting value: line 1 column 1 (char 0)");
  literal_eval s :=
    if String.eqb s "{[1]:2}" then Raise (Exn TypeError "unhashable type: 'list'")
    else Raise (Exn SyntaxError "invalid syntax (<unknown>, line 1)");
  py_str v :=
    match v with
    | PyStr s => s
    | PyNone => "None"
    | PyList [] => "[]"
    | _ => "<value>"
    end;
  format_4f v :=
    match v with
    | PyFloat "0.5" => Ok "0.5000"
    | _ => Raise (Exn TypeError "unsupported format string")
    end;
  fault_str f :=
    match f with
    | NotContainer (PyInt _) => "argument of type 'int' is not iterable"
    | NotIterable (PyInt _) => "'int' object is not iterable"
    | MissingKey k => "'" +:+ k +:+ "'"
    | _ => "<interpreter error>"
    end;
|}.

(** A backend that answers its [n]-th call with the [n]-th entry of
    [script] (and with the empty text once the script is used up),
    whatever it is sent; its state is the number of calls made. *)
Definition scripted (script : list (outcome string))
    (calls : nat) (model : string) (messages : list turn) : outcome string * nat :=
  (nth calls script (Ok EmptyString), S calls).

(** The worker right after [INIT] and [THRESHOLD_START] with empty
    payloads, on an empty [queue_snd]. *)
Definition example_events : list event :=
  [Received (Msg INIT (PyDict [])); Received (Msg THRESHOLD_START (PyDict []))].

Definition example_model : string := "Qwen/Qwen2.5-72B-Instruct".

(** The worker as [llama_main] starts it, on an empty [queue_snd]. *)
Definition st_start : locals := fst (llama_start [] 0%nat).
Definition w_start : world nat := snd (llama_start [] 0%nat).

(** The state a run has reached, the start state if it has stopped. *)
Definition reached (s : status nat) : locals * world nat :=
  match s with
  | Running st w => (st, w)
  | _ => (st_start, w_start)
  end.

(** A backend whose answers are three texts that are not JSON. *)
Definition three_bad_answers : nat -> string -> list turn -> outcome string * nat :=
  scripted [Ok "not json"; Ok "not json"; Ok "not json"].

(** A backend whose first call raises a connection error, one whose
    first call raises a [ValueError], and one that gives the example text. *)
Definition unreachable_backend : nat -> string -> list turn -> outcome string * nat :=
  scripted [Raise (Exn Exception "Connection error.")].

Definition value_error_backend : nat -> string -> list turn -> outcome string * nat :=
  scripted [Raise (Exn ValueError "boom")].

Definition good_backend : nat -> string -> list turn -> outcome string * nat :=
  scripted [Ok example_text].

(** The worlds after each of the three failed attempts of
    [three_bad_answers] from the start. *)
Definition bad_error : exn := ParseError "invalid syntax (<unknown>, line 1)".

Definition after_bad_1 : world nat :=
  snd (attempt example_runtime three_bad_answers example_model 1 w_start).

Definition after_bad_2 : world nat :=
  snd (attempt example_runtime three_bad_answers example_model 1
         (send_feedback 1 (error_msg_of bad_error) after_bad_1)).

Definition after_bad_3 : world nat :=
  snd (attempt example_runtime three_bad_answers example_model 1
         (send_feedback 1 (error_msg_of bad_error) after_bad_2)).

(** The worker after an [INIT], and after an [INIT] and a
    [THRESHOLD_START], with empty payloads. *)
Definition after_init : locals * world nat :=
  reached (llama_main example_runtime good_backend example_model [] 0%nat
             [Received (Msg INIT (PyDict []))]).

Definition after_reset : locals * world nat :=
  reached (llama_main example_runtime good_backend example_model [] 0%nat example_events).

(** The worker after [INIT], [THRESHOLD_START] and one [EVOLUTION_UPDATE]
    answered with the example text. *)
Definition after_round : locals * world nat :=
  reached (llama_main example_runtime good_backend example_model [] 0%nat
             (example_events ++ [Received (Msg EVOLUTION_UPDATE (PyDict []))])).

(** A second [INIT], with labels, received after that round. *)
Definition second_INIT : Message :=
  Msg INIT (PyDict [(PyStr "labels", PyList [PyStr "x0"; PyStr "x1"])]).

Definition after_second_init : locals * world nat :=
  match handle_INIT example_runtime second_INIT (fst after_round) (snd after_round) with
  | Ok p => p
  | Raise _ => after_round
  end.

Definition exit_command : list (pyvalue * pyvalue) := [(PyStr "command", PyStr "exit")].

(** The transcript block in the specification's words: "role label, blank
    line, content, then a separator line". *)
Definition spec_transcript_block (msg : turn) : string :=
  capitalize (role msg) +:+ nl +:+ nl +:+ content msg +:+ nl +:+ SEPARATOR.

Fixpoint spec_transcript (turns : list turn) : string :=
  match turns with
  | [] => EmptyString
  | msg :: rest => spec_transcript_block msg +:+ spec_transcript rest
  end.

(** ** Observing the backend *)

(** The backend [create] with a log: its state is paired with the list
    of the conversations it was sent, oldest first, one per call. *)
Definition logged {B} (create : B -> string -> list turn -> outcome string * B)
    (s : B * list (list turn)) (model : string) (messages : list turn)
    : outcome string * (B * list (list turn)) :=
  let '(results, b) := create (fst s) model messages in
  (results, (b, snd s ++ [messages])).

(** The conversations sent to the backend between [w] and [w']. *)
Definition calls {B} (w w' : world (B * list (list turn))) : list (list turn) :=
  drop (length (snd (llm_client w))) (snd (llm_client w')).

(** The number of events of kind [ty]. *)
Definition count_kind (ty : MessageType) (evs : list event) : nat :=
  length (filter (fun ev => is_kind ty ev = true) evs).

(** An event that [llama_main] lets pass: a timeout, data it cannot
    decode, an envelope of a kind it has no branch for, or a [COMMAND]
    whose payload is a dict with a command other than ["exit"]. *)
Definition ignorable (ev : event) : bool :=
  match ev with
  | QueueEmpty | Undecodable => true
  | Received msg =>
      match msg_type msg, payload msg with
      | (SUGGESTION | ERROR), _ => true
      | COMMAND, PyDict kv =>
          negb (py_eq_str "exit" (from_option id (PyStr EmptyString) (dict_lookup "command" kv)))
      | _, _ => false
      end
  end.

(** The line [THRESHOLD_START] writes to the file. *)
Definition threshold_line (rt : Runtime) (msg_payload : pyvalue) : outcome string :=
  threshold ← py_get rt msg_payload "threshold" PyNone;
  train_size ← py_get rt msg_payload "train_size" PyNone;
  test_size ← py_get rt msg_payload "test_size" PyNone;
  Ok (("Received threshold experiment start message: Threshold = " +:+ py_str rt threshold +:+
       ", Training set size = " +:+ py_str rt train_size +:+
       ", Test set size = " +:+ py_str rt test_size) +:+ nl).

(** The block of [format_top_individuals] for the [k]-th individual
    (counted from 0) with the given expression and formatted fitness. *)
Definition individual_block (rt : Runtime) (k : nat) (expression : pyvalue)
    (fitness_4f : string) : string :=
  "Individual " +:+ decimal (k + 1) +:+ ":" +:+ nl +:+
  "- Expression: " +:+ py_str rt expression +:+ nl +:+
  "- Fitness: " +:+ fitness_4f.

(** No dict is held twice: not twice by one list, not by two lists. *)
Definition unshared (m : store) : Prop := NoDup (concat (lists m)).

(** The start world for a logged backend, and a well-formed payload with
    one individual and two outcomes of the previous round. *)
Definition w_start_logged : world (nat * list (list turn)) :=
  World (mem w_start) [] EmptyString (0%nat, []).

Definition example_individual : pyvalue :=
  PyDict [(PyStr "expression", PyStr "gt(x0,x1)"); (PyStr "fitness", PyFloat "0.5")].

Definition example_update : pyvalue :=
  PyDict [(PyStr "top_individuals", PyList [example_individual]);
          (PyStr "previous_suggestions",
           PyDict [(PyStr "suggestions",
                    PyList [PyDict [(PyStr "status", PyStr "success");
                                    (PyStr "expression", PyStr "gt(x0,x1)");
                                    (PyStr "fitness", PyFloat "0.5");
                                    (PyStr "reason", PyStr "simpler")];
                            PyDict [(PyStr "status", PyStr "fail");
                                    (PyStr "expression", PyStr "gt(x0,");
                                    (PyStr "error", PyStr "unbalanced");
                                    (PyStr "reason", PyStr "shorter")]])])].

(** The conversation [messages] starts with [history] and ends with a
    user turn. *)
Definition extends_to_user (history messages : list turn) : Prop :=
  history `prefix_of` messages /\
  exists t, last messages = Some t /\ role t = "user".

(** What the checks of lines 164-169 have established of a payload: it is
    a dict with a [suggestions] entry that can be iterated, and
    ['expression' in x] and ['reason' in x] hold of every element [x]. *)
Definition accepted (rt : Runtime) (suggestion_payload : pyvalue) : Prop :=
  exists kv suggestions items,
    suggestion_payload = PyDict kv /\
    dict_lookup "suggestions" kv = Some suggestions /\
    py_iter rt suggestions = Ok items /\
    Forall (fun x => py_contains rt "expression" x = Ok true /\
                     py_contains rt "reason" x = Ok true) items.

(** A backend that first answers with a text that is not JSON and then
    with the example text. *)
Definition second_try_backend : nat -> string -> list turn -> outcome string * nat :=
  scripted [Ok "not json"; Ok example_text].

(** The lines the [THRESHOLD_START] events among [evs] write, in order. *)
Definition threshold_lines (rt : Runtime) (evs : list event) : list string :=
  omap (fun ev =>
          match ev with
          | Received msg =>
              if bool_decide (msg_type msg = THRESHOLD_START)
              then match threshold_line rt (payload msg) with
                   | Ok line => Some line
                   | Raise _ => None
                   end
              else None
          | _ => None
          end) evs.

(** The texts [lines] written one after the other. *)
Definition written (lines : list string) : string :=
  foldr (fun line rest => line +:+ rest) EmptyString lines.

(** The events of a short session: [INIT], [THRESHOLD_START], one
    [EVOLUTION_UPDATE], a second [THRESHOLD_START]. *)
Definition example_session : list event :=
  example_events ++
  [Received (Msg EVOLUTION_UPDATE (PyDict []));
   Received (Msg THRESHOLD_START (PyDict [(PyStr "threshold", PyNone)]))].

(** The payload has no [previous_suggestions], or has [None] there. *)
Definition first_round (msg_payload : pyvalue) : bool :=
  match msg_payload with
  | PyDict kv =>
      match dict_lookup "previous_suggestions" kv with
      | None | Some PyNone => true
      | Some _ => false
      end
  | _ => false
  end.

(** A conversation with at most one system turn, which is then the
    first turn; every other turn is a user or an assistant turn. *)
Definition system_first (turns : list turn) : Prop :=
  exists pre conv,
    turns = pre ++ conv /\
    (pre = [] \/ exists prompt, pre = [Turn "system" prompt]) /\
    Forall conversational conv.

(** [init_dialogs] is empty or holds one system turn, and [dialogs] is
    [system_first]. *)
Definition prefix_is_system {B} (st : locals) (w : world B) : Prop :=
  (turns_of (mem w) (init_dialogs st) = [] \/
   exists prompt, turns_of (mem w) (init_dialogs st) = [Turn "system" prompt]) /\
  system_first (turns_of (mem w) (dialogs st)).

(** The state a run with a logged backend has reached, the start state if
    it has stopped. *)
Definition reached_logged (s : status (nat * list (list turn)))
    : locals * world (nat * list (list turn)) :=
  match s with
  | Running st w => (st, w)
  | _ => (st_start, w_start_logged)
  end.

(** The worker with a logged [second_try_backend] after one
    [EVOLUTION_UPDATE] from the start, and after the example session. *)
Definition after_logged_round : locals * world (nat * list (list turn)) :=
  reached_logged (step example_runtime (logged second_try_backend) example_model
                    st_start w_start_logged (Received (Msg EVOLUTION_UPDATE (PyDict [])))).

Definition after_logged_session : locals * world (nat * list (list turn)) :=
  reached_logged (run example_runtime (logged second_try_backend) example_model
                    st_start w_start_logged example_session).

(** The worker after the example session, and the world in which
    [process_llm_response] leaves the start world when the backend gives
    the example text. *)
Definition after_session : locals * world nat :=
  reached (run example_runtime good_backend example_model st_start w_start example_session).

Definition after_good_call : world nat :=
  snd (process_llm_response example_runtime good_backend example_model 1 3 w_start).

(** An individual without [fitness], and events the worker lets pass. *)
Definition example_individual_no_fitness : list (pyvalue * pyvalue) :=
  [(PyStr "expression", PyStr "x0")].

Definition example_ignorable : list event :=
  [QueueEmpty; Undecodable; Received (Msg SUGGESTION PyNone);
   Received (Msg COMMAND (PyDict [(PyStr "command", PyStr "pause")]));
   Received (Msg ERROR (PyDict []))].

(** The blocks of [format_previous_results] for a suggestion whose
    [status] is ['success'] and for any other suggestion. *)
Definition success_block (rt : Runtime) (expression : pyvalue) (fitness_4f : string)
    (reason : pyvalue) : string :=
  "Suggested Expression: " +:+ py_str rt expression +:+ nl +:+
  "- Actual Fitness: " +:+ fitness_4f +:+ nl +:+
  "- Improvement Reason: " +:+ py_str rt reason.

Definition failure_block (rt : Runtime) (expression error reason : pyvalue) : string :=
  "Suggested Expression: " +:+ py_str rt expression +:+ nl +:+
  "- Evaluation Failed: " +:+ py_str rt error +:+ nl +:+
  "- Improvement Reason: " +:+ py_str rt reason.

(** The outcomes of a previous round: one success, and one with a status
    that is not ['success'] and no [fitness]. *)
Definition example_previous : pyvalue :=
  PyDict [(PyStr "suggestions",
           PyList [PyDict [(PyStr "status", PyStr "success");
                           (PyStr "expression", PyStr "gt(x0,x1)");
                           (PyStr "fitness", PyFloat "0.5");
                           (PyStr "reason", PyStr "simpler")];
                   PyDict [(PyStr "status", PyStr "Success");
                           (PyStr "expression", PyStr "gt(x0,");
                           (PyStr "error", PyStr "unbalanced");
                           (PyStr "reason", PyStr "shorter")]])].

(** A turn the retry loop appends: a response, as an assistant turn, or
    the error feedback, as a user turn. *)
Definition retry_turn (t : turn) : Prop :=
  role t = "assistant" \/ exists error_msg, t = Turn "user" (error_prompt_of error_msg).

(** The turns the events [evs] append to [dialogs] when none of them is a
    [THRESHOLD_START]: an event that is not an [EVOLUTION_UPDATE] appends
    nothing; an [EVOLUTION_UPDATE] appends the user turn with its round
    prompt, followed by the turns of the retry loop for that prompt, at
    most five (three responses and two feedback turns). *)
Inductive appended_by (rt : Runtime) : list event -> list turn -> Prop :=
| appended_nil : appended_by rt [] []
| appended_other (ev : event) (evs : list event) (ts : list turn) :
    is_kind EVOLUTION_UPDATE ev = false ->
    appended_by rt evs ts ->
    appended_by rt (ev :: evs) ts
| appended_update (msg : Message) (evs : list event) (prompt : string)
    (answers ts : list turn) :
    msg_type msg = EVOLUTION_UPDATE ->
    round_prompt rt (payload msg) = Ok prompt ->
    Forall retry_turn answers ->
    (length answers <= 5)%nat ->
    appended_by rt evs ts ->
    appended_by rt (Received msg :: evs) (Turn "user" prompt :: answers ++ ts).

(** The worker after the example session and one more
    [EVOLUTION_UPDATE]. *)
Definition after_session_round : locals * world nat :=
  reached (run example_runtime good_backend example_model
             (fst after_session) (snd after_session)
             [QueueEmpty; Received (Msg EVOLUTION_UPDATE (PyDict []))]).

(** ** The schema check on every payload *)

(** A value that [in] applies to when a str is on its left: a str
    (substring), a list, tuple or set (element), a dict (key). *)
Definition is_container (v : pyvalue) : bool :=
  match v with
  | PyStr _ | PyList _ | PyTuple _ | PySet _ | PyDict _ => true
  | _ => false
  end.

(** The container [v] holds the name [k]: as a substring of a str, as an
    element of a list, tuple or set, as a key of a dict. *)
Definition holds (k : string) (v : pyvalue) : bool :=
  match v with
  | PyStr s => is_substring k s
  | PyList l | PyTuple l | PySet l => existsb (py_eq_str k) l
  | PyDict kv => dict_has k kv
  | _ => false
  end.

(** An element that is not a dict and yet holds both names. *)
Definition holds_names_without_keys (x : pyvalue) : bool :=
  negb (is_dict x) && holds "expression" x && holds "reason" x.

(** The first element that is not a dict with both keys. *)
Definition first_incomplete (items : list pyvalue) : option pyvalue :=
  List.find (fun x => negb (complete x)) items.

(** The rule of the claim on an arbitrary payload, with the type errors of
    the interpreter: a payload passes when it is a dict with the key
    [suggestions] every element of which is a dict with the keys
    [expression] and [reason], and is otherwise rejected with one of the
    two schema errors; except that an operation applied to a value that
    does not support it ([in] on a payload or an element that is not a
    container, subscription of a str, list, tuple or set that holds
    ['suggestions'], iteration over a [suggestions] entry that cannot be
    iterated) gives the [TypeError] of that operation.  [None]: the rule
    says nothing, which is the case when the first element that is not
    such a dict holds both names without being a dict. *)
Definition keyed_schema_check (rt : Runtime) (suggestion_payload : pyvalue)
    : option (outcome unit) :=
  match suggestion_payload with
  | PyDict kv =>
      match dict_lookup "suggestions" kv with
      | None => Some (Raise SchemaError_suggestions)
      | Some suggestions =>
          match py_iter rt suggestions with
          | Raise _ => Some (Raise (Exn TypeError (fault_str rt (NotIterable suggestions))))
          | Ok items =>
              match first_incomplete items with
              | None => Some (Ok tt)
              | Some x =>
                  if negb (is_container x)
                  then Some (Raise (Exn TypeError (fault_str rt (NotContainer x))))
                  else if holds_names_without_keys x then None
                  else Some (Raise SchemaError_fields)
              end
          end
      end
  | PyStr _ | PyList _ | PyTuple _ | PySet _ =>
      if holds "suggestions" suggestion_payload
      then Some (Raise (Exn TypeError (fault_str rt (NotSubscriptable suggestion_payload))))
      else Some (Raise SchemaError_suggestions)
  | _ => Some (Raise (Exn TypeError (fault_str rt (NotContainer suggestion_payload))))
  end.


(** * Properties *)

(** ** The object store *)

Lemma omap_cons_Some {A C} (f : A -> option C) (x : A) (y : C) (l : list A) :
  f x = Some y -> omap f (x :: l) = y :: omap f l.
Proof. intros E. cbn. by rewrite E. Qed.

Lemma omap_lookup_app (ds extra : list turn) (items : list dref) :
  Forall (fun d => (d < length ds)%nat) items ->
  omap (fun d => (ds ++ extra) !! d) items = omap (fun d => ds !! d) items.
Proof.
  induction 1 as [|d items Hd _ IH]; [done|].
  destruct (lookup_lt_is_Some_2 ds d Hd) as [t Ht].
  rewrite (omap_cons_Some _ d t) by by rewrite lookup_app_l.
  rewrite (omap_cons_Some _ d t) by done.
  f_equal. exact IH.
Qed.

Lemma omap_lookup_length (ds : list turn) (items : list dref) :
  Forall (fun d => (d < length ds)%nat) items ->
  length (omap (fun d => ds !! d) items) = length items.
Proof.
  induction 1 as [|d items Hd _ IH]; [done|].
  destruct (lookup_lt_is_Some_2 ds d Hd) as [t Ht].
  rewrite (omap_cons_Some _ d t) by done. cbn. f_equal. exact IH.
Qed.

Lemma wf_store_items (m : store) (l : lref) :
  wf_store m -> Forall (fun d => (d < length (dicts m))%nat) (items_of m l).
Proof.
  intros Hwf. unfold items_of.
  destruct (lists m !! l) as [items|] eqn:E; cbn; [|constructor].
  eapply Forall_lookup_1 in Hwf; eauto.
Qed.

Lemma Forall_lt_mono (items : list dref) (n n' : nat) :
  (n <= n')%nat -> Forall (fun d => (d < n)%nat) items ->
  Forall (fun d => (d < n')%nat) items.
Proof.
  intros Hn H. eapply Forall_impl; [exact H|]. intros d Hd. cbn in Hd. lia.
Qed.

Lemma lists_append_turn (l : lref) (t : turn) (m : store) :
  lists (append_turn l t m) =
  alter (fun items => items ++ [length (dicts m)]) l (lists m).
Proof. reflexivity. Qed.

Lemma items_of_append_turn_same (l : lref) (t : turn) (m : store) :
  (l < length (lists m))%nat ->
  items_of (append_turn l t m) l = items_of m l ++ [length (dicts m)].
Proof.
  intros Hl. unfold items_of.
  rewrite lists_append_turn, list_lookup_alter_eq.
  destruct (lookup_lt_is_Some_2 (lists m) l Hl) as [items ->].
  reflexivity.
Qed.

Lemma items_of_append_turn_other (l l' : lref) (t : turn) (m : store) :
  l' <> l -> items_of (append_turn l t m) l' = items_of m l'.
Proof.
  intros Hne. unfold items_of.
  by rewrite lists_append_turn, list_lookup_alter_ne.
Qed.

Lemma dicts_append_turn (l : lref) (t : turn) (m : store) :
  dicts (append_turn l t m) = dicts m ++ [t].
Proof. done. Qed.

Lemma length_lists_append_turn (l : lref) (t : turn) (m : store) :
  length (lists (append_turn l t m)) = length (lists m).
Proof. by rewrite lists_append_turn, length_alter. Qed.

Lemma wf_store_append_turn (l : lref) (t : turn) (m : store) :
  wf_store m -> wf_store (append_turn l t m).
Proof.
  intros Hwf. unfold wf_store.
  rewrite lists_append_turn, dicts_append_turn, length_app. cbn.
  apply Forall_alter.
  - eapply Forall_impl; [exact Hwf|]. intros items.
    apply Forall_lt_mono. lia.
  - intros items _ Hitems. apply Forall_app_2; [done|].
    repeat constructor. lia.
Qed.

Lemma turns_of_append_turn_same (l : lref) (t : turn) (m : store) :
  wf_store m -> (l < length (lists m))%nat ->
  turns_of (append_turn l t m) l = turns_of m l ++ [t].
Proof.
  intros Hwf Hl. unfold turns_of.
  rewrite items_of_append_turn_same by done.
  rewrite dicts_append_turn, omap_app.
  rewrite omap_lookup_app by by apply wf_store_items.
  cbn. by rewrite list_lookup_middle.
Qed.

Lemma turns_of_append_turn_other (l l' : lref) (t : turn) (m : store) :
  wf_store m -> l' <> l ->
  turns_of (append_turn l t m) l' = turns_of m l'.
Proof.
  intros Hwf Hne. unfold turns_of.
  rewrite items_of_append_turn_other by done.
  rewrite dicts_append_turn.
  by rewrite omap_lookup_app by by apply wf_store_items.
Qed.

Lemma append_turns_snoc (l : lref) (ts : list turn) (t : turn) (m : store) :
  append_turns l (ts ++ [t]) m = append_turn l t (append_turns l ts m).
Proof. unfold append_turns. by rewrite foldl_app. Qed.

Lemma append_turns_app (l : lref) (ts1 ts2 : list turn) (m : store) :
  append_turns l (ts1 ++ ts2) m = append_turns l ts2 (append_turns l ts1 m).
Proof. unfold append_turns. by rewrite foldl_app. Qed.

Lemma append_turns_facts (l : lref) (ts : list turn) (m : store) :
  wf_store m -> (l < length (lists m))%nat ->
  wf_store (append_turns l ts m) /\
  length (lists (append_turns l ts m)) = length (lists m) /\
  turns_of (append_turns l ts m) l = turns_of m l ++ ts /\
  (forall l', l' <> l ->
     items_of (append_turns l ts m) l' = items_of m l' /\
     turns_of (append_turns l ts m) l' = turns_of m l').
Proof.
  revert m. induction ts as [|t ts IH]; intros m Hwf Hl.
  - cbn. rewrite app_nil_r. done.
  - change (append_turns l (t :: ts) m) with (append_turns l ts (append_turn l t m)).
    destruct (IH (append_turn l t m)) as (IH1 & IH2 & IH3 & IH4).
    { by apply wf_store_append_turn. }
    { by rewrite length_lists_append_turn. }
    split; [done|]. split; [by rewrite IH2, length_lists_append_turn|].
    split.
    + rewrite IH3, turns_of_append_turn_same by done. by rewrite <- app_assoc.
    + intros l' Hne. destruct (IH4 l' Hne) as [-> ->].
      by rewrite items_of_append_turn_other, turns_of_append_turn_other.
Qed.

Lemma wf_store_list_append (l : lref) (d : dref) (m : store) :
  wf_store m -> (d < length (dicts m))%nat -> wf_store (list_append l d m).
Proof.
  intros Hwf Hd. unfold wf_store, list_append. cbn.
  apply Forall_alter; [done|].
  intros items _ Hitems. apply Forall_app_2; [done|]. by repeat constructor.
Qed.

Lemma items_of_list_append_same (l : lref) (d : dref) (m : store) :
  (l < length (lists m))%nat ->
  items_of (list_append l d m) l = items_of m l ++ [d].
Proof.
  intros Hl. unfold items_of, list_append. cbn.
  rewrite list_lookup_alter_eq.
  destruct (lookup_lt_is_Some_2 (lists m) l Hl) as [items ->].
  reflexivity.
Qed.

Lemma items_of_list_append_other (l l' : lref) (d : dref) (m : store) :
  l' <> l -> items_of (list_append l d m) l' = items_of m l'.
Proof.
  intros Hne. unfold items_of, list_append. cbn.
  by rewrite list_lookup_alter_ne.
Qed.

Lemma wf_store_new_list (m : store) : wf_store m -> wf_store (snd (new_list m)).
Proof.
  intros Hwf. unfold wf_store, new_list. cbn.
  apply Forall_app_2; [done|]. by repeat constructor.
Qed.

Lemma items_of_new_list_old (m : store) (l : lref) :
  (l < length (lists m))%nat -> items_of (snd (new_list m)) l = items_of m l.
Proof. intros Hl. unfold items_of, new_list. cbn. by rewrite lookup_app_l. Qed.

Lemma items_of_new_list_new (m : store) :
  items_of (snd (new_list m)) (length (lists m)) = [].
Proof. unfold items_of, new_list. cbn. by rewrite list_lookup_middle. Qed.

(** [deepcopy_items] appends to [y] one reference per item, each to a
    dict allocated since the copy began (at index [n0] or above) and equal
    to the item it copies; it changes nothing else. *)
Lemma deepcopy_items_spec (n0 : nat) (y : lref) (items : list dref) :
  forall (memo : list (dref * dref)) (m : store),
  wf_store m ->
  (y < length (lists m))%nat ->
  (n0 <= length (dicts m))%nat ->
  Forall (fun a => (a < n0)%nat) items ->
  (forall p, In p memo ->
     (fst p < n0)%nat /\ (n0 <= snd p < length (dicts m))%nat /\
     dicts m !! snd p = dicts m !! fst p) ->
  let m' := deepcopy_items memo items y m in
  wf_store m' /\
  length (lists m') = length (lists m) /\
  (forall l, l <> y -> items_of m' l = items_of m l) /\
  (exists copies,
     items_of m' y = items_of m y ++ copies /\
     Forall (fun c => (n0 <= c)%nat) copies /\
     omap (fun c => dicts m' !! c) copies = omap (fun a => dicts m !! a) items) /\
  (exists extra, dicts m' = dicts m ++ extra).
Proof.
  induction items as [|a rest IH]; intros memo m Hwf Hy Hn0 Hitems Hmemo m';
    subst m'; cbn [deepcopy_items].
  { repeat split; try done.
    - exists []. by rewrite app_nil_r.
    - exists []. by rewrite app_nil_r. }
  apply Forall_cons in Hitems as [Ha Hrest].
  assert (Hlt : (a < length (dicts m))%nat) by lia.
  destruct (lookup_lt_is_Some_2 (dicts m) a Hlt) as [t Ht].
  destruct (List.find _ memo) as [p|] eqn:Hfind.
  - apply find_some in Hfind as [Hin Heq].
    apply Nat.eqb_eq in Heq.
    destruct (Hmemo p Hin) as (Hp1 & Hp2 & Hp3).
    destruct (IH memo (list_append y (snd p) m)) as (W & L & O & (copies & C1 & C2 & C3) & (extra & E));
      try done.
    { apply wf_store_list_append; [done|lia]. }
    { unfold list_append. cbn. by rewrite length_alter. }
    split; [done|]. split.
    { rewrite L. unfold list_append. cbn. by rewrite length_alter. }
    split.
    { intros l Hl. rewrite O by done. by apply items_of_list_append_other. }
    split; [|by exists extra].
    exists (snd p :: copies). split; [|split].
    + rewrite C1, items_of_list_append_same by done. by rewrite <- app_assoc.
    + constructor; [lia|done].
    + rewrite (omap_cons_Some _ (snd p) t).
      * rewrite (omap_cons_Some _ a t) by done. f_equal. exact C3.
      * rewrite E. change (dicts (list_append y (snd p) m)) with (dicts m).
        rewrite lookup_app_l by lia. by rewrite Hp3, Heq.
  - rewrite Ht.
    unfold new_dict; cbn beta iota zeta.
    change (list_append y (length (dicts m)) (Store (lists m) (dicts m ++ [t])))
      with (append_turn y t m).
    destruct (IH ((a, length (dicts m)) :: memo) (append_turn y t m))
      as (W & L & O & (copies & C1 & C2 & C3) & (extra & E)); try done.
    { by apply wf_store_append_turn. }
    { by rewrite length_lists_append_turn. }
    { rewrite dicts_append_turn, length_app. cbn. lia. }
    { intros p [<-|Hin]; cbn [fst snd].
      - rewrite dicts_append_turn, length_app. cbn.
        split; [lia|]. split; [lia|].
        rewrite list_lookup_middle by done. by rewrite lookup_app_l.
      - destruct (Hmemo p Hin) as (Hp1 & Hp2 & Hp3).
        rewrite dicts_append_turn, length_app. cbn.
        split; [lia|]. split; [lia|].
        rewrite !lookup_app_l by lia. done. }
    split; [done|]. split; [by rewrite L, length_lists_append_turn|].
    split.
    { intros l Hl. rewrite O by done. by apply items_of_append_turn_other. }
    split.
    + exists (length (dicts m) :: copies). split; [|split].
      * rewrite C1, items_of_append_turn_same by done. by rewrite <- app_assoc.
      * constructor; [lia|done].
      * rewrite (omap_cons_Some _ (length (dicts m)) t).
        -- rewrite (omap_cons_Some _ a t) by done. f_equal.
           rewrite C3, dicts_append_turn.
           apply omap_lookup_app.
           eapply Forall_lt_mono; [|exact Hrest]. lia.
        -- rewrite E, dicts_append_turn, <- app_assoc.
           by apply list_lookup_middle.
    + exists ([t] ++ extra). rewrite E, dicts_append_turn. by rewrite <- app_assoc.
Qed.

(** [copy.deepcopy(x)] gives a new list whose items are new dicts equal to
    those of [x]; the lists and dicts that existed are as they were. *)
Lemma deepcopy_spec (x : lref) (m : store) :
  wf_store m -> (x < length (lists m))%nat ->
  fst (deepcopy x m) = length (lists m) /\
  wf_store (snd (deepcopy x m)) /\
  length (lists (snd (deepcopy x m))) = S (length (lists m)) /\
  (forall l, (l < length (lists m))%nat ->
     items_of (snd (deepcopy x m)) l = items_of m l /\
     turns_of (snd (deepcopy x m)) l = turns_of m l) /\
  Forall (fun c => (length (dicts m) <= c)%nat)
         (items_of (snd (deepcopy x m)) (fst (deepcopy x m))) /\
  turns_of (snd (deepcopy x m)) (fst (deepcopy x m)) = turns_of m x /\
  (exists extra, dicts (snd (deepcopy x m)) = dicts m ++ extra).
Proof.
  intros Hwf Hx.
  pose proof (wf_store_items m x Hwf) as Hitems.
  change (deepcopy x m) with
    (length (lists m),
     deepcopy_items [] (items_of m x) (length (lists m)) (snd (new_list m))).
  cbn [fst snd].
  pose proof (wf_store_new_list m Hwf) as Hwf1.
  pose proof (items_of_new_list_old m) as Hold1.
  pose proof (items_of_new_list_new m) as Hnew1.
  assert (Hl1 : length (lists (snd (new_list m))) = S (length (lists m))).
  { cbn. rewrite length_app. cbn. lia. }
  assert (Hd1 : dicts (snd (new_list m)) = dicts m) by reflexivity.
  remember (snd (new_list m)) as m1 eqn:Hm1. clear Hm1.
  destruct (deepcopy_items_spec (length (dicts m)) (length (lists m))
              (items_of m x) [] m1)
    as (W & L & O & (copies & C1 & C2 & C3) & (extra & E)).
  { done. }
  { lia. }
  { by rewrite Hd1. }
  { done. }
  { intros p []. }
  remember (deepcopy_items [] (items_of m x) (length (lists m)) m1) as m' eqn:Hm'.
  clear Hm'. rewrite Hd1 in E.
  assert (Hold : forall l, (l < length (lists m))%nat -> items_of m' l = items_of m l).
  { intros l Hl. rewrite O by lia. by apply Hold1. }
  split; [done|]. split; [done|]. split; [lia|].
  split; [|split; [|split]].
  - intros l Hl. split; [by apply Hold|].
    unfold turns_of. rewrite Hold by done. rewrite E.
    apply omap_lookup_app. by apply wf_store_items.
  - by rewrite C1, Hnew1.
  - unfold turns_of at 1. rewrite C1, Hnew1. cbn [app].
    rewrite C3. by rewrite Hd1.
  - by exists extra.
Qed.

(** ** The retry loop *)

Section WorkerFacts.
Context (rt : Runtime).
Context {B : Type}.
Context (create : B -> string -> list turn -> outcome string * B).
Context (model_name : string) (dialogs : lref).

Lemma isinstance_Exception (e : exn) : isinstance e [Exception] = true.
Proof. unfold isinstance. cbn. by destruct (exn_cls e). Qed.

(** One of the two [except] clauses catches every exception. *)
Lemma except_clauses_catch (e : exn) : except_clauses e = Some (error_msg_of e).
Proof.
  unfold except_clauses, error_msg_of.
  destruct (isinstance e [JSONDecodeError; ValueError]); [done|].
  by rewrite isinstance_Exception.
Qed.

Lemma retry_loop_step (max_retries retries : Z) (w : world B) :
  retry_loop rt create model_name dialogs max_retries retries w =
  if decide (retries < max_retries) then
    match loop_body rt create model_name dialogs max_retries retries w with
    | inl left_with => left_with
    | inr w' => retry_loop rt create model_name dialogs max_retries (retries + 1) w'
    end
  else (Ok PyNone, w).
Proof.
  rewrite retry_loop_equation_1.
  destruct (decide (retries < max_retries)); reflexivity.
Qed.

(** What the body of the [try] does: it either puts one [SUGGESTION] after
    recording the response, or raises, having recorded the response when
    there was one. *)
Lemma attempt_cases (w : world B) :
  let r := fst (attempt rt create model_name dialogs w) in
  let w1 := snd (attempt rt create model_name dialogs w) in
  out_f w1 = out_f w /\
  ((exists text p,
      r = Ok tt /\
      mem w1 = append_turn dialogs (Turn "assistant" text) (mem w) /\
      queue_snd w1 = queue_snd w ++ [Msg SUGGESTION p]) \/
   (exists e,
      r = Raise e /\ queue_snd w1 = queue_snd w /\
      (mem w1 = mem w \/
       exists text, mem w1 = append_turn dialogs (Turn "assistant" text) (mem w)))).
Proof.
  unfold attempt.
  destruct (create _ _ _) as [[text|e] b]; cbn.
  - destruct (validate_response rt text) as [p|e]; cbn.
    + split; [done|]. left. by exists text, p.
    + split; [done|]. right. exists e. repeat split; try done. right. by exists text.
  - split; [done|]. right. exists e. repeat split; try done. by left.
Qed.

(** The loop, once entered, returns a boolean after putting exactly one
    envelope: a [SUGGESTION] with [True], an [ERROR] with [False].  It
    writes nothing to the file and only appends assistant and user turns
    to [dialogs]. *)
Lemma retry_loop_entered (max_retries : Z) (n : nat) :
  forall (retries : Z) (w : world B),
  Z.to_nat (max_retries - retries) = n ->
  retries < max_retries ->
  exists (b : bool) (env : Message) (ts : list turn) (w' : world B),
    retry_loop rt create model_name dialogs max_retries retries w = (Ok (PyBool b), w') /\
    queue_snd w' = queue_snd w ++ [env] /\
    msg_type env = (if b then SUGGESTION else ERROR) /\
    out_f w' = out_f w /\
    mem w' = append_turns dialogs ts (mem w) /\
    Forall (fun t => role t = "assistant" \/ role t = "user") ts.
Proof.
  induction n as [|n IH]; intros retries w Hn Hlt; [lia|].
  rewrite retry_loop_step. destruct (decide (retries < max_retries)); [|lia].
  unfold loop_body.
  destruct (attempt_cases w) as (Hout & Hcases).
  destruct (attempt rt create model_name dialogs w) as [r w1]. cbn [fst snd] in *.
  destruct Hcases as [(text & p & -> & Hmem & Hq)|(e & -> & Hq & Hmem)].
  - exists true, (Msg SUGGESTION p), [Turn "assistant" text], w1.
    repeat split; try done; by repeat constructor.
  - rewrite except_clauses_catch.
    assert (Hts : exists ts1, mem w1 = append_turns dialogs ts1 (mem w) /\
              Forall (fun t => role t = "assistant" \/ role t = "user") ts1).
    { destruct Hmem as [->|[text ->]].
      - by exists [].
      - exists [Turn "assistant" text]. split; [done|]. by repeat constructor. }
    destruct Hts as (ts1 & Hmem1 & Hts1).
    destruct (decide (retries + 1 < max_retries)) as [Hnext|Hlast].
    + destruct (IH (retries + 1) (send_feedback dialogs (error_msg_of e) w1))
        as (b & env & ts & w' & Hrun & Hq' & Hty & Hout' & Hmem' & Hts); [lia|lia|].
      exists b, env, (ts1 ++ Turn "user" (error_prompt_of (error_msg_of e)) :: ts), w'.
      split; [done|]. split; [by rewrite Hq', <- Hq|]. split; [done|].
      split; [by rewrite Hout', <- Hout|]. split.
      * rewrite Hmem'. cbn [send_feedback with_mem mem]. rewrite Hmem1.
        by rewrite append_turns_app.
      * apply Forall_app_2; [done|]. constructor; [by right|done].
    + exists false, (Msg ERROR (error_payload (error_msg_of e) (retries + 1))), ts1,
        (send_error (error_msg_of e) (retries + 1) w1).
      repeat split; try done. cbn. by rewrite Hq.
Qed.

(** The loop, not entered, returns [None] and does nothing. *)
Lemma retry_loop_not_entered (max_retries retries : Z) (w : world B) :
  max_retries <= retries ->
  retry_loop rt create model_name dialogs max_retries retries w = (Ok PyNone, w).
Proof.
  intros Hge. rewrite retry_loop_step.
  destruct (decide (retries < max_retries)); [lia|done].
Qed.

End WorkerFacts.

(** ** Prompt construction on well-formed payloads *)

Section Prompts.
Context (rt : Runtime).

Lemma format_individuals_from_ok (inds : list pyvalue) :
  forall i, forallb (well_formed_individual rt) inds = true ->
  is_ok (format_individuals_from rt i inds) = true.
Proof.
  induction inds as [|ind inds IH]; intros i; [done|].
  cbn [forallb]. intros [Hind Hinds]%andb_prop.
  destruct ind; try done. cbn [well_formed_individual] in Hind.
  cbn [format_individuals_from]. unfold format_individual.
  cbn [py_getitem].
  destruct (dict_lookup "expression" kv); [|done].
  destruct (dict_lookup "fitness" kv) as [fitness|]; [|done].
  cbn [mbind outcome_bind].
  destruct (format_4f rt fitness); [|done]. cbn [mbind outcome_bind].
  specialize (IH (S i) Hinds).
  by destruct (format_individuals_from rt (S i) inds).
Qed.

Lemma format_previous_results_loop_ok (suggs : list pyvalue) :
  forallb (well_formed_outcome rt) suggs = true ->
  is_ok (format_previous_results_loop rt suggs) = true.
Proof.
  induction suggs as [|sugg suggs IH]; [done|].
  cbn [forallb]. intros [Hs Hsuggs]%andb_prop.
  destruct sugg; try done. cbn [well_formed_outcome] in Hs.
  cbn [format_previous_results_loop]. unfold format_previous_result.
  cbn [py_getitem].
  destruct (dict_lookup "status" kv) as [status|]; [|done].
  destruct (dict_lookup "expression" kv); [|done].
  destruct (dict_lookup "reason" kv); [|done].
  cbn [mbind outcome_bind].
  specialize (IH Hsuggs).
  destruct (py_eq_str "success" status).
  - destruct (dict_lookup "fitness" kv) as [fitness|]; [|done].
    cbn [mbind outcome_bind].
    destruct (format_4f rt fitness); [|done]. cbn [mbind outcome_bind].
    by destruct (format_previous_results_loop rt suggs).
  - apply bool_decide_eq_true_1 in Hs as [error ->].
    cbn [mbind outcome_bind].
    by destruct (format_previous_results_loop rt suggs).
Qed.

(** The round prompt of a well-formed [EVOLUTION_UPDATE] is built
    without an exception. *)
Lemma well_formed_update_builds (msg_payload : pyvalue) :
  well_formed_update rt msg_payload = true ->
  is_ok (round_prompt rt msg_payload) = true.
Proof.
  destruct msg_payload; try done.
  cbn [well_formed_update]. intros [Htop Hprev]%andb_prop.
  unfold round_prompt. cbn [py_get mbind outcome_bind].
  assert (Hinds : is_ok (format_top_individuals rt
            (from_option id (PyList []) (dict_lookup "top_individuals" kv))) = true).
  { unfold format_top_individuals.
    destruct (dict_lookup "top_individuals" kv) as [top|]; cbn [from_option id].
    - destruct top; try done. cbn [py_iter mbind outcome_bind].
      pose proof (format_individuals_from_ok l 0%nat Htop) as Hok.
      by destruct (format_individuals_from rt 0 l).
    - done. }
  destruct (format_top_individuals rt _) as [formatted|]; [|done].
  cbn [mbind outcome_bind].
  destruct (dict_lookup "previous_suggestions" kv) as [prev|]; cbn [from_option id];
    [|done].
  destruct prev; try done.
  unfold format_previous_results. cbn [py_getitem].
  destruct (dict_lookup "suggestions" kv0) as [suggs|]; [|done].
  destruct suggs; try done. cbn [py_iter mbind outcome_bind].
  pose proof (format_previous_results_loop_ok l Hprev) as Hok.
  by destruct (format_previous_results_loop rt l).
Qed.

End Prompts.

(** ** Envelopes sent for an [EVOLUTION_UPDATE] *)

Section Coordinator.
Context (rt : Runtime).
Context {B : Type}.
Context (create : B -> string -> list turn -> outcome string * B).
Context (model_name : string).

(** With at least one attempt allowed, [process_llm_response] returns a
    boolean and puts exactly one envelope. *)
Lemma process_llm_response_one_envelope (dialogs : lref) (max_retries : Z) (w : world B) :
  0 < max_retries ->
  exists (b : bool) (env : Message) (ts : list turn) (w' : world B),
    process_llm_response rt create model_name dialogs max_retries w = (Ok (PyBool b), w') /\
    queue_snd w' = queue_snd w ++ [env] /\
    msg_type env = (if b then SUGGESTION else ERROR) /\
    out_f w' = out_f w /\
    mem w' = append_turns dialogs ts (mem w) /\
    Forall (fun t => role t = "assistant" \/ role t = "user") ts.
Proof.
  intros Hpos. unfold process_llm_response.
  eapply retry_loop_entered; [reflexivity|lia].
Qed.

Lemma emitted_app (w w' : world B) (msgs : list Message) :
  queue_snd w' = queue_snd w ++ msgs -> emitted w w' = msgs.
Proof. intros E. unfold emitted. rewrite E. by rewrite drop_app_length. Qed.

(** C1. For every well-formed [EVOLUTION_UPDATE] (one for which the round
    prompt can be built, as it can for every payload of the shape
    [well_formed_update]), the dispatcher makes its single call to
    [process_llm_response], which returns a boolean, and when the worker is
    back at the head of its loop exactly one envelope has been put on
    [queue_snd]: a [SUGGESTION] when the call returned [True], an [ERROR]
    when it returned [False]; never none and never both, whatever the
    model backend answers at each attempt. *)
Theorem evolution_update_emits_exactly_one
    (msg : Message) (st : locals) (w : world B) :
  msg_type msg = EVOLUTION_UPDATE ->
  is_ok (round_prompt rt (payload msg)) = true ->
  exists (prompt : string) (b : bool) (env : Message) (w' : world B),
    round_prompt rt (payload msg) = Ok prompt /\
    process_llm_response rt create model_name (dialogs st) default_max_retries
      (with_mem (append_turn (dialogs st) (Turn "user" prompt)) w)
      = (Ok (PyBool b), w') /\
    step rt create model_name st w (Received msg) = Running st w' /\
    queue_snd w' = queue_snd w ++ [env] /\
    msg_type env = (if b then SUGGESTION else ERROR) /\
    emitted w w' = [env] /\
    (count_type SUGGESTION (emitted w w') + count_type ERROR (emitted w w') = 1)%nat.
Proof.
  intros Hty Hok.
  destruct (round_prompt rt (payload msg)) as [prompt|e] eqn:Hprompt; [|done].
  destruct (process_llm_response_one_envelope (dialogs st) default_max_retries
              (with_mem (append_turn (dialogs st) (Turn "user" prompt)) w))
    as (b & env & ts & w' & Hrun & Hq & Henv & _); [done|].
  cbn [with_mem queue_snd] in Hq.
  exists prompt, b, env, w'.
  split; [done|]. split; [done|]. split.
  { cbn [step]. rewrite Hty. unfold handle_EVOLUTION_UPDATE.
    by rewrite Hprompt, Hrun. }
  split; [done|]. split; [done|].
  rewrite (emitted_app w w' [env]) by done.
  split; [done|].
  unfold count_type. rewrite !filter_cons, !filter_nil.
  destruct b; rewrite Henv; repeat case_decide; done.
Qed.

End Coordinator.

Section Attempts.
Context (rt : Runtime).
Context {B : Type}.
Context (create : B -> string -> list turn -> outcome string * B).
Context (model_name : string) (dialogs : lref).

Lemma attempt_raise_queue (w w1 : world B) (e : exn) :
  attempt rt create model_name dialogs w = (Raise e, w1) ->
  queue_snd w1 = queue_snd w.
Proof.
  intros H. destruct (attempt_cases rt create model_name dialogs w) as (_ & Hc).
  rewrite H in Hc. cbn [fst snd] in Hc.
  destruct Hc as [(? & ? & ? & _)|(? & _ & Hq & _)]; done.
Qed.

(** A failed attempt that is not the last one: feedback, next round. *)
Lemma loop_body_retry (max_retries retries : Z) (w w1 : world B) (e : exn) :
  attempt rt create model_name dialogs w = (Raise e, w1) ->
  retries + 1 < max_retries ->
  loop_body rt create model_name dialogs max_retries retries w
  = inr (send_feedback dialogs (error_msg_of e) w1).
Proof.
  intros H Hlt. unfold loop_body. rewrite H, except_clauses_catch.
  by destruct (decide (retries + 1 < max_retries)).
Qed.

(** A failed attempt that is the last one: the [ERROR] envelope, [False]. *)
Lemma loop_body_exhausted (max_retries retries : Z) (w w1 : world B) (e : exn) :
  attempt rt create model_name dialogs w = (Raise e, w1) ->
  max_retries <= retries + 1 ->
  loop_body rt create model_name dialogs max_retries retries w
  = inl (Ok (PyBool false), send_error (error_msg_of e) (retries + 1) w1).
Proof.
  intros H Hge. unfold loop_body. rewrite H, except_clauses_catch.
  destruct (decide (retries + 1 < max_retries)); [lia|done].
Qed.

(** C2. With [max_retries = 3] and three attempts that each fail (the
    second and third made after the feedback turn for the previous error),
    [process_llm_response] returns [False] and puts exactly one envelope:
    an [ERROR] whose payload is the dict with the two entries [error], the
    str built for the last failure (["Response format error: "] or
    ["Unknown error: "] followed by [str(e)]), and [retries], the int 3, in
    that order; it puts no [SUGGESTION]. *)
Theorem three_failures_emit_one_error
    (w0 w1 w2 w3 : world B) (e1 e2 e3 : exn) :
  attempt rt create model_name dialogs w0 = (Raise e1, w1) ->
  attempt rt create model_name dialogs
    (send_feedback dialogs (error_msg_of e1) w1) = (Raise e2, w2) ->
  attempt rt create model_name dialogs
    (send_feedback dialogs (error_msg_of e2) w2) = (Raise e3, w3) ->
  exists w' : world B,
    process_llm_response rt create model_name dialogs 3 w0 = (Ok (PyBool false), w') /\
    emitted w0 w' = [Msg ERROR (PyDict [(PyStr "error", PyStr (error_msg_of e3));
                                        (PyStr "retries", PyInt 3)])] /\
    queue_snd w' = queue_snd w0 ++
                   [Msg ERROR (PyDict [(PyStr "error", PyStr (error_msg_of e3));
                                       (PyStr "retries", PyInt 3)])] /\
    count_type ERROR (emitted w0 w') = 1%nat /\
    count_type SUGGESTION (emitted w0 w') = 0%nat.
Proof.
  intros H1 H2 H3.
  exists (send_error (error_msg_of e3) 3 w3).
  assert (Hrun : process_llm_response rt create model_name dialogs 3 w0
                 = (Ok (PyBool false), send_error (error_msg_of e3) 3 w3)).
  { unfold process_llm_response.
    rewrite retry_loop_step. destruct (decide (0 < 3)); [|lia].
    rewrite (loop_body_retry 3 0 w0 w1 e1) by (done || lia).
    rewrite retry_loop_step. destruct (decide (0 + 1 < 3)); [|lia].
    rewrite (loop_body_retry 3 (0 + 1) _ w2 e2) by (done || lia).
    rewrite retry_loop_step. destruct (decide (0 + 1 + 1 < 3)); [|lia].
    rewrite (loop_body_exhausted 3 (0 + 1 + 1) _ w3 e3) by (done || lia).
    done. }
  split; [done|].
  assert (Hq : queue_snd w3 = queue_snd w0).
  { rewrite (attempt_raise_queue _ _ _ H3). cbn [send_feedback with_mem queue_snd].
    rewrite (attempt_raise_queue _ _ _ H2). cbn [send_feedback with_mem queue_snd].
    by rewrite (attempt_raise_queue _ _ _ H1). }
  rewrite (emitted_app w0 _ [Msg ERROR (error_payload (error_msg_of e3) 3)])
    by (cbn; by rewrite Hq).
  split; [reflexivity|]. split; [|done].
  cbn [send_error put queue_snd]. by rewrite Hq.
Qed.

End Attempts.

(** ** Growth of the turn history during the retry loop *)

Section History.
Context (rt : Runtime).
Context {B : Type}.
Context (create : B -> string -> list turn -> outcome string * B).
Context (model_name : string) (dialogs : lref).

Lemma attempt_mem_response (w : world B) (text : string) (b : B) :
  create (llm_client w) model_name (turns_of (mem w) dialogs) = (Ok text, b) ->
  mem (snd (attempt rt create model_name dialogs w))
  = append_turn dialogs (Turn "assistant" text) (mem w).
Proof.
  intros H. unfold attempt. rewrite H.
  by destruct (validate_response rt text).
Qed.

Lemma attempt_mem_raised (w : world B) (e : exn) (b : B) :
  create (llm_client w) model_name (turns_of (mem w) dialogs) = (Raise e, b) ->
  attempt rt create model_name dialogs w
  = (Raise e, World (mem w) (queue_snd w) (out_f w) b).
Proof. intros H. unfold attempt. by rewrite H. Qed.

(** C5 (amended). An attempt in which the backend returns a text appends
    that text as an assistant turn, whether validation then succeeds or
    fails; an attempt whose backend call raises appends no assistant turn.
    Every failed attempt that leaves a retry appends exactly one user turn,
    whose content is the feedback template filled with the canonical schema
    and the error text.  So a failed, retriable attempt grows the history
    by 2 turns when the backend answered and by 1 turn when its call
    raised. *)
Theorem history_growth_per_attempt
    (max_retries retries : Z) (w : world B) :
  wf_store (mem w) ->
  (dialogs < length (lists (mem w)))%nat ->
  let before := turns_of (mem w) dialogs in
  let tried := attempt rt create model_name dialogs w in
  let feedback (e : exn) :=
    Turn "user" (ERROR_FEEDBACK_0 +:+ resp_format_json +:+ ERROR_FEEDBACK_1 +:+
                 error_msg_of e +:+ ERROR_FEEDBACK_2) in
  (forall text b,
     create (llm_client w) model_name before = (Ok text, b) ->
     turns_of (mem (snd tried)) dialogs = before ++ [Turn "assistant" text] /\
     (forall e, fst tried = Raise e -> retries + 1 < max_retries ->
        exists w',
          loop_body rt create model_name dialogs max_retries retries w = inr w' /\
          turns_of (mem w') dialogs = before ++ [Turn "assistant" text; feedback e] /\
          length (turns_of (mem w') dialogs) = (length before + 2)%nat)) /\
  (forall e b,
     create (llm_client w) model_name before = (Raise e, b) ->
     turns_of (mem (snd tried)) dialogs = before /\
     fst tried = Raise e /\
     (retries + 1 < max_retries ->
        exists w',
          loop_body rt create model_name dialogs max_retries retries w = inr w' /\
          turns_of (mem w') dialogs = before ++ [feedback e] /\
          length (turns_of (mem w') dialogs) = (length before + 1)%nat)).
Proof.
  intros Hwf Hl before tried feedback. split.
  - intros text b Hc.
    pose proof (attempt_mem_response w text b Hc) as Hmem.
    fold tried in Hmem.
    assert (Hafter : turns_of (mem (snd tried)) dialogs
                     = before ++ [Turn "assistant" text]).
    { rewrite Hmem. by apply turns_of_append_turn_same. }
    split; [done|].
    intros e He Hlt.
    destruct tried as [r w1] eqn:Htried. cbn [fst snd] in *. subst r.
    exists (send_feedback dialogs (error_msg_of e) w1).
    split; [by apply loop_body_retry|].
    assert (Hfb : turns_of (mem (send_feedback dialogs (error_msg_of e) w1)) dialogs
                  = before ++ [Turn "assistant" text; feedback e]).
    { cbn [send_feedback with_mem mem].
      rewrite turns_of_append_turn_same.
      - rewrite Hafter, <- app_assoc. done.
      - rewrite Hmem. by apply wf_store_append_turn.
      - rewrite Hmem. by rewrite length_lists_append_turn. }
    split; [done|]. rewrite Hfb, length_app. done.
  - intros e b Hc.
    pose proof (attempt_mem_raised w e b Hc) as Htried.
    fold tried in Htried. rewrite Htried. cbn [fst snd mem].
    split; [done|]. split; [done|].
    intros Hlt.
    exists (send_feedback dialogs (error_msg_of e) (World (mem w) (queue_snd w) (out_f w) b)).
    split; [by apply loop_body_retry|].
    assert (Hfb : turns_of (mem (send_feedback dialogs (error_msg_of e)
                                   (World (mem w) (queue_snd w) (out_f w) b))) dialogs
                  = before ++ [feedback e]).
    { cbn [send_feedback with_mem mem]. by apply turns_of_append_turn_same. }
    split; [done|]. rewrite Hfb, length_app. done.
Qed.

(** C9 (amended). Whatever the backend does at each call (any text, any
    exception that is an instance of [Exception]), [process_llm_response]
    returns: no exception leaves it.  It returns a boolean whenever
    [max_retries >= 1], and [None] without doing anything when
    [max_retries <= 0].  An exception raised by the backend call uses up
    one attempt of the same budget as a content error; its message is
    ["Response format error: ..."] when it is a [ValueError] (or a
    [JSONDecodeError]) and ["Unknown error: ..."] otherwise. *)
Theorem process_llm_response_returns
    (max_retries : Z) (w : world B) :
  (exists (v : pyvalue) (w' : world B),
     process_llm_response rt create model_name dialogs max_retries w = (Ok v, w') /\
     (0 < max_retries -> exists b : bool, v = PyBool b) /\
     (max_retries <= 0 -> v = PyNone /\ w' = w)) /\
  (forall (retries : Z) (e : exn) (b' : B),
     create (llm_client w) model_name (turns_of (mem w) dialogs) = (Raise e, b') ->
     let w1 := World (mem w) (queue_snd w) (out_f w) b' in
     let error_msg :=
       (if isinstance e [JSONDecodeError; ValueError]
        then "Response format error: " else "Unknown error: ") +:+ exn_str e in
     loop_body rt create model_name dialogs max_retries retries w
     = if decide (retries + 1 < max_retries)
       then inr (send_feedback dialogs error_msg w1)
       else inl (Ok (PyBool false), send_error error_msg (retries + 1) w1)).
Proof.
  split.
  - destruct (decide (0 < max_retries)) as [Hpos|Hnpos].
    + destruct (process_llm_response_one_envelope rt create model_name dialogs
                  max_retries w Hpos) as (b & env & ts & w' & Hrun & _).
      exists (PyBool b), w'. split; [done|]. split; [by exists b|lia].
    + exists PyNone, w. split; [|split; [lia|done]].
      unfold process_llm_response. apply retry_loop_not_entered. lia.
  - intros retries e b' Hc w1 error_msg.
    pose proof (attempt_mem_raised w e b' Hc) as Htried.
    destruct (decide (retries + 1 < max_retries)).
    + by apply loop_body_retry.
    + apply loop_body_exhausted; [done|lia].
Qed.

End History.

(** ** The response validator *)

Section Validator.
Context (rt : Runtime).

Lemma dict_has_lookup (k : string) (kv : list (pyvalue * pyvalue)) :
  dict_has k kv = bool_decide (is_Some (dict_lookup k kv)).
Proof.
  unfold dict_has, dict_lookup.
  induction kv as [|[k' v] kv IH]; cbn; [done|].
  by destruct (py_eq_str k k').
Qed.







End Validator.

(** ** The handlers of the dispatcher *)

Lemma turns_of_dict_assign (d : dref) (t : turn) (l : lref) (m : store) :
  d ∉ items_of m l ->
  turns_of (dict_assign d t m) l = turns_of m l.
Proof.
  unfold turns_of, dict_assign, items_of. cbn [lists dicts].
  generalize (default [] (lists m !! l)). intros items.
  induction items as [|a items IH]; [done|].
  intros Hd. apply not_elem_of_cons in Hd as [Hne Hd].
  cbn. rewrite list_lookup_insert_ne by done.
  destruct (dicts m !! a); cbn; by rewrite IH.
Qed.

Section Handlers.
Context (rt : Runtime).
Context {B : Type}.
Context (create : B -> string -> list turn -> outcome string * B).
Context (model_name : string).

(** [INIT] allocates the new prefix and touches nothing that existed. *)
Lemma handle_INIT_spec (msg : Message) (st st' : locals) (w w' : world B) :
  wf_state st w ->
  handle_INIT rt msg st w = Ok (st', w') ->
  exists labels operators,
    py_get rt (payload msg) "labels" (PyList []) = Ok labels /\
    py_get rt (payload msg) "operators" (PyList []) = Ok operators /\
    wf_state st' w' /\
    init_dialogs st' = length (lists (mem w)) /\
    dialogs st' = dialogs st /\
    length (lists (mem w')) = S (length (lists (mem w))) /\
    queue_snd w' = queue_snd w /\ out_f w' = out_f w /\ llm_client w' = llm_client w /\
    turns_of (mem w') (init_dialogs st')
    = [Turn "system" (create_system_prompt rt labels operators resp_format_json)] /\
    (forall l, (l < length (lists (mem w)))%nat ->
       items_of (mem w') l = items_of (mem w) l /\
       turns_of (mem w') l = turns_of (mem w) l).
Proof.
  intros (Hwf & Hi & Hd & Hne) H. unfold handle_INIT in H.
  destruct (py_get rt (payload msg) "labels" (PyList [])) as [labels|] eqn:El; [|done].
  destruct (py_get rt (payload msg) "operators" (PyList [])) as [operators|] eqn:Eo; [|done].
  cbn [mbind outcome_bind] in H.
  change (new_list (mem w)) with (length (lists (mem w)), snd (new_list (mem w))) in H.
  pose proof (wf_store_new_list (mem w) Hwf) as Hwf1.
  pose proof (items_of_new_list_old (mem w)) as Hold1.
  pose proof (items_of_new_list_new (mem w)) as Hnew1.
  assert (Hl1 : length (lists (snd (new_list (mem w)))) = S (length (lists (mem w)))).
  { cbn. rewrite length_app. cbn. lia. }
  assert (Hd1 : dicts (snd (new_list (mem w))) = dicts (mem w)) by reflexivity.
  remember (snd (new_list (mem w))) as m1 eqn:Hm1. clear Hm1.
  cbn beta iota zeta in H. injection H as <- <-.
  exists labels, operators. split; [done|]. split; [done|].
  cbn [init_dialogs dialogs mem queue_snd out_f llm_client].
  split.
  { unfold wf_state. cbn [init_dialogs dialogs mem].
    split; [by apply wf_store_append_turn|].
    rewrite length_lists_append_turn, Hl1. repeat split; lia. }
  split; [done|]. split; [done|].
  split; [by rewrite length_lists_append_turn|].
  split; [done|]. split; [done|]. split; [done|].
  split.
  { rewrite turns_of_append_turn_same by (done || lia).
    unfold turns_of. by rewrite Hnew1. }
  intros l Hl.
  rewrite items_of_append_turn_other by lia.
  rewrite turns_of_append_turn_other by (done || lia).
  split; [by apply Hold1|].
  unfold turns_of. by rewrite Hold1, Hd1.
Qed.

(** [THRESHOLD_START] makes [dialogs] a fresh deep copy of
    [init_dialogs] and touches nothing that existed. *)
Lemma handle_THRESHOLD_START_spec (msg : Message) (st st' : locals) (w w' : world B) :
  wf_state st w ->
  handle_THRESHOLD_START rt msg st w = Ok (st', w') ->
  wf_state st' w' /\
  init_dialogs st' = init_dialogs st /\
  dialogs st' = length (lists (mem w)) /\
  length (lists (mem w')) = S (length (lists (mem w))) /\
  queue_snd w' = queue_snd w /\ llm_client w' = llm_client w /\
  turns_of (mem w') (dialogs st') = turns_of (mem w) (init_dialogs st) /\
  Forall (fun c => (length (dicts (mem w)) <= c)%nat) (items_of (mem w') (dialogs st')) /\
  (forall l, (l < length (lists (mem w)))%nat ->
     items_of (mem w') l = items_of (mem w) l /\
     turns_of (mem w') l = turns_of (mem w) l).
Proof.
  intros (Hwf & Hi & Hd & Hne) H. unfold handle_THRESHOLD_START in H.
  destruct (py_get rt (payload msg) "threshold" PyNone) as [threshold|]; [|done].
  destruct (py_get rt (payload msg) "train_size" PyNone) as [train_size|]; [|done].
  destruct (py_get rt (payload msg) "test_size" PyNone) as [test_size|]; [|done].
  cbn [mbind outcome_bind] in H. cbn zeta in H.
  destruct (deepcopy_spec (init_dialogs st) (mem w) Hwf Hi)
    as (Hy & W & L & Hold & Hnew & Hcopy & _).
  destruct (deepcopy (init_dialogs st) (mem w)) as [y m'].
  cbn [fst snd] in *. injection H as <- <-.
  cbn [init_dialogs dialogs mem write queue_snd llm_client].
  subst y.
  split.
  { unfold wf_state. cbn [init_dialogs dialogs mem write].
    split; [done|]. rewrite L. repeat split; lia. }
  repeat split; try done; by apply Hold.
Qed.

(** [EVOLUTION_UPDATE] appends the round prompt as a user turn and then
    what the retry loop appends; the references stay as they are. *)
Lemma handle_EVOLUTION_UPDATE_spec (msg : Message) (st st' : locals) (w w' : world B) :
  handle_EVOLUTION_UPDATE rt create model_name msg st w = Running st' w' ->
  st' = st /\ out_f w' = out_f w /\
  exists prompt ts,
    round_prompt rt (payload msg) = Ok prompt /\
    mem w' = append_turns (dialogs st) (Turn "user" prompt :: ts) (mem w) /\
    Forall (fun t => role t = "assistant" \/ role t = "user") ts.
Proof.
  unfold handle_EVOLUTION_UPDATE.
  destruct (round_prompt rt (payload msg)) as [prompt|e]; [|done].
  destruct (process_llm_response_one_envelope rt create model_name (dialogs st)
              default_max_retries
              (with_mem (append_turn (dialogs st) (Turn "user" prompt)) w))
    as (b & env & ts & w2 & Hrun & _ & _ & Hout & Hmem & Hts); [done|].
  rewrite Hrun. intros [= <- <-].
  split; [done|]. split; [done|]. by exists prompt, ts.
Qed.

End Handlers.

(** ** One round of the dispatcher *)

Section Rounds.
Context (rt : Runtime).
Context {B : Type}.
Context (create : B -> string -> list turn -> outcome string * B).
Context (model_name : string).

Lemma round_effect_idle (st : locals) (w : world B) (ev : event) :
  wf_state st w ->
  is_kind INIT ev = false -> is_kind THRESHOLD_START ev = false ->
  round_effect st w ev st w.
Proof.
  intros Hwf H1 H2. split; [done|]. split; [done|]. split; [done|].
  left. split; [done|]. split; [done|]. split; [done|].
  exists []. by rewrite app_nil_r.
Qed.

Lemma step_cases (st st' : locals) (w w' : world B) (ev : event) :
  wf_state st w ->
  step rt create model_name st w ev = Running st' w' ->
  round_effect st w ev st' w'.
Proof.
  intros Hwf Hstep.
  assert (Hsame : forall ev0, is_kind INIT ev0 = false ->
            is_kind THRESHOLD_START ev0 = false -> ev0 = ev ->
            Running st w = Running st' w' (B := B) ->
            round_effect st w ev st' w').
  { intros ev0 H1 H2 <- [= <- <-]. by apply round_effect_idle. }
  destruct ev as [| |msg]; cbn [step] in Hstep;
    [by apply (Hsame QueueEmpty)|by apply (Hsame Undecodable)|].
  destruct (msg_type msg) eqn:Hty.
  - (* INIT *)
    destruct (handle_INIT rt msg st w) as [[st1 w1]|e] eqn:Hh; [|done].
    injection Hstep as <- <-.
    destruct (handle_INIT_spec rt msg st st1 w w1 Hwf Hh)
      as (labels & operators & _ & _ & Hwf' & Hi & Hd & Hlen & _ & _ & _ & _ & Hold).
    destruct Hwf as (_ & _ & Hdl & _).
    split; [done|]. split; [lia|]. split; [intros r Hr _; by apply Hold|].
    right; left. cbn [is_kind]. rewrite Hty.
    repeat split; try done. by apply Hold.
  - (* COMMAND *)
    destruct (py_get rt (payload msg) "command" (PyStr EmptyString)) as [command|]; [|done].
    destruct (py_eq_str "exit" command); [done|].
    apply (Hsame (Received msg)); try done; cbn [is_kind]; by rewrite Hty.
  - (* EVOLUTION_UPDATE *)
    destruct (handle_EVOLUTION_UPDATE_spec rt create model_name msg st st' w w' Hstep)
      as (-> & _ & prompt & ts & _ & Hmem & Hts).
    destruct Hwf as (Hwfm & Hi & Hd & Hne).
    destruct (append_turns_facts (dialogs st) (Turn "user" prompt :: ts) (mem w) Hwfm Hd)
      as (W & L & Hsame' & Hother).
    rewrite <- Hmem in *.
    split. { unfold wf_state. rewrite L. done. }
    split; [lia|]. split; [intros r _ Hr; by apply Hother|].
    left. cbn [is_kind]. rewrite Hty. repeat split; try done.
    exists (Turn "user" prompt :: ts). split; [done|].
    constructor; [by right|done].
  - (* THRESHOLD_START *)
    destruct (handle_THRESHOLD_START rt msg st w) as [[st1 w1]|e] eqn:Hh; [|done].
    injection Hstep as <- <-.
    destruct (handle_THRESHOLD_START_spec rt msg st st1 w w1 Hwf Hh)
      as (Hwf' & Hi & Hd & Hlen & _ & _ & Hcopy & _ & Hold).
    destruct Hwf as (_ & _ & Hdl & _).
    split; [done|]. split; [lia|]. split; [intros r Hr _; by apply Hold|].
    right; right. cbn [is_kind]. rewrite Hty.
    repeat split; try done. by apply Hold.
  - apply (Hsame (Received msg)); try done; cbn [is_kind]; by rewrite Hty.
  - apply (Hsame (Received msg)); try done; cbn [is_kind]; by rewrite Hty.
Qed.

End Rounds.

(** ** Runs of the dispatcher *)

Section Runs.
Context (rt : Runtime).
Context {B : Type}.
Context (create : B -> string -> list turn -> outcome string * B).
Context (model_name : string).

Lemma llama_start_wf (queue : list Message) (b : B) :
  wf_state (fst (llama_start queue b)) (snd (llama_start queue b)).
Proof.
  unfold wf_state, wf_store. cbn. repeat split; try lia. by repeat constructor.
Qed.

Lemma run_cons (st : locals) (w : world B) (ev : event) (evs : list event) :
  run rt create model_name st w (ev :: evs) =
  match step rt create model_name st w ev with
  | Running st' w' => run rt create model_name st' w' evs
  | stopped => stopped
  end.
Proof. reflexivity. Qed.

(** Every state the worker reaches is well formed. *)
Lemma run_wf (evs : list event) :
  forall (st st' : locals) (w w' : world B),
  wf_state st w ->
  run rt create model_name st w evs = Running st' w' ->
  wf_state st' w'.
Proof.
  induction evs as [|ev evs IH]; intros st st' w w' Hwf Hrun.
  - cbn in Hrun. by injection Hrun as <- <-.
  - rewrite run_cons in Hrun.
    destruct (step rt create model_name st w ev) as [st1 w1| |] eqn:Hstep; try done.
    destruct (step_cases rt create model_name st st1 w w1 ev Hwf Hstep) as (Hwf1 & _).
    by apply (IH st1 st' w1 w').
Qed.

Lemma llama_main_wf (queue : list Message) (b : B) (evs : list event)
    (st : locals) (w : world B) :
  llama_main rt create model_name queue b evs = Running st w ->
  wf_state st w.
Proof.
  unfold llama_main. pose proof (llama_start_wf queue b) as Hwf.
  destruct (llama_start queue b) as [st0 w0]. by apply run_wf.
Qed.

(** A list that is not [dialogs] is never changed, and never becomes
    [dialogs]. *)
Lemma run_frame (r : lref) (evs : list event) :
  forall (st st' : locals) (w w' : world B),
  wf_state st w ->
  (r < length (lists (mem w)))%nat -> r <> dialogs st ->
  run rt create model_name st w evs = Running st' w' ->
  wf_state st' w' /\
  (r < length (lists (mem w')))%nat /\ r <> dialogs st' /\
  turns_of (mem w') r = turns_of (mem w) r.
Proof.
  induction evs as [|ev evs IH]; intros st st' w w' Hwf Hr Hne Hrun.
  - cbn in Hrun. by injection Hrun as <- <-.
  - rewrite run_cons in Hrun.
    destruct (step rt create model_name st w ev) as [st1 w1| |] eqn:Hstep; try done.
    destruct (step_cases rt create model_name st st1 w w1 ev Hwf Hstep)
      as (Hwf1 & Hlen & Hsame & Hcase).
    assert (Hne1 : r <> dialogs st1).
    { destruct Hcase as [(_ & _ & -> & _)|[(_ & -> & _)|(_ & _ & -> & _)]];
        [done|done|lia]. }
    destruct (IH st1 st' w1 w' Hwf1) as (W & L & N & T); try done; [lia|].
    split; [done|]. split; [done|]. split; [done|]. rewrite T. by apply Hsame.
Qed.

(** Without a [THRESHOLD_START], [dialogs] stays the same list and only
    grows, by conversational turns. *)
Lemma run_without_reset (evs : list event) :
  forall (st st' : locals) (w w' : world B),
  wf_state st w ->
  forallb (fun ev => negb (is_kind THRESHOLD_START ev)) evs = true ->
  run rt create model_name st w evs = Running st' w' ->
  wf_state st' w' /\
  dialogs st' = dialogs st /\
  exists extra,
    turns_of (mem w') (dialogs st') = turns_of (mem w) (dialogs st) ++ extra /\
    Forall conversational extra.
Proof.
  induction evs as [|ev evs IH]; intros st st' w w' Hwf Hevs Hrun.
  - cbn in Hrun. injection Hrun as <- <-. split; [done|]. split; [done|].
    exists []. by rewrite app_nil_r.
  - rewrite run_cons in Hrun. cbn [forallb] in Hevs.
    apply andb_prop in Hevs as [Hev Hevs]. apply negb_true_iff in Hev.
    destruct (step rt create model_name st w ev) as [st1 w1| |] eqn:Hstep; try done.
    destruct (step_cases rt create model_name st st1 w w1 ev Hwf Hstep)
      as (Hwf1 & Hlen & Hsame & Hcase).
    destruct (IH st1 st' w1 w' Hwf1 Hevs Hrun) as (W & D & extra & T & F).
    split; [done|].
    destruct Hcase as [(_ & _ & -> & extra1 & T1 & F1)|[(_ & D1 & _ & T1)|(Hk & _)]].
    + split; [done|]. exists (extra1 ++ extra).
      rewrite T, T1, <- app_assoc. split; [done|]. by apply Forall_app_2.
    + split; [by rewrite D|]. exists extra.
      rewrite T, D1, T1. done.
    + by rewrite Hk in Hev.
Qed.

(** Without an [INIT], [init_dialogs] stays the same list with the same
    turns, and once [dialogs] begins with those turns it goes on doing
    so. *)
Lemma run_without_init (evs : list event) :
  forall (st st' : locals) (w w' : world B),
  wf_state st w ->
  forallb (fun ev => negb (is_kind INIT ev)) evs = true ->
  turns_of (mem w) (init_dialogs st) `prefix_of` turns_of (mem w) (dialogs st) ->
  run rt create model_name st w evs = Running st' w' ->
  wf_state st' w' /\
  init_dialogs st' = init_dialogs st /\
  turns_of (mem w') (init_dialogs st') = turns_of (mem w) (init_dialogs st) /\
  turns_of (mem w') (init_dialogs st') `prefix_of` turns_of (mem w') (dialogs st').
Proof.
  induction evs as [|ev evs IH]; intros st st' w w' Hwf Hevs Hpre Hrun.
  - cbn in Hrun. by injection Hrun as <- <-.
  - rewrite run_cons in Hrun. cbn [forallb] in Hevs.
    apply andb_prop in Hevs as [Hev Hevs]. apply negb_true_iff in Hev.
    destruct (step rt create model_name st w ev) as [st1 w1| |] eqn:Hstep; try done.
    destruct (step_cases rt create model_name st st1 w w1 ev Hwf Hstep)
      as (Hwf1 & Hlen & Hsame & Hcase).
    destruct Hwf as (Hwfm & Hi & Hd & Hne).
    pose proof (Hsame (init_dialogs st) Hi Hne) as Hinit.
    assert (Hstep1 : init_dialogs st1 = init_dialogs st /\
              turns_of (mem w1) (init_dialogs st1) `prefix_of`
              turns_of (mem w1) (dialogs st1)).
    { destruct Hcase as [(_ & _ & -> & extra1 & T1 & F1)|[(Hk & _)|(_ & I1 & _ & T1 & _)]].
      - split; [done|]. rewrite Hinit, T1. by apply prefix_app_r.
      - by rewrite Hk in Hev.
      - split; [done|]. by rewrite I1, Hinit, T1. }
    destruct Hstep1 as [I1 P1].
    destruct (IH st1 st' w1 w' Hwf1 Hevs P1 Hrun) as (W & I & T & P).
    split; [done|]. split; [by rewrite I|]. split; [|done].
    by rewrite T, I1.
Qed.

End Runs.

(** ** The conversation state across [INIT] and [THRESHOLD_START] *)

Section Conversation.
Context (rt : Runtime).
Context {B : Type}.
Context (create : B -> string -> list turn -> outcome string * B).
Context (model_name : string).

(** C3 (amended). Handling [INIT] sets [init_dialogs] to a new list
    holding the one system turn built from [labels] and [operators], and
    leaves [dialogs] (the reference and the turns) unchanged.  It is
    [THRESHOLD_START] that sets [dialogs] to a copy of [init_dialogs]; and
    once [dialogs] begins with the turns of [init_dialogs], it goes on
    doing so for as long as no [INIT] is handled. *)
Theorem init_sets_prefix_reset_sets_turns
    (msg : Message) (st : locals) (w : world B) :
  wf_state st w ->
  (forall st' w',
     handle_INIT rt msg st w = Ok (st', w') ->
     exists labels operators,
       py_get rt (payload msg) "labels" (PyList []) = Ok labels /\
       py_get rt (payload msg) "operators" (PyList []) = Ok operators /\
       turns_of (mem w') (init_dialogs st')
       = [Turn "system" (create_system_prompt rt labels operators resp_format_json)] /\
       dialogs st' = dialogs st /\
       turns_of (mem w') (dialogs st') = turns_of (mem w) (dialogs st)) /\
  (forall st' w',
     handle_THRESHOLD_START rt msg st w = Ok (st', w') ->
     turns_of (mem w') (dialogs st') = turns_of (mem w') (init_dialogs st')) /\
  (forall evs st' w',
     forallb (fun ev => negb (is_kind INIT ev)) evs = true ->
     turns_of (mem w) (init_dialogs st) `prefix_of` turns_of (mem w) (dialogs st) ->
     run rt create model_name st w evs = Running st' w' ->
     turns_of (mem w') (init_dialogs st') = turns_of (mem w) (init_dialogs st) /\
     turns_of (mem w') (init_dialogs st') `prefix_of` turns_of (mem w') (dialogs st')).
Proof.
  intros Hwf. split; [|split].
  - intros st' w' Hh.
    destruct (handle_INIT_spec rt msg st st' w w' Hwf Hh)
      as (labels & operators & Hl & Ho & _ & _ & Hd & _ & _ & _ & _ & Hinit & Hold).
    exists labels, operators. repeat split; try done.
    rewrite Hd. apply Hold. by destruct Hwf as (_ & _ & ? & _).
  - intros st' w' Hh.
    destruct (handle_THRESHOLD_START_spec rt msg st st' w w' Hwf Hh)
      as (_ & Hi & _ & _ & _ & _ & Hcopy & _ & Hold).
    rewrite Hcopy, Hi. symmetry. apply Hold. by destruct Hwf as (_ & ? & _).
  - intros evs st' w' Hevs Hpre Hrun.
    destruct (run_without_init rt create model_name evs st st' w w' Hwf Hevs Hpre Hrun)
      as (_ & _ & T & P).
    done.
Qed.

(** C6. Handling [THRESHOLD_START] replaces [dialogs] by a fresh deep
    copy of [init_dialogs]: the new list has the same turns as
    [init_dialogs], which is itself unchanged; it is another list object
    and none of its dicts is a dict of [init_dialogs]; so appending to
    [dialogs], or assigning to one of its dicts, leaves the turns of
    [init_dialogs] as they are, and so does everything the worker does
    afterwards. *)
Theorem threshold_start_resets_to_fresh_copy
    (msg : Message) (st st' : locals) (w w' : world B) :
  wf_state st w ->
  handle_THRESHOLD_START rt msg st w = Ok (st', w') ->
  init_dialogs st' = init_dialogs st /\
  turns_of (mem w') (init_dialogs st') = turns_of (mem w) (init_dialogs st) /\
  turns_of (mem w') (dialogs st') = turns_of (mem w') (init_dialogs st') /\
  dialogs st' <> init_dialogs st' /\
  (forall d, d ∈ items_of (mem w') (dialogs st') ->
             d ∉ items_of (mem w') (init_dialogs st')) /\
  (forall t,
     turns_of (append_turn (dialogs st') t (mem w')) (init_dialogs st')
     = turns_of (mem w') (init_dialogs st')) /\
  (forall d t,
     d ∈ items_of (mem w') (dialogs st') ->
     turns_of (dict_assign d t (mem w')) (init_dialogs st')
     = turns_of (mem w') (init_dialogs st')) /\
  (forall evs st'' w'',
     run rt create model_name st' w' evs = Running st'' w'' ->
     turns_of (mem w'') (init_dialogs st') = turns_of (mem w') (init_dialogs st')).
Proof.
  intros Hwf Hh.
  destruct (handle_THRESHOLD_START_spec rt msg st st' w w' Hwf Hh)
    as (Hwf' & Hi & Hd & Hlen & _ & _ & Hcopy & Hnew & Hold).
  destruct Hwf as (Hwfm & Hil & Hdl & Hne).
  destruct (Hold (init_dialogs st) Hil) as [Hitems Hturns].
  assert (Hdisj : forall d, d ∈ items_of (mem w') (dialogs st') ->
                            d ∉ items_of (mem w') (init_dialogs st')).
  { intros d Hin Hin'. rewrite Hi, Hitems in Hin'.
    pose proof (wf_store_items (mem w) (init_dialogs st) Hwfm) as Hlt.
    rewrite Forall_forall in Hnew, Hlt.
    specialize (Hnew d Hin). specialize (Hlt d Hin'). cbn in *. lia. }
  assert (Hneq : dialogs st' <> init_dialogs st') by (rewrite Hd, Hi; lia).
  split; [done|]. split; [by rewrite Hi|]. split; [by rewrite Hcopy, Hi|].
  split; [done|]. split; [done|]. split; [|split].
  - intros t. apply turns_of_append_turn_other; [|done]. by destruct Hwf'.
  - intros d t Hin. apply turns_of_dict_assign. by apply Hdisj.
  - intros evs st'' w'' Hrun.
    destruct (run_frame rt create model_name (init_dialogs st') evs st' st'' w' w'')
      as (_ & _ & _ & T); try done.
    by destruct Hwf' as (_ & ? & _).
Qed.

(** C10. Handling an [INIT], in whatever state the worker is, replaces
    only [init_dialogs]: [dialogs] is the same list with the same turns
    (every list that existed is unchanged), and nothing is sent or
    written.  The new system prompt reaches the conversation only with
    the next [THRESHOLD_START]: until then [dialogs] keeps its turns and
    gains only user and assistant turns, and the reset makes it a copy of
    the new prefix. *)
Theorem init_leaves_turns_unchanged
    (msg : Message) (st st' : locals) (w w' : world B) :
  wf_state st w ->
  handle_INIT rt msg st w = Ok (st', w') ->
  dialogs st' = dialogs st /\
  turns_of (mem w') (dialogs st') = turns_of (mem w) (dialogs st) /\
  (forall l, (l < length (lists (mem w)))%nat ->
     items_of (mem w') l = items_of (mem w) l /\
     turns_of (mem w') l = turns_of (mem w) l) /\
  queue_snd w' = queue_snd w /\ out_f w' = out_f w /\ llm_client w' = llm_client w /\
  (exists labels operators,
     py_get rt (payload msg) "labels" (PyList []) = Ok labels /\
     py_get rt (payload msg) "operators" (PyList []) = Ok operators /\
     turns_of (mem w') (init_dialogs st')
     = [Turn "system" (create_system_prompt rt labels operators resp_format_json)]) /\
  (forall evs st2 w2,
     forallb (fun ev => negb (is_kind THRESHOLD_START ev)) evs = true ->
     run rt create model_name st' w' evs = Running st2 w2 ->
     dialogs st2 = dialogs st /\
     exists extra,
       turns_of (mem w2) (dialogs st2) = turns_of (mem w) (dialogs st) ++ extra /\
       Forall conversational extra) /\
  (forall msg2 st2 w2,
     handle_THRESHOLD_START rt msg2 st' w' = Ok (st2, w2) ->
     turns_of (mem w2) (dialogs st2) = turns_of (mem w') (init_dialogs st')).
Proof.
  intros Hwf Hh.
  destruct (handle_INIT_spec rt msg st st' w w' Hwf Hh)
    as (labels & operators & Hl & Ho & Hwf' & Hi & Hd & Hlen & Hq & Hout & Hllm & Hinit & Hold).
  assert (Hturns : turns_of (mem w') (dialogs st') = turns_of (mem w) (dialogs st)).
  { rewrite Hd. apply Hold. by destruct Hwf as (_ & _ & ? & _). }
  split; [done|]. split; [done|]. split; [done|].
  split; [done|]. split; [done|]. split; [done|].
  split; [by exists labels, operators|]. split.
  - intros evs st2 w2 Hevs Hrun.
    destruct (run_without_reset rt create model_name evs st' st2 w' w2 Hwf' Hevs Hrun)
      as (_ & D & extra & T & F).
    split; [by rewrite D|]. exists extra. by rewrite T, Hturns.
  - intros msg2 st2 w2 Hh2.
    by destruct (handle_THRESHOLD_START_spec rt msg2 st' st2 w' w2 Hwf' Hh2)
      as (_ & _ & _ & _ & _ & _ & Hcopy & _).
Qed.

(** ** Termination and the transcript *)

(** C7 (amended). On [COMMAND] with [command = "exit"] the worker writes
    the end marker and then all the turns of [dialogs], in the order they
    were appended, and stops: whatever events follow are not handled.  The
    text written for a turn is the capitalised role, a colon and a space,
    the content, a newline and an empty line, and then a line of [=]. *)
Theorem exit_flushes_transcript
    (kv : list (pyvalue * pyvalue)) (st : locals) (w : world B) (rest : list event) :
  dict_lookup "command" kv = Some (PyStr "exit") ->
  let turns := turns_of (mem w) (dialogs st) in
  let block (msg : turn) :=
    (capitalize (role msg) +:+ ": " +:+ content msg +:+ nl +:+ nl) +:+
    ("==================================" +:+ nl) in
  exists w' : world B,
    run rt create model_name st w (Received (Msg COMMAND (PyDict kv)) :: rest) = Exited w' /\
    out_f w' =
      (out_f w +:+ (nl +:+ "============Conversation ended.============" +:+ nl)) +:+
      foldr (fun msg written => block msg +:+ written) EmptyString turns /\
    mem w' = mem w /\ queue_snd w' = queue_snd w /\ llm_client w' = llm_client w.
Proof.
  intros Hcmd turns block.
  exists (flush_transcript st (write ENDED w)).
  split.
  - rewrite run_cons. cbn [step msg_type payload py_get]. rewrite Hcmd. done.
  - split; [|done]. cbn [flush_transcript write out_f mem]. f_equal.
Qed.

(** C8. For the empty list of individuals [format_top_individuals]
    returns the empty text without raising, and the first-round prompt is
    built without raising: it is the first-round template around an empty
    listing, followed by the schema suffix, and has no [Individual] entry.
    The [EVOLUTION_UPDATE] that carries it (or carries no
    [top_individuals] at all) is handled and leaves the worker running. *)
Theorem first_round_prompt_of_no_individuals :
  format_top_individuals rt (PyList []) = Ok EmptyString /\
  round_prompt rt (PyDict [(PyStr "top_individuals", PyList [])])
  = Ok (FIRST_ROUND_0 +:+ FIRST_ROUND_1 +:+ JSON_SUFFIX) /\
  round_prompt rt (PyDict []) = Ok (FIRST_ROUND_0 +:+ FIRST_ROUND_1 +:+ JSON_SUFFIX) /\
  is_substring "Individual " (FIRST_ROUND_0 +:+ FIRST_ROUND_1 +:+ JSON_SUFFIX) = false /\
  (forall st (w : world B),
     exists w' ts,
       step rt create model_name st w
         (Received (Msg EVOLUTION_UPDATE (PyDict [(PyStr "top_individuals", PyList [])])))
       = Running st w' /\
       mem w' = append_turns (dialogs st)
                  (Turn "user" (FIRST_ROUND_0 +:+ FIRST_ROUND_1 +:+ JSON_SUFFIX) :: ts)
                  (mem w)).
Proof.
  split; [done|]. split; [done|]. split; [done|]. split; [by vm_compute|].
  intros st w. cbn [step msg_type]. unfold handle_EVOLUTION_UPDATE.
  change (round_prompt rt (payload (Msg EVOLUTION_UPDATE
            (PyDict [(PyStr "top_individuals", PyList [])]))))
    with (Ok (FIRST_ROUND_0 +:+ FIRST_ROUND_1 +:+ JSON_SUFFIX)).
  cbv beta iota.
  destruct (process_llm_response_one_envelope rt create model_name (dialogs st)
              default_max_retries
              (with_mem (append_turn (dialogs st)
                 (Turn "user" (FIRST_ROUND_0 +:+ FIRST_ROUND_1 +:+ JSON_SUFFIX))) w))
    as (b & env & ts & w2 & Hrun & _ & _ & _ & Hmem & _); [done|].
  rewrite Hrun. by exists w2, ts.
Qed.

End Conversation.

(** * Instances of the theorems, and inputs on which the specification's
      wording fails *)

Lemma evolution_update_emits_exactly_one_witness :
  msg_type (Msg EVOLUTION_UPDATE (PyDict [])) = EVOLUTION_UPDATE /\
  is_ok (round_prompt example_runtime (payload (Msg EVOLUTION_UPDATE (PyDict [])))) = true /\
  exists (prompt : string) (b : bool) (env : Message) (w' : world nat),
    round_prompt example_runtime (payload (Msg EVOLUTION_UPDATE (PyDict []))) = Ok prompt /\
    process_llm_response example_runtime good_backend example_model
      (dialogs (fst after_reset)) default_max_retries
      (with_mem (append_turn (dialogs (fst after_reset)) (Turn "user" prompt))
         (snd after_reset))
      = (Ok (PyBool b), w') /\
    step example_runtime good_backend example_model (fst after_reset) (snd after_reset)
      (Received (Msg EVOLUTION_UPDATE (PyDict []))) = Running (fst after_reset) w' /\
    queue_snd w' = queue_snd (snd after_reset) ++ [env] /\
    msg_type env = (if b then SUGGESTION else ERROR) /\
    emitted (snd after_reset) w' = [env] /\
    (count_type SUGGESTION (emitted (snd after_reset) w') +
     count_type ERROR (emitted (snd after_reset) w') = 1)%nat.
Proof.
  split; [reflexivity|]. split; [reflexivity|].
  apply (evolution_update_emits_exactly_one example_runtime good_backend example_model
           (Msg EVOLUTION_UPDATE (PyDict [])) (fst after_reset) (snd after_reset));
    reflexivity.
Defined.

Lemma three_failures_emit_one_error_witness :
  attempt example_runtime three_bad_answers example_model 1 w_start
  = (Raise bad_error, after_bad_1) /\
  attempt example_runtime three_bad_answers example_model 1
    (send_feedback 1 (error_msg_of bad_error) after_bad_1) = (Raise bad_error, after_bad_2) /\
  attempt example_runtime three_bad_answers example_model 1
    (send_feedback 1 (error_msg_of bad_error) after_bad_2) = (Raise bad_error, after_bad_3) /\
  exists w' : world nat,
    process_llm_response example_runtime three_bad_answers example_model 1 3 w_start
    = (Ok (PyBool false), w') /\
    emitted w_start w'
    = [Msg ERROR
         (PyDict [(PyStr "error",
                   PyStr ("Response format error: Cannot parse response format: " +:+
                          "invalid syntax (<unknown>, line 1)"));
                  (PyStr "retries", PyInt 3)])] /\
    queue_snd w'
    = [Msg ERROR
         (PyDict [(PyStr "error",
                   PyStr ("Response format error: Cannot parse response format: " +:+
                          "invalid syntax (<unknown>, line 1)"));
                  (PyStr "retries", PyInt 3)])] /\
    count_type ERROR (emitted w_start w') = 1%nat /\
    count_type SUGGESTION (emitted w_start w') = 0%nat.
Proof.
  assert (H1 : attempt example_runtime three_bad_answers example_model 1 w_start
               = (Raise bad_error, after_bad_1)) by (vm_compute; reflexivity).
  assert (H2 : attempt example_runtime three_bad_answers example_model 1
                 (send_feedback 1 (error_msg_of bad_error) after_bad_1)
               = (Raise bad_error, after_bad_2)) by (vm_compute; reflexivity).
  assert (H3 : attempt example_runtime three_bad_answers example_model 1
                 (send_feedback 1 (error_msg_of bad_error) after_bad_2)
               = (Raise bad_error, after_bad_3)) by (vm_compute; reflexivity).
  split; [exact H1|]. split; [exact H2|]. split; [exact H3|].
  exact (three_failures_emit_one_error example_runtime three_bad_answers example_model 1
           w_start after_bad_1 after_bad_2 after_bad_3 bad_error bad_error bad_error
           H1 H2 H3).
Defined.

Lemma wf_state_after_init : wf_state (fst after_init) (snd after_init).
Proof. vm_compute. repeat split; repeat constructor. lia. Qed.

Lemma wf_state_after_round : wf_state (fst after_round) (snd after_round).
Proof. vm_compute. repeat split; repeat constructor. lia. Qed.

Lemma history_growth_per_attempt_witness :
  wf_store (mem w_start) /\
  (1 < length (lists (mem w_start)))%nat /\
  exists w' : world nat,
    loop_body example_runtime three_bad_answers example_model 1 3 0 w_start = inr w' /\
    length (turns_of (mem w') 1) = (length (turns_of (mem w_start) 1) + 2)%nat.
Proof.
  assert (Hwf : wf_store (mem w_start)) by (repeat constructor).
  assert (Hl : (1 < length (lists (mem w_start)))%nat) by (cbn; lia).
  split; [exact Hwf|]. split; [exact Hl|].
  destruct (history_growth_per_attempt example_runtime three_bad_answers example_model 1
              3 0 w_start Hwf Hl) as [Hanswered _].
  destruct (Hanswered "not json" 1%nat eq_refl) as [_ Hfailed].
  destruct (Hfailed bad_error) as (w' & Hbody & _ & Hlen);
    [vm_compute; reflexivity|lia|].
  exists w'. split; [exact Hbody|exact Hlen].
Defined.

Lemma process_llm_response_returns_witness :
  0 < 3 /\
  exists b : bool,
    fst (process_llm_response example_runtime unreachable_backend example_model 1 3 w_start)
    = Ok (PyBool b).
Proof.
  split; [lia|].
  destruct (process_llm_response_returns example_runtime unreachable_backend example_model 1
              3 w_start) as [(v & w' & Hrun & Hbool & _) _].
  destruct (Hbool ltac:(lia)) as [b ->].
  exists b. rewrite Hrun. reflexivity.
Defined.


Lemma init_sets_prefix_reset_sets_turns_witness :
  wf_state st_start w_start /\
  handle_INIT example_runtime (Msg INIT (PyDict [])) st_start w_start
  = Ok (fst after_init, snd after_init) /\
  dialogs (fst after_init) = dialogs st_start /\
  turns_of (mem (snd after_init)) (dialogs (fst after_init))
  = turns_of (mem w_start) (dialogs st_start).
Proof.
  assert (Hwf : wf_state st_start w_start) by (apply llama_start_wf).
  assert (Hh : handle_INIT example_runtime (Msg INIT (PyDict [])) st_start w_start
               = Ok (fst after_init, snd after_init)) by (vm_compute; reflexivity).
  split; [exact Hwf|]. split; [exact Hh|].
  destruct (init_sets_prefix_reset_sets_turns example_runtime good_backend example_model
              (Msg INIT (PyDict [])) st_start w_start Hwf) as (Hinit & _ & _).
  destruct (Hinit _ _ Hh) as (labels & operators & _ & _ & _ & Hd & Hturns).
  split; [exact Hd|exact Hturns].
Defined.

Lemma threshold_start_resets_to_fresh_copy_witness :
  wf_state (fst after_init) (snd after_init) /\
  handle_THRESHOLD_START example_runtime (Msg THRESHOLD_START (PyDict []))
    (fst after_init) (snd after_init) = Ok (fst after_reset, snd after_reset) /\
  turns_of (mem (snd after_reset)) (dialogs (fst after_reset))
  = turns_of (mem (snd after_reset)) (init_dialogs (fst after_reset)) /\
  dialogs (fst after_reset) <> init_dialogs (fst after_reset).
Proof.
  assert (Hh : handle_THRESHOLD_START example_runtime (Msg THRESHOLD_START (PyDict []))
                 (fst after_init) (snd after_init) = Ok (fst after_reset, snd after_reset))
    by (vm_compute; reflexivity).
  split; [exact wf_state_after_init|]. split; [exact Hh|].
  destruct (threshold_start_resets_to_fresh_copy example_runtime good_backend example_model
              (Msg THRESHOLD_START (PyDict [])) _ _ _ _ wf_state_after_init Hh)
    as (_ & _ & Hcopy & Hne & _).
  split; [exact Hcopy|exact Hne].
Defined.

Lemma init_leaves_turns_unchanged_witness :
  wf_state (fst after_round) (snd after_round) /\
  handle_INIT example_runtime second_INIT (fst after_round) (snd after_round)
  = Ok (fst after_second_init, snd after_second_init) /\
  length (turns_of (mem (snd after_round)) (dialogs (fst after_round))) = 3%nat /\
  turns_of (mem (snd after_second_init)) (dialogs (fst after_second_init))
  = turns_of (mem (snd after_round)) (dialogs (fst after_round)).
Proof.
  assert (Hh : handle_INIT example_runtime second_INIT (fst after_round) (snd after_round)
               = Ok (fst after_second_init, snd after_second_init))
    by (vm_compute; reflexivity).
  split; [exact wf_state_after_round|]. split; [exact Hh|].
  split; [vm_compute; reflexivity|].
  destruct (init_leaves_turns_unchanged example_runtime good_backend example_model
              second_INIT _ _ _ _ wf_state_after_round Hh) as (_ & Hturns & _).
  exact Hturns.
Defined.

Lemma exit_flushes_transcript_witness :
  dict_lookup "command" exit_command = Some (PyStr "exit") /\
  exists w' : world nat,
    run example_runtime good_backend example_model (fst after_round) (snd after_round)
      [Received (Msg COMMAND (PyDict exit_command));
       Received (Msg EVOLUTION_UPDATE (PyDict []))] = Exited w' /\
    queue_snd w' = queue_snd (snd after_round).
Proof.
  split; [reflexivity|].
  destruct (exit_flushes_transcript example_runtime good_backend example_model
              exit_command (fst after_round) (snd after_round)
              [Received (Msg EVOLUTION_UPDATE (PyDict []))] eq_refl)
    as (w' & Hrun & _ & _ & Hq & _).
  exists w'. split; [exact Hrun|exact Hq].
Defined.

(** C3, as worded, fails: after the first [INIT] the prefix holds the
    system turn while the turn history is still empty, so the history is
    not a copy of the prefix and does not begin with it. *)
Lemma init_does_not_set_turns :
  exists (st : locals) (w : world nat),
    llama_main example_runtime good_backend example_model [] 0%nat
      [Received (Msg INIT (PyDict []))] = Running st w /\
    length (turns_of (mem w) (init_dialogs st)) = 1%nat /\
    turns_of (mem w) (dialogs st) = [] /\
    ~ turns_of (mem w) (init_dialogs st) `prefix_of` turns_of (mem w) (dialogs st).
Proof.
  eexists _, _. split; [vm_compute; reflexivity|].
  split; [reflexivity|]. split; [reflexivity|].
  intros [k Hk]. discriminate Hk.
Qed.


(** An element of [suggestions] that is not a dict passes lines 168-169
    when it holds both names: here a str with both as substrings. *)
Lemma holder_of_names_passes_the_check :
  complete (PyStr "my expression and reason") = false /\
  keyed_schema_check example_runtime
    (PyDict [(PyStr "suggestions", PyList [PyStr "my expression and reason"])]) = None /\
  validate_payload example_runtime
    (PyDict [(PyStr "suggestions", PyList [PyStr "my expression and reason"])]) = Ok tt.
Proof. split; [reflexivity|]. split; vm_compute; reflexivity. Qed.

(** C5, as worded, fails: when the backend call of the first attempt
    raises, the attempt is failed and retriable, the history grows by the
    feedback turn only (by 1, not 2), and no assistant turn is appended. *)
Lemma failed_call_grows_history_by_one :
  exists w' : world nat,
    loop_body example_runtime unreachable_backend example_model 1 3 0 w_start = inr w' /\
    turns_of (mem w') 1
    = turns_of (mem w_start) 1 ++
      [Turn "user" (error_prompt_of "Unknown error: Connection error.")] /\
    length (turns_of (mem w') 1) = (length (turns_of (mem w_start) 1) + 1)%nat /\
    length (turns_of (mem w') 1) <> (length (turns_of (mem w_start) 1) + 2)%nat.
Proof.
  eexists. split; [vm_compute; reflexivity|].
  split; [reflexivity|]. split; [reflexivity|]. cbn. lia.
Qed.

(** C7, as worded, fails: the block written for a turn has the content on
    the line of the role label and the empty line after the content, not
    between the label and the content. *)
Lemma transcript_block_is_not_label_blank_content :
  exists w' : world nat,
    run example_runtime good_backend example_model (fst after_round) (snd after_round)
      [Received (Msg COMMAND (PyDict exit_command))] = Exited w' /\
    let turns := turns_of (mem (snd after_round)) (dialogs (fst after_round)) in
    out_f w' = (out_f (snd after_round) +:+ ENDED) +:+ transcript turns /\
    String.eqb (out_f w')
      ((out_f (snd after_round) +:+ ENDED) +:+ spec_transcript turns) = false /\
    transcript_block (Turn "assistant" "ok")
    = "Assistant: ok" +:+ nl +:+ nl +:+ "==================================" +:+ nl /\
    transcript_block (Turn "assistant" "ok") <> spec_transcript_block (Turn "assistant" "ok").
Proof.
  eexists. split; [vm_compute; reflexivity|].
  split; [reflexivity|]. split; [vm_compute; reflexivity|].
  split; [reflexivity|]. intros H. vm_compute in H. discriminate H.
Qed.

(** C9, as worded, fails: a [ValueError] raised by the backend call is
    caught by the first [except] clause and reported as a response format
    error, not as an unknown error. *)
Lemma backend_value_error_is_format_error :
  exists w' : world nat,
    process_llm_response example_runtime value_error_backend example_model 1 1 w_start
    = (Ok (PyBool false), w') /\
    emitted w_start w' = [Msg ERROR (error_payload "Response format error: boom" 1)] /\
    is_substring "Unknown error" "Response format error: boom" = false.
Proof.
  eexists. split; [vm_compute; reflexivity|]. split; reflexivity.
Qed.

(** * Further properties of the code *)

(** ** The retry loop, round by round *)

Section LoopRule.
Context (rt : Runtime).
Context {B : Type}.
Context (create : B -> string -> list turn -> outcome string * B).
Context (model_name : string) (dialogs : lref).

(** A property of the loop entered with [retries] in the world [w] holds
    of what the loop gives, when it holds of a successful attempt, of a
    last failed attempt, and of a failed attempt followed by a loop for
    which it holds. *)
Lemma retry_loop_rule (max_retries : Z)
    (P : Z -> world B -> outcome pyvalue * world B -> Prop) :
  (forall retries w w1,
     retries < max_retries ->
     attempt rt create model_name dialogs w = (Ok tt, w1) ->
     P retries w (Ok (PyBool true), w1)) ->
  (forall retries w w1 e,
     retries < max_retries -> max_retries <= retries + 1 ->
     attempt rt create model_name dialogs w = (Raise e, w1) ->
     P retries w (Ok (PyBool false), send_error (error_msg_of e) (retries + 1) w1)) ->
  (forall retries w w1 e res,
     retries + 1 < max_retries ->
     attempt rt create model_name dialogs w = (Raise e, w1) ->
     P (retries + 1) (send_feedback dialogs (error_msg_of e) w1) res ->
     P retries w res) ->
  forall retries w,
    retries < max_retries ->
    P retries w (retry_loop rt create model_name dialogs max_retries retries w).
Proof.
  intros Hsuccess Hlast Hretry retries w Hlt.
  remember (Z.to_nat (max_retries - retries)) as n eqn:Hn.
  revert retries w Hlt Hn.
  induction n as [|n IH]; intros retries w Hlt Hn; [lia|].
  rewrite retry_loop_step. destruct (decide (retries < max_retries)); [|lia].
  destruct (attempt rt create model_name dialogs w) as [[[]|e] w1] eqn:Ha.
  - unfold loop_body. rewrite Ha. by apply Hsuccess.
  - destruct (decide (retries + 1 < max_retries)) as [Hnext|Hstop].
    + rewrite (loop_body_retry rt create model_name dialogs max_retries retries w w1 e)
        by done.
      eapply Hretry; [done|exact Ha|]. apply IH; lia.
    + rewrite (loop_body_exhausted rt create model_name dialogs max_retries retries w w1 e)
        by (done || lia).
      apply Hlast; [done|lia|done].
Qed.

End LoopRule.

(** ** The retry budget *)

Section Budget.
Context (rt : Runtime).
Context {B : Type}.
Context (create : B -> string -> list turn -> outcome string * B).
Context (model_name : string) (dialogs : lref).

(** An attempt sends the backend the current turns of [dialogs], once. *)
Lemma attempt_logged (w : world (B * list (list turn))) :
  snd (llm_client (snd (attempt rt (logged create) model_name dialogs w)))
  = snd (llm_client w) ++ [turns_of (mem w) dialogs].
Proof.
  unfold attempt, logged.
  destruct (create _ _ _) as [[text|e] b]; cbn; [|done].
  by destruct (validate_response rt text).
Qed.

Lemma calls_app (w w' : world (B * list (list turn))) (sent : list (list turn)) :
  snd (llm_client w') = snd (llm_client w) ++ sent -> calls w w' = sent.
Proof. intros E. unfold calls. rewrite E. by rewrite drop_app_length. Qed.

Lemma retry_loop_budget (max_retries : Z) :
  forall retries (w : world (B * list (list turn))),
  retries < max_retries ->
  exists (b : bool) (env : Message) (ts : list turn) (sent : list (list turn)) w',
    retry_loop rt (logged create) model_name dialogs max_retries retries w
    = (Ok (PyBool b), w') /\
    snd (llm_client w') = snd (llm_client w) ++ sent /\
    (1 <= length sent <= Z.to_nat (max_retries - retries))%nat /\
    (b = false -> length sent = Z.to_nat (max_retries - retries) /\
                  exists msg, env = Msg ERROR (error_payload msg max_retries)) /\
    (b = true -> exists p, env = Msg SUGGESTION p) /\
    queue_snd w' = queue_snd w ++ [env] /\
    mem w' = append_turns dialogs ts (mem w) /\
    (length ts <= 2 * length sent - 1)%nat.
Proof.
  apply (retry_loop_rule rt (logged create) model_name dialogs max_retries
    (fun retries w res =>
       exists (b : bool) (env : Message) (ts : list turn) (sent : list (list turn)) w',
         res = (Ok (PyBool b), w') /\
         snd (llm_client w') = snd (llm_client w) ++ sent /\
         (1 <= length sent <= Z.to_nat (max_retries - retries))%nat /\
         (b = false -> length sent = Z.to_nat (max_retries - retries) /\
                       exists msg, env = Msg ERROR (error_payload msg max_retries)) /\
         (b = true -> exists p, env = Msg SUGGESTION p) /\
         queue_snd w' = queue_snd w ++ [env] /\
         mem w' = append_turns dialogs ts (mem w) /\
         (length ts <= 2 * length sent - 1)%nat)).
  - intros retries w w1 Hlt Ha.
    pose proof (attempt_logged w) as Hlog.
    destruct (attempt_cases rt (logged create) model_name dialogs w) as (_ & Hc).
    rewrite Ha in Hlog, Hc. cbn [fst snd] in Hlog, Hc.
    destruct Hc as [(text & p & _ & Hmem & Hq)|(e & He & _)]; [|done].
    exists true, (Msg SUGGESTION p), [Turn "assistant" text],
      [turns_of (mem w) dialogs], w1.
    split; [done|]. split; [done|]. split; [cbn; lia|]. split; [done|].
    split; [by exists p|]. split; [done|]. split; [done|]. cbn. lia.
  - intros retries w w1 e Hlt Hge Ha.
    pose proof (attempt_logged w) as Hlog.
    destruct (attempt_cases rt (logged create) model_name dialogs w) as (_ & Hc).
    rewrite Ha in Hlog, Hc. cbn [fst snd] in Hlog, Hc.
    destruct Hc as [(text & p & He & _)|(e0 & _ & Hq & Hmem)]; [done|].
    assert (Hts : exists ts, mem w1 = append_turns dialogs ts (mem w) /\
                             (length ts <= 1)%nat).
    { destruct Hmem as [->|[text ->]]; [exists []|exists [Turn "assistant" text]];
        split; try done; cbn; lia. }
    destruct Hts as (ts & Hmem1 & Hlen).
    exists false, (Msg ERROR (error_payload (error_msg_of e) (retries + 1))), ts,
      [turns_of (mem w) dialogs], (send_error (error_msg_of e) (retries + 1) w1).
    split; [done|]. split; [done|]. split; [cbn; lia|]. split.
    { intros _. split; [cbn; lia|]. exists (error_msg_of e).
      by replace (retries + 1) with max_retries by lia. }
    split; [done|]. split; [cbn; by rewrite Hq|]. split; [done|]. cbn. lia.
  - intros retries w w1 e res Hlt Ha
      (b & env & ts & sent & w' & -> & Hlog' & Hn & Hfalse & Htrue & Hq' & Hmem' & Hlen').
    pose proof (attempt_logged w) as Hlog.
    destruct (attempt_cases rt (logged create) model_name dialogs w) as (_ & Hc).
    rewrite Ha in Hlog, Hc. cbn [fst snd] in Hlog, Hc.
    destruct Hc as [(text & p & He & _)|(e0 & _ & Hq & Hmem)]; [done|].
    assert (Hts : exists ts1, mem w1 = append_turns dialogs ts1 (mem w) /\
                              (length ts1 <= 1)%nat).
    { destruct Hmem as [->|[text ->]]; [exists []|exists [Turn "assistant" text]];
        split; try done; cbn; lia. }
    destruct Hts as (ts1 & Hmem1 & Hlen1).
    cbn [send_feedback with_mem mem queue_snd llm_client] in *.
    exists b, env,
      (ts1 ++ Turn "user" (error_prompt_of (error_msg_of e)) :: ts),
      (turns_of (mem w) dialogs :: sent), w'.
    split; [done|]. split; [by rewrite Hlog', Hlog, <- app_assoc|].
    split; [cbn; lia|]. split.
    { intros Hb. destruct (Hfalse Hb) as [Hk Hmsg]. split; [cbn; lia|done]. }
    split; [done|]. split; [by rewrite Hq', Hq|]. split.
    { rewrite Hmem', Hmem1. by rewrite append_turns_app. }
    rewrite length_app. cbn. lia.
Qed.

(** X1. Called with [max_retries >= 1], [process_llm_response] calls the
    backend at least once and at most [max_retries] times, and appends at
    most [2 * calls - 1] turns to [dialogs].  It returns [False] only
    after exactly [max_retries] calls, and the payload of the [ERROR]
    envelope it then puts is the dict of a str [error] and of [retries],
    the int [max_retries]; when it returns [True] the one envelope is a
    [SUGGESTION]. *)
Theorem retry_budget (max_retries : Z) (w : world (B * list (list turn))) :
  0 < max_retries ->
  exists (b : bool) (env : Message) (ts : list turn) w',
    process_llm_response rt (logged create) model_name dialogs max_retries w
    = (Ok (PyBool b), w') /\
    (1 <= length (calls w w') <= Z.to_nat max_retries)%nat /\
    (b = false -> length (calls w w') = Z.to_nat max_retries /\
                  exists msg,
                    env = Msg ERROR (PyDict [(PyStr "error", PyStr msg);
                                             (PyStr "retries", PyInt max_retries)])) /\
    (b = true -> exists p, env = Msg SUGGESTION p) /\
    emitted w w' = [env] /\
    mem w' = append_turns dialogs ts (mem w) /\
    (length ts <= 2 * length (calls w w') - 1)%nat.
Proof.
  intros Hpos. unfold process_llm_response.
  destruct (retry_loop_budget max_retries 0 w Hpos)
    as (b & env & ts & sent & w' & Hrun & Hlog & Hn & Hfalse & Htrue & Hq & Hmem & Hlen).
  exists b, env, ts, w'. rewrite (calls_app w w' sent Hlog).
  replace (max_retries - 0) with max_retries in * by lia.
  split; [done|]. split; [done|]. split; [exact Hfalse|]. split; [done|].
  split; [by apply emitted_app|]. done.
Qed.

End Budget.

(** ** What the backend is sent *)

Section Sent.
Context (rt : Runtime).
Context {B : Type}.
Context (create : B -> string -> list turn -> outcome string * B).
Context (model_name : string).

Lemma retry_loop_sent (dialogs : lref) (max_retries : Z) :
  forall retries (w : world (B * list (list turn))),
  retries < max_retries ->
  wf_store (mem w) ->
  (dialogs < length (lists (mem w)))%nat ->
  (exists t, last (turns_of (mem w) dialogs) = Some t /\ role t = "user") ->
  exists sent,
    snd (llm_client
           (snd (retry_loop rt (logged create) model_name dialogs max_retries retries w)))
    = snd (llm_client w) ++ turns_of (mem w) dialogs :: sent /\
    Forall (extends_to_user (turns_of (mem w) dialogs)) sent.
Proof.
  apply (retry_loop_rule rt (logged create) model_name dialogs max_retries
    (fun retries w res =>
       wf_store (mem w) ->
       (dialogs < length (lists (mem w)))%nat ->
       (exists t, last (turns_of (mem w) dialogs) = Some t /\ role t = "user") ->
       exists sent,
         snd (llm_client (snd res))
         = snd (llm_client w) ++ turns_of (mem w) dialogs :: sent /\
         Forall (extends_to_user (turns_of (mem w) dialogs)) sent)).
  - intros retries w w1 Hlt Ha _ _ _.
    pose proof (attempt_logged rt create model_name dialogs w) as Hlog.
    rewrite Ha in Hlog. cbn [snd] in *. by exists [].
  - intros retries w w1 e Hlt Hge Ha _ _ _.
    pose proof (attempt_logged rt create model_name dialogs w) as Hlog.
    rewrite Ha in Hlog. cbn [snd send_error put llm_client] in *. by exists [].
  - intros retries w w1 e res Hlt Ha IH Hwf Hl Hlast.
    pose proof (attempt_logged rt create model_name dialogs w) as Hlog.
    destruct (attempt_cases rt (logged create) model_name dialogs w) as (_ & Hc).
    rewrite Ha in Hlog, Hc. cbn [fst snd] in Hlog, Hc.
    destruct Hc as [(text & p & He & _)|(e0 & _ & _ & Hmem)]; [done|].
    assert (Hts : exists ts1, mem w1 = append_turns dialogs ts1 (mem w)).
    { destruct Hmem as [->|[text ->]]; [by exists []|by exists [Turn "assistant" text]]. }
    destruct Hts as (ts1 & Hmem1).
    destruct (append_turns_facts dialogs ts1 (mem w) Hwf Hl) as (W1 & L1 & T1 & _).
    rewrite <- Hmem1 in W1, L1, T1.
    assert (Hnew : turns_of (mem (send_feedback dialogs (error_msg_of e) w1)) dialogs
                   = turns_of (mem w) dialogs ++
                     (ts1 ++ [Turn "user" (error_prompt_of (error_msg_of e))])).
    { cbn [send_feedback with_mem mem].
      rewrite turns_of_append_turn_same by (done || lia).
      by rewrite T1, <- app_assoc. }
    destruct IH as (sent & Hsent & Hall).
    { cbn [send_feedback with_mem mem]. by apply wf_store_append_turn. }
    { cbn [send_feedback with_mem mem]. rewrite length_lists_append_turn. lia. }
    { rewrite Hnew, app_assoc, last_snoc. by eexists. }
    cbn [send_feedback with_mem llm_client] in Hsent.
    exists (turns_of (mem (send_feedback dialogs (error_msg_of e) w1)) dialogs :: sent).
    split.
    { rewrite Hsent, Hlog, <- app_assoc. done. }
    constructor.
    + split.
      * rewrite Hnew. by apply prefix_app_r.
      * rewrite Hnew, app_assoc, last_snoc. by eexists.
    + eapply Forall_impl; [exact Hall|].
      intros messages [Hpre Hu]. split; [|done].
      etrans; [|exact Hpre]. rewrite Hnew. by apply prefix_app_r.
Qed.

(** X2. While it handles an [EVOLUTION_UPDATE] the worker sends the
    backend, at the first call, the whole turn history followed by the
    round prompt as a user turn, and at every later call a conversation
    that starts with that one; every conversation it sends ends with a
    user turn. *)
Theorem backend_sees_history_ending_with_user
    (msg : Message) (st st' : locals) (w w' : world (B * list (list turn))) :
  wf_state st w ->
  msg_type msg = EVOLUTION_UPDATE ->
  step rt (logged create) model_name st w (Received msg) = Running st' w' ->
  exists prompt sent,
    round_prompt rt (payload msg) = Ok prompt /\
    calls w w' = (turns_of (mem w) (dialogs st) ++ [Turn "user" prompt]) :: sent /\
    Forall (extends_to_user (turns_of (mem w) (dialogs st) ++ [Turn "user" prompt]))
           (calls w w').
Proof.
  intros (Hwf & _ & Hd & _) Hty Hstep.
  cbn [step] in Hstep. rewrite Hty in Hstep. unfold handle_EVOLUTION_UPDATE in Hstep.
  destruct (round_prompt rt (payload msg)) as [prompt|e]; [|done].
  set (w1 := with_mem (append_turn (dialogs st) (Turn "user" prompt)) w) in *.
  assert (Hturns : turns_of (mem w1) (dialogs st)
                   = turns_of (mem w) (dialogs st) ++ [Turn "user" prompt]).
  { by apply turns_of_append_turn_same. }
  destruct (retry_loop_sent (dialogs st) default_max_retries 0 w1) as (sent & Hsent & Hall).
  { done. }
  { by apply wf_store_append_turn. }
  { subst w1. cbn [with_mem mem]. rewrite length_lists_append_turn. lia. }
  { rewrite Hturns, last_snoc. by eexists. }
  unfold process_llm_response in Hstep.
  destruct (retry_loop rt (logged create) model_name (dialogs st) default_max_retries 0 w1)
    as [returned w2].
  cbn [snd] in Hsent.
  destruct returned; [|done]. injection Hstep as <- <-.
  rewrite Hturns in Hsent, Hall.
  exists prompt, sent. split; [done|].
  rewrite (calls_app w w2 _ Hsent). split; [done|].
  constructor; [|done]. split; [done|]. rewrite last_snoc. by eexists.
Qed.

End Sent.

(** ** What a [SUGGESTION] carries *)

Section Accepted.
Context (rt : Runtime).

Lemma check_suggestions_ok (items : list pyvalue) :
  check_suggestions rt items = Ok tt ->
  Forall (fun x => py_contains rt "expression" x = Ok true /\
                   py_contains rt "reason" x = Ok true) items.
Proof.
  induction items as [|x items IH]; [constructor|].
  cbn [check_suggestions].
  destruct (py_contains rt "expression" x) as [[]|] eqn:He; cbn; try done.
  destruct (py_contains rt "reason" x) as [[]|] eqn:Hr; cbn; try done.
  intros H. constructor; [done|by apply IH].
Qed.

Lemma validate_payload_accepted (p : pyvalue) :
  validate_payload rt p = Ok tt -> accepted rt p.
Proof.
  unfold validate_payload.
  destruct (py_contains rt "suggestions" p) as [[]|] eqn:Hin; cbn; try done.
  destruct (py_getitem rt p "suggestions") as [suggestions|] eqn:Hget; cbn; [|done].
  destruct (py_iter rt suggestions) as [items|] eqn:Hiter; cbn; [|done].
  intros Hcheck. destruct p; try done.
  cbn [py_getitem] in Hget.
  destruct (dict_lookup "suggestions" kv) as [s|] eqn:Hs; [|done].
  injection Hget as ->.
  exists kv, suggestions, items. repeat split; try done.
  by apply check_suggestions_ok.
Qed.

Lemma validate_response_accepted (text : string) (p : pyvalue) :
  validate_response rt text = Ok p ->
  accepted rt p /\ (json_loads rt text = Ok p \/ literal_eval rt text = Ok p).
Proof.
  unfold validate_response.
  destruct (parse_response rt text) as [q|] eqn:Hparse; cbn; [|done].
  destruct (validate_payload rt q) as [[]|] eqn:Hv; cbn; [|done].
  intros [= <-]. split; [by apply validate_payload_accepted|].
  unfold parse_response in Hparse.
  destruct (json_loads rt text) as [v|e]; [left; congruence|].
  destruct (isinstance e [JSONDecodeError]); [|done].
  destruct (literal_eval rt text) as [v|e']; [right; congruence|].
  by destruct (isinstance e' [ValueError; SyntaxError]).
Qed.

(** X5. The schema check looks at the [suggestions] entry only: two dict
    payloads with the same [suggestions] entry are both accepted or are
    rejected with the same error, whatever their other entries
    ([anomaly_score] and [reason] are never inspected). *)
Theorem validate_payload_reads_suggestions_only
    (kv kv' : list (pyvalue * pyvalue)) :
  dict_lookup "suggestions" kv = dict_lookup "suggestions" kv' ->
  validate_payload rt (PyDict kv) = validate_payload rt (PyDict kv').
Proof.
  intros H. unfold validate_payload. cbn [py_contains py_getitem].
  by rewrite !dict_has_lookup, H.
Qed.

(** X6. A batch without suggestions is valid: a dict payload whose
    [suggestions] entry iterates over nothing (an empty list, tuple, set,
    dict, str or bytes) passes the checks. *)
Theorem validate_payload_no_suggestions
    (kv : list (pyvalue * pyvalue)) (suggestions : pyvalue) :
  dict_lookup "suggestions" kv = Some suggestions ->
  py_iter rt suggestions = Ok [] ->
  validate_payload rt (PyDict kv) = Ok tt.
Proof.
  intros Hs Hiter. unfold validate_payload. cbn [py_contains py_getitem].
  rewrite dict_has_lookup, Hs. rewrite bool_decide_eq_true_2 by by eexists.
  cbn. by rewrite Hiter.
Qed.

End Accepted.

Section Sent_suggestion.
Context (rt : Runtime).
Context {B : Type}.
Context (create : B -> string -> list turn -> outcome string * B).
Context (model_name : string) (dialogs : lref).

Lemma attempt_ok (w w1 : world B) :
  attempt rt create model_name dialogs w = (Ok tt, w1) ->
  exists text p b,
    create (llm_client w) model_name (turns_of (mem w) dialogs) = (Ok text, b) /\
    validate_response rt text = Ok p /\
    w1 = put (Msg SUGGESTION p)
           (with_mem (append_turn dialogs (Turn "assistant" text))
              (World (mem w) (queue_snd w) (out_f w) b)).
Proof.
  unfold attempt.
  destruct (create _ _ _) as [[text|e] b]; [|done].
  destruct (validate_response rt text) as [p|e] eqn:Hv; [|done].
  intros [= <-]. by exists text, p, b.
Qed.

Lemma retry_loop_suggestion (max_retries : Z) :
  forall retries (w : world B),
  retries < max_retries ->
  forall w',
    retry_loop rt create model_name dialogs max_retries retries w
    = (Ok (PyBool true), w') ->
    exists text p,
      validate_response rt text = Ok p /\
      last (queue_snd w') = Some (Msg SUGGESTION p) /\
      (wf_store (mem w) -> (dialogs < length (lists (mem w)))%nat ->
       last (turns_of (mem w') dialogs) = Some (Turn "assistant" text)).
Proof.
  apply (retry_loop_rule rt create model_name dialogs max_retries
    (fun retries w res =>
       forall w', res = (Ok (PyBool true), w') ->
       exists text p,
         validate_response rt text = Ok p /\
         last (queue_snd w') = Some (Msg SUGGESTION p) /\
         (wf_store (mem w) -> (dialogs < length (lists (mem w)))%nat ->
          last (turns_of (mem w') dialogs) = Some (Turn "assistant" text)))).
  - intros retries w w1 Hlt Ha w' [= <-].
    destruct (attempt_ok w w1 Ha) as (text & p & b & _ & Hv & ->).
    exists text, p. split; [done|]. split.
    + cbn [put queue_snd]. by rewrite last_snoc.
    + intros Hwf Hl. cbn [put with_mem mem].
      rewrite turns_of_append_turn_same by done. by rewrite last_snoc.
  - by intros retries w w1 e Hlt Hge Ha w' [=].
  - intros retries w w1 e res Hlt Ha IH w' Hres.
    destruct (IH w' Hres) as (text & p & Hv & Hq & Hlast).
    exists text, p. split; [done|]. split; [done|].
    intros Hwf Hl.
    destruct (attempt_cases rt create model_name dialogs w) as (_ & Hc).
    rewrite Ha in Hc. cbn [fst snd] in Hc.
    destruct Hc as [(? & ? & ? & _)|(e0 & _ & _ & Hmem)]; [done|].
    assert (Hts : exists ts1, mem w1 = append_turns dialogs ts1 (mem w)).
    { destruct Hmem as [->|[t ->]]; [by exists []|by exists [Turn "assistant" t]]. }
    destruct Hts as (ts1 & Hmem1).
    destruct (append_turns_facts dialogs ts1 (mem w) Hwf Hl) as (W1 & L1 & _).
    rewrite <- Hmem1 in W1, L1.
    apply Hlast; cbn [send_feedback with_mem mem].
    + by apply wf_store_append_turn.
    + rewrite length_lists_append_turn. lia.
Qed.

Lemma retry_loop_answered (max_retries : Z) :
  forall retries (w : world B),
  retries < max_retries ->
  forall w',
    retry_loop rt create model_name dialogs max_retries retries w
    = (Ok (PyBool true), w') ->
    wf_store (mem w) -> (dialogs < length (lists (mem w)))%nat ->
    exists text p b0,
      create b0 model_name (removelast (turns_of (mem w') dialogs))
      = (Ok text, llm_client w') /\
      last (turns_of (mem w') dialogs) = Some (Turn "assistant" text) /\
      validate_response rt text = Ok p /\
      last (queue_snd w') = Some (Msg SUGGESTION p).
Proof.
  apply (retry_loop_rule rt create model_name dialogs max_retries
    (fun retries w res =>
       forall w', res = (Ok (PyBool true), w') ->
       wf_store (mem w) -> (dialogs < length (lists (mem w)))%nat ->
       exists text p b0,
         create b0 model_name (removelast (turns_of (mem w') dialogs))
         = (Ok text, llm_client w') /\
         last (turns_of (mem w') dialogs) = Some (Turn "assistant" text) /\
         validate_response rt text = Ok p /\
         last (queue_snd w') = Some (Msg SUGGESTION p))).
  - intros retries w w1 Hlt Ha w' [= <-] Hwf Hl.
    destruct (attempt_ok w w1 Ha) as (text & p & b & Hc & Hv & ->).
    exists text, p, (llm_client w).
    cbn [put with_mem mem llm_client queue_snd].
    rewrite turns_of_append_turn_same by done.
    rewrite removelast_last, !last_snoc. done.
  - by intros retries w w1 e Hlt Hge Ha w' [=].
  - intros retries w w1 e res Hlt Ha IH w' Hres Hwf Hl.
    destruct (attempt_cases rt create model_name dialogs w) as (_ & Hc).
    rewrite Ha in Hc. cbn [fst snd] in Hc.
    destruct Hc as [(? & ? & ? & _)|(e0 & _ & _ & Hmem)]; [done|].
    assert (Hts : exists ts1, mem w1 = append_turns dialogs ts1 (mem w)).
    { destruct Hmem as [->|[t ->]]; [by exists []|by exists [Turn "assistant" t]]. }
    destruct Hts as (ts1 & Hmem1).
    destruct (append_turns_facts dialogs ts1 (mem w) Hwf Hl) as (W1 & L1 & _).
    rewrite <- Hmem1 in W1, L1.
    apply (IH w' Hres); cbn [send_feedback with_mem mem].
    + by apply wf_store_append_turn.
    + rewrite length_lists_append_turn. lia.
Qed.

(** X3. When [process_llm_response] returns [True], the envelope it has
    just put is a [SUGGESTION] whose payload is the value one of the two
    parsers gave, unchanged, for the response text of the last call: the
    text the backend answered when it was sent the turns of [dialogs] but
    the last, which is the content of the assistant turn that now ends
    [dialogs].  That payload is a dict with a [suggestions] entry every
    element of which contains [expression] and [reason]. *)
Theorem suggestion_is_an_accepted_payload (max_retries : Z) (w w' : world B) :
  wf_store (mem w) ->
  (dialogs < length (lists (mem w)))%nat ->
  process_llm_response rt create model_name dialogs max_retries w
  = (Ok (PyBool true), w') ->
  exists text p b0,
    create b0 model_name (removelast (turns_of (mem w') dialogs))
    = (Ok text, llm_client w') /\
    last (turns_of (mem w') dialogs) = Some (Turn "assistant" text) /\
    last (queue_snd w') = Some (Msg SUGGESTION p) /\
    (json_loads rt text = Ok p \/ literal_eval rt text = Ok p) /\
    accepted rt p.
Proof.
  intros Hwf Hl Hrun. unfold process_llm_response in Hrun.
  destruct (decide (0 < max_retries)) as [Hpos|Hnpos].
  - destruct (retry_loop_answered max_retries 0 w Hpos w' Hrun Hwf Hl)
      as (text & p & b0 & Hc & Hlast & Hv & Hq).
    destruct (validate_response_accepted rt text p Hv) as [Hacc Hparsed].
    by exists text, p, b0.
  - rewrite retry_loop_not_entered in Hrun by lia. done.
Qed.

(** X4. When [process_llm_response] returns [True], the last turn of
    [dialogs] is the assistant turn holding the response text whose
    validated payload was sent. *)
Theorem success_ends_with_the_accepted_response (max_retries : Z) (w w' : world B) :
  wf_store (mem w) ->
  (dialogs < length (lists (mem w)))%nat ->
  process_llm_response rt create model_name dialogs max_retries w
  = (Ok (PyBool true), w') ->
  exists text p,
    last (turns_of (mem w') dialogs) = Some (Turn "assistant" text) /\
    validate_response rt text = Ok p /\
    last (queue_snd w') = Some (Msg SUGGESTION p).
Proof.
  intros Hwf Hl Hrun. unfold process_llm_response in Hrun.
  destruct (decide (0 < max_retries)) as [Hpos|Hnpos].
  - destruct (retry_loop_suggestion max_retries 0 w Hpos w' Hrun)
      as (text & p & Hv & Hq & Hlast).
    exists text, p. split; [by apply Hlast|done].
  - rewrite retry_loop_not_entered in Hrun by lia. done.
Qed.

End Sent_suggestion.

(** ** The listing of individuals *)

Section Listing.
Context (rt : Runtime).

Lemma format_individuals_from_blocks (inds : list pyvalue) :
  forall i blocks,
  format_individuals_from rt i inds = Ok blocks ->
  length blocks = length inds /\
  forall k ind, inds !! k = Some ind ->
    exists expression fitness fitness_4f,
      py_getitem rt ind "expression" = Ok expression /\
      py_getitem rt ind "fitness" = Ok fitness /\
      format_4f rt fitness = Ok fitness_4f /\
      blocks !! k = Some (individual_block rt (i + k) expression fitness_4f).
Proof.
  induction inds as [|ind0 inds IH]; intros i blocks.
  - intros [= <-]. split; [done|]. intros k ind Hk. by destruct k.
  - cbn [format_individuals_from]. unfold format_individual.
    destruct (py_getitem rt ind0 "expression") as [expression|] eqn:He; cbn; [|done].
    destruct (py_getitem rt ind0 "fitness") as [fitness|] eqn:Hf; cbn; [|done].
    destruct (format_4f rt fitness) as [fitness_4f|] eqn:H4; cbn; [|done].
    destruct (format_individuals_from rt (S i) inds) as [rest|] eqn:Hrest; cbn; [|done].
    intros [= <-]. destruct (IH (S i) rest Hrest) as [Hlen Hblocks].
    split; [cbn; by rewrite Hlen|].
    intros [|k] ind Hk.
    + injection Hk as <-. exists expression, fitness, fitness_4f.
      rewrite Nat.add_0_r. done.
    + destruct (Hblocks k ind Hk) as (e & f & f4 & ? & ? & ? & Hb).
      exists e, f, f4. split; [done|]. split; [done|]. split; [done|].
      replace (i + S k)%nat with (S i + k)%nat by lia. exact Hb.
Qed.

(** X7. When [format_top_individuals] returns, its text is the blocks of
    the individuals joined by newlines, one block per individual and in
    their order; the block of the [k]-th individual (from 0) is numbered
    [k + 1] and shows [str] of its [expression] and its [fitness] formatted
    with [.4f]. *)
Theorem format_top_individuals_lists_each_in_order
    (individuals : pyvalue) (inds : list pyvalue) (text : string) :
  py_iter rt individuals = Ok inds ->
  format_top_individuals rt individuals = Ok text ->
  exists blocks,
    text = String.concat nl blocks /\
    length blocks = length inds /\
    forall k ind, inds !! k = Some ind ->
      exists expression fitness fitness_4f,
        py_getitem rt ind "expression" = Ok expression /\
        py_getitem rt ind "fitness" = Ok fitness /\
        format_4f rt fitness = Ok fitness_4f /\
        blocks !! k = Some (individual_block rt k expression fitness_4f).
Proof.
  intros Hiter. unfold format_top_individuals. rewrite Hiter. cbn [mbind outcome_bind].
  destruct (format_individuals_from rt 0 inds) as [blocks|] eqn:Hb; cbn; [|done].
  intros [= <-]. exists blocks. split; [done|].
  by apply (format_individuals_from_blocks inds 0%nat).
Qed.

Lemma format_individuals_from_first_failure (good rest : list pyvalue) (bad : pyvalue)
    (e : exn) :
  forall i,
  forallb (well_formed_individual rt) good = true ->
  format_individual rt (i + length good) bad = Raise e ->
  format_individuals_from rt i (good ++ bad :: rest) = Raise e.
Proof.
  induction good as [|g good IH]; intros i Hgood Hbad.
  - cbn in *. rewrite Nat.add_0_r in Hbad. by rewrite Hbad.
  - cbn [forallb] in Hgood. apply andb_prop in Hgood as [Hg Hgood].
    cbn [app format_individuals_from].
    assert (Hok : is_ok (format_individual rt i g) = true).
    { destruct g; try done. cbn [well_formed_individual] in Hg.
      unfold format_individual. cbn [py_getitem].
      destruct (dict_lookup "expression" kv); [|done].
      destruct (dict_lookup "fitness" kv) as [f|]; [|done]. cbn.
      by destruct (format_4f rt f). }
    destruct (format_individual rt i g); [|done]. cbn [mbind outcome_bind].
    rewrite (IH (S i)); [done|done|].
    cbn [length] in Hbad. by replace (S i + length good)%nat with (i + S (length good))%nat by lia.
Qed.

End Listing.

(** ** Events that stop the worker, and events that do nothing *)

Section Stops.
Context (rt : Runtime).
Context {B : Type}.
Context (create : B -> string -> list turn -> outcome string * B).
Context (model_name : string).

Lemma unbuildable_update_crashes (msg : Message) (e : exn) (st : locals) (w : world B)
    (later : list event) :
  msg_type msg = EVOLUTION_UPDATE ->
  round_prompt rt (payload msg) = Raise e ->
  run rt create model_name st w (Received msg :: later) = Crashed e w.
Proof.
  intros Hty He. rewrite run_cons. cbn [step]. rewrite Hty.
  unfold handle_EVOLUTION_UPDATE. by rewrite He.
Qed.

(** X8. An [EVOLUTION_UPDATE] with an individual that has no [fitness]
    (after any number of well-formed ones) ends [llama_main] with the
    [KeyError] of that lookup: no turn is appended, the backend is not
    called, nothing is sent or written, and the events that follow are
    never handled. *)
Theorem individual_without_fitness_stops_the_worker
    (kv d : list (pyvalue * pyvalue)) (good rest : list pyvalue) (expression : pyvalue)
    (st : locals) (w : world B) (later : list event) :
  dict_lookup "top_individuals" kv = Some (PyList (good ++ PyDict d :: rest)) ->
  forallb (well_formed_individual rt) good = true ->
  dict_lookup "expression" d = Some expression ->
  dict_lookup "fitness" d = None ->
  run rt create model_name st w (Received (Msg EVOLUTION_UPDATE (PyDict kv)) :: later)
  = Crashed (Exn KeyError (fault_str rt (MissingKey "fitness"))) w.
Proof.
  intros Htop Hgood Hexpr Hfit.
  apply unbuildable_update_crashes; [done|].
  unfold round_prompt. cbn [payload py_get mbind outcome_bind].
  rewrite Htop. cbn [from_option id].
  unfold format_top_individuals. cbn [py_iter mbind outcome_bind].
  rewrite (format_individuals_from_first_failure rt good rest (PyDict d)
             (Exn KeyError (fault_str rt (MissingKey "fitness"))) 0%nat Hgood); [done|].
  unfold format_individual. cbn [py_getitem]. by rewrite Hexpr, Hfit.
Qed.

Lemma ignorable_step (st : locals) (w : world B) (ev : event) :
  ignorable ev = true ->
  step rt create model_name st w ev = Running st w.
Proof.
  destruct ev as [| |[ty p]]; cbn [ignorable step msg_type payload]; try done.
  destruct ty; try done.
  destruct p; try done. cbn [py_get].
  intros H. apply negb_true_iff in H. by rewrite H.
Qed.

(** X10. Timeouts, data that cannot be decoded, envelopes of a kind the
    dispatcher has no branch for ([SUGGESTION], [ERROR]) and commands
    other than ["exit"] change nothing, in any number and order: the
    worker is back at the head of its loop with the same lists, the same
    queue, the same file and the same backend state. *)
Theorem ignorable_events_change_nothing (evs : list event) (st : locals) (w : world B) :
  forallb ignorable evs = true ->
  run rt create model_name st w evs = Running st w.
Proof.
  induction evs as [|ev evs IH]; [done|].
  cbn [forallb]. intros [Hev Hevs]%andb_prop.
  rewrite run_cons, ignorable_step by done. by apply IH.
Qed.

End Stops.

(** ** What a run sends, asks and writes *)

Lemma string_app_cons (x : ascii) (a b : string) :
  String x a +:+ b = String x (a +:+ b).
Proof. reflexivity. Qed.

Lemma string_app_assoc (a b c : string) : (a +:+ b) +:+ c = a +:+ (b +:+ c).
Proof.
  induction a as [|x a IH]; [reflexivity|].
  by rewrite !string_app_cons, IH.
Qed.

Lemma string_app_nil_r (a : string) : a +:+ EmptyString = a.
Proof.
  induction a as [|x a IH]; [reflexivity|].
  by rewrite string_app_cons, IH.
Qed.

Section Io.
Context (rt : Runtime).
Context {B : Type}.
Context (create : B -> string -> list turn -> outcome string * B).
Context (model_name : string).

Lemma run_app (evs1 evs2 : list event) :
  forall (st : locals) (w : world B),
  run rt create model_name st w (evs1 ++ evs2) =
  match run rt create model_name st w evs1 with
  | Running st' w' => run rt create model_name st' w' evs2
  | stopped => stopped
  end.
Proof.
  induction evs1 as [|ev evs1 IH]; intros st w; [done|].
  cbn [app]. rewrite !run_cons.
  destruct (step rt create model_name st w ev); [apply IH|done|done].
Qed.

Lemma threshold_lines_one (msg : Message) :
  threshold_lines rt [Received msg] =
  if bool_decide (msg_type msg = THRESHOLD_START)
  then match threshold_line rt (payload msg) with
       | Ok line => [line]
       | Raise _ => []
       end
  else [].
Proof.
  unfold threshold_lines. cbn.
  destruct (bool_decide (msg_type msg = THRESHOLD_START)); [|done].
  by destruct (threshold_line rt (payload msg)).
Qed.

Lemma written_nil (text : string) : text = text +:+ written [].
Proof. cbn. by rewrite string_app_nil_r. Qed.

(** What one round sends and writes. *)
Lemma step_io (st st' : locals) (w w' : world B) (ev : event) :
  step rt create model_name st w ev = Running st' w' ->
  (if is_kind EVOLUTION_UPDATE ev
   then exists env, queue_snd w' = queue_snd w ++ [env] /\
                    (msg_type env = SUGGESTION \/ msg_type env = ERROR)
   else queue_snd w' = queue_snd w /\ llm_client w' = llm_client w) /\
  out_f w' = out_f w +:+ written (threshold_lines rt [ev]).
Proof.
  destruct ev as [| |msg]; cbn [step is_kind];
    try (intros [= <- <-]; split; [done|apply written_nil]).
  rewrite threshold_lines_one.
  destruct (msg_type msg) eqn:Hty;
    rewrite ?bool_decide_eq_false_2 by done; rewrite ?bool_decide_eq_true_2 by done.
  - unfold handle_INIT.
    destruct (py_get rt (payload msg) "labels" (PyList [])); [|done].
    destruct (py_get rt (payload msg) "operators" (PyList [])); [|done].
    cbn [mbind outcome_bind].
    destruct (new_list (mem w)) as [l m1].
    intros [= <- <-]. split; [done|apply written_nil].
  - destruct (py_get rt (payload msg) "command" (PyStr EmptyString)) as [command|]; [|done].
    destruct (py_eq_str "exit" command); [done|].
    intros [= <- <-]. split; [done|apply written_nil].
  - unfold handle_EVOLUTION_UPDATE.
    destruct (round_prompt rt (payload msg)) as [prompt|]; [|done].
    destruct (process_llm_response_one_envelope rt create model_name (dialogs st)
                default_max_retries
                (with_mem (append_turn (dialogs st) (Turn "user" prompt)) w))
      as (b & env & ts & w2 & Hrun & Hq & Henv & Hout & _); [done|].
    rewrite Hrun. intros [= <- <-]. split.
    + exists env. split; [done|]. rewrite Henv. destruct b; [by left|by right].
    + rewrite Hout. apply written_nil.
  - unfold handle_THRESHOLD_START, threshold_line.
    destruct (py_get rt (payload msg) "threshold" PyNone); [|done].
    destruct (py_get rt (payload msg) "train_size" PyNone); [|done].
    destruct (py_get rt (payload msg) "test_size" PyNone); [|done].
    cbn [mbind outcome_bind]. cbn zeta.
    destruct (deepcopy (init_dialogs st) (mem w)) as [y m'].
    intros [= <- <-]. cbn [write queue_snd llm_client out_f written foldr].
    by rewrite string_app_nil_r.
  - intros [= <- <-]. split; [done|apply written_nil].
  - intros [= <- <-]. split; [done|apply written_nil].
Qed.

Lemma count_kind_cons (ty : MessageType) (ev : event) (evs : list event) :
  count_kind ty (ev :: evs)
  = ((if is_kind ty ev then 1 else 0) + count_kind ty evs)%nat.
Proof.
  unfold count_kind. rewrite filter_cons.
  destruct (is_kind ty ev); by case_decide.
Qed.

Lemma threshold_lines_cons (ev : event) (evs : list event) :
  threshold_lines rt (ev :: evs) = threshold_lines rt [ev] ++ threshold_lines rt evs.
Proof.
  unfold threshold_lines. change (ev :: evs) with ([ev] ++ evs). by rewrite omap_app.
Qed.

Lemma written_app (l1 l2 : list string) :
  written (l1 ++ l2) = written l1 +:+ written l2.
Proof.
  induction l1 as [|x l1 IH]; [done|].
  change (written ((x :: l1) ++ l2)) with (x +:+ written (l1 ++ l2)).
  change (written (x :: l1)) with (x +:+ written l1).
  by rewrite IH, string_app_assoc.
Qed.

(** X11. Over any run that leaves the worker at the head of its loop the
    envelopes put on [queue_snd] are, in number, the [EVOLUTION_UPDATE]
    events received, each of them a [SUGGESTION] or an [ERROR]; no other
    event makes the worker send anything. *)
Theorem one_envelope_per_update (evs : list event) :
  forall (st st' : locals) (w w' : world B),
  run rt create model_name st w evs = Running st' w' ->
  length (emitted w w') = count_kind EVOLUTION_UPDATE evs /\
  Forall (fun env => msg_type env = SUGGESTION \/ msg_type env = ERROR) (emitted w w') /\
  queue_snd w' = queue_snd w ++ emitted w w'.
Proof.
  induction evs as [|ev evs IH]; intros st st' w w' Hrun.
  - cbn in Hrun. injection Hrun as <- <-.
    rewrite (emitted_app w w []) by by rewrite app_nil_r.
    by rewrite app_nil_r.
  - rewrite run_cons in Hrun.
    destruct (step rt create model_name st w ev) as [st1 w1| |] eqn:Hstep; try done.
    destruct (step_io st st1 w w1 ev Hstep) as [Hq _].
    destruct (IH st1 st' w1 w' Hrun) as (Hlen & Hall & Hq').
    rewrite count_kind_cons.
    destruct (is_kind EVOLUTION_UPDATE ev).
    + destruct Hq as (env & Hq & Henv).
      rewrite (emitted_app w w' (env :: emitted w1 w'))
        by (rewrite Hq', Hq, <- app_assoc; done).
      split; [cbn; by rewrite Hlen|]. split; [by constructor|].
      rewrite Hq', Hq, <- app_assoc. done.
    + destruct Hq as [Hq _].
      rewrite (emitted_app w w' (emitted w1 w')) by by rewrite Hq', Hq.
      split; [done|]. split; [done|]. by rewrite Hq', Hq.
Qed.

(** X13. While the worker runs, the only thing written to the file is
    the line of each [THRESHOLD_START], in the order received; so when the
    session ends with [COMMAND exit], the file holds what it held, those
    lines, the end marker, and then the blocks of the turns that [dialogs]
    holds at that moment. *)
Theorem file_holds_threshold_lines_then_transcript
    (evs : list event) (kv : list (pyvalue * pyvalue))
    (st st' : locals) (w w' : world B) :
  run rt create model_name st w evs = Running st' w' ->
  dict_lookup "command" kv = Some (PyStr "exit") ->
  out_f w' = out_f w +:+ written (threshold_lines rt evs) /\
  exists w'',
    run rt create model_name st w (evs ++ [Received (Msg COMMAND (PyDict kv))])
    = Exited w'' /\
    out_f w'' = out_f w +:+ written (threshold_lines rt evs) +:+ ENDED +:+
                transcript (turns_of (mem w') (dialogs st')).
Proof.
  intros Hrun Hexit.
  assert (Hout : out_f w' = out_f w +:+ written (threshold_lines rt evs)).
  { revert st w Hrun. induction evs as [|ev evs IH]; intros st w Hrun.
    - cbn in Hrun. injection Hrun as <- <-. cbn. by rewrite string_app_nil_r.
    - rewrite run_cons in Hrun.
      destruct (step rt create model_name st w ev) as [st1 w1| |] eqn:Hstep; try done.
      destruct (step_io st st1 w w1 ev Hstep) as [_ Hw].
      rewrite (IH st1 w1 Hrun), Hw, (threshold_lines_cons ev evs), written_app.
      by rewrite string_app_assoc. }
  split; [done|].
  exists (flush_transcript st' (write ENDED w')).
  rewrite run_app, Hrun, run_cons. cbn [step msg_type payload py_get].
  rewrite Hexit. cbn [from_option id py_eq_str String.eqb]. split; [done|].
  cbn [flush_transcript write out_f mem]. rewrite Hout.
  by rewrite !string_app_assoc.
Qed.

End Io.

Section Cost.
Context (rt : Runtime).
Context {B : Type}.
Context (create : B -> string -> list turn -> outcome string * B).
Context (model_name : string).

Lemma step_calls (st st' : locals) (w w' : world (B * list (list turn))) (ev : event) :
  step rt (logged create) model_name st w ev = Running st' w' ->
  exists sent,
    snd (llm_client w') = snd (llm_client w) ++ sent /\
    if is_kind EVOLUTION_UPDATE ev
    then (1 <= length sent <= 3)%nat
    else sent = [].
Proof.
  intros Hstep.
  destruct (is_kind EVOLUTION_UPDATE ev) eqn:Hk.
  - destruct ev as [| |msg]; try done. cbn [is_kind] in Hk.
    apply bool_decide_eq_true_1 in Hk.
    cbn [step] in Hstep. rewrite Hk in Hstep. unfold handle_EVOLUTION_UPDATE in Hstep.
    destruct (round_prompt rt (payload msg)) as [prompt|]; [|done].
    unfold process_llm_response in Hstep.
    destruct (retry_loop_budget rt create model_name (dialogs st) default_max_retries 0
                (with_mem (append_turn (dialogs st) (Turn "user" prompt)) w))
      as (b & env & ts & sent & w2 & Hrun & Hlog & Hn & _); [done|].
    rewrite Hrun in Hstep. injection Hstep as <- <-.
    exists sent. split; [done|].
    change (Z.to_nat (default_max_retries - 0)) with 3%nat in Hn. lia.
  - destruct (step_io rt (logged create) model_name st st' w w' ev Hstep) as [Hq _].
    rewrite Hk in Hq. destruct Hq as [_ ->].
    exists []. by rewrite app_nil_r.
Qed.

(** X12. Over any run that leaves the worker at the head of its loop,
    the backend is called at least once and at most three times for each
    [EVOLUTION_UPDATE] received, and for nothing else. *)
Theorem backend_calls_per_update (evs : list event) :
  forall (st st' : locals) (w w' : world (B * list (list turn))),
  run rt (logged create) model_name st w evs = Running st' w' ->
  (count_kind EVOLUTION_UPDATE evs <= length (calls w w')
   <= 3 * count_kind EVOLUTION_UPDATE evs)%nat /\
  snd (llm_client w') = snd (llm_client w) ++ calls w w'.
Proof.
  induction evs as [|ev evs IH]; intros st st' w w' Hrun.
  - cbn in Hrun. injection Hrun as <- <-.
    rewrite (calls_app w w []) by by rewrite app_nil_r.
    rewrite app_nil_r. cbn. split; [lia|done].
  - rewrite run_cons in Hrun.
    destruct (step rt (logged create) model_name st w ev) as [st1 w1| |] eqn:Hstep;
      try done.
    destruct (step_calls st st1 w w1 ev Hstep) as (sent & Hlog & Hsent).
    destruct (IH st1 st' w1 w' Hrun) as (Hbound & Hlog').
    rewrite (calls_app w w' (sent ++ calls w1 w'))
      by (rewrite Hlog', Hlog, <- app_assoc; done).
    split; [|by rewrite Hlog', Hlog, <- app_assoc].
    rewrite count_kind_cons, length_app.
    destruct (is_kind EVOLUTION_UPDATE ev); [lia|]. subst sent. cbn. lia.
Qed.

End Cost.

(** ** The transcript of an epoch *)

Section Epoch.
Context (rt : Runtime).
Context {B : Type}.
Context (create : B -> string -> list turn -> outcome string * B).
Context (model_name : string).

Lemma transcript_app (ts1 ts2 : list turn) :
  transcript (ts1 ++ ts2) = transcript ts1 +:+ transcript ts2.
Proof.
  induction ts1 as [|t ts1 IH]; [done|].
  change (transcript ((t :: ts1) ++ ts2))
    with (transcript_block t +:+ transcript (ts1 ++ ts2)).
  change (transcript (t :: ts1)) with (transcript_block t +:+ transcript ts1).
  by rewrite IH, string_app_assoc.
Qed.

Lemma retry_loop_turns (dialogs : lref) (max_retries : Z) :
  forall retries (w : world B),
  retries < max_retries ->
  exists ts,
    mem (snd (retry_loop rt create model_name dialogs max_retries retries w))
    = append_turns dialogs ts (mem w) /\
    Forall retry_turn ts /\
    (length ts + 1 <= 2 * Z.to_nat (max_retries - retries))%nat.
Proof.
  apply (retry_loop_rule rt create model_name dialogs max_retries
    (fun retries w res =>
       exists ts,
         mem (snd res) = append_turns dialogs ts (mem w) /\
         Forall retry_turn ts /\
         (length ts + 1 <= 2 * Z.to_nat (max_retries - retries))%nat)).
  - intros retries w w1 Hlt Ha.
    destruct (attempt_cases rt create model_name dialogs w) as (_ & Hc).
    rewrite Ha in Hc. cbn [fst snd] in Hc.
    destruct Hc as [(text & p & _ & Hmem & _)|(e & He & _)]; [|done].
    exists [Turn "assistant" text]. cbn [snd].
    split; [done|]. split; [constructor; [by left|done]|]. cbn [length]. lia.
  - intros retries w w1 e Hlt Hge Ha.
    destruct (attempt_cases rt create model_name dialogs w) as (_ & Hc).
    rewrite Ha in Hc. cbn [fst snd] in Hc.
    destruct Hc as [(text & p & He & _)|(e0 & _ & _ & Hmem)]; [done|].
    cbn [snd send_error put mem].
    destruct Hmem as [->|[text ->]].
    + exists []. split; [done|]. split; [done|]. cbn [length]. lia.
    + exists [Turn "assistant" text].
      split; [done|]. split; [constructor; [by left|done]|]. cbn [length]. lia.
  - intros retries w w1 e res Hlt Ha (ts & Hmem' & Hts & Hlen).
    destruct (attempt_cases rt create model_name dialogs w) as (_ & Hc).
    rewrite Ha in Hc. cbn [fst snd] in Hc.
    destruct Hc as [(text & p & He & _)|(e0 & _ & _ & Hmem)]; [done|].
    cbn [send_feedback with_mem mem] in Hmem'.
    assert (Hts1 : exists ts1, mem w1 = append_turns dialogs ts1 (mem w) /\
                               Forall retry_turn ts1 /\ (length ts1 <= 1)%nat).
    { destruct Hmem as [->|[text ->]]; [exists []|exists [Turn "assistant" text]].
      - split; [done|]. split; [done|]. cbn. lia.
      - split; [done|]. split; [constructor; [by left|done]|]. cbn. lia. }
    destruct Hts1 as (ts1 & Hmem1 & Hts1 & Hlen1).
    exists (ts1 ++ Turn "user" (error_prompt_of (error_msg_of e)) :: ts).
    split; [rewrite Hmem', Hmem1; by rewrite append_turns_app|].
    split.
    { apply Forall_app_2; [done|]. constructor; [right; by eexists|done]. }
    rewrite length_app. cbn [length]. lia.
Qed.

Lemma step_appended (st st' : locals) (w w' : world B) (ev : event) :
  wf_state st w ->
  is_kind THRESHOLD_START ev = false ->
  step rt create model_name st w ev = Running st' w' ->
  dialogs st' = dialogs st /\
  exists ts,
    appended_by rt [ev] ts /\
    turns_of (mem w') (dialogs st) = turns_of (mem w) (dialogs st) ++ ts.
Proof.
  intros Hwf Hk Hstep.
  assert (Hidle : is_kind EVOLUTION_UPDATE ev = false ->
            Running st w = Running st' w' (B := B) ->
            dialogs st' = dialogs st /\
            exists ts,
              appended_by rt [ev] ts /\
              turns_of (mem w') (dialogs st) = turns_of (mem w) (dialogs st) ++ ts).
  { intros Hev [= <- <-]. split; [done|]. exists [].
    split; [apply appended_other; [done|constructor]|by rewrite app_nil_r]. }
  destruct ev as [| |msg]; cbn [step] in Hstep; [by apply Hidle|by apply Hidle|].
  cbn [is_kind] in Hk, Hidle.
  destruct (msg_type msg) eqn:Hty.
  - (* INIT *)
    destruct (step_cases rt create model_name st st' w w' (Received msg) Hwf)
      as (_ & _ & _ & Hcase).
    { cbn [step]. by rewrite Hty. }
    cbn [is_kind] in Hcase. rewrite Hty in Hcase.
    destruct Hcase as [(Hi & _)|[(_ & D & _ & T)|(Ht & _)]]; [done| |done].
    split; [done|]. exists [].
    split; [apply appended_other; [cbn [is_kind]; by rewrite Hty|constructor]|].
    by rewrite app_nil_r.
  - (* COMMAND *)
    destruct (py_get rt (payload msg) "command" (PyStr EmptyString)) as [command|]; [|done].
    destruct (py_eq_str "exit" command); [done|]. by apply Hidle.
  - (* EVOLUTION_UPDATE *)
    unfold handle_EVOLUTION_UPDATE in Hstep.
    destruct (round_prompt rt (payload msg)) as [prompt|e] eqn:Hprompt; [|done].
    destruct (retry_loop_turns (dialogs st) default_max_retries 0
                (with_mem (append_turn (dialogs st) (Turn "user" prompt)) w))
      as (answers & Hmem & Hanswers & Hlen); [done|].
    unfold process_llm_response in Hstep.
    destruct (retry_loop rt create model_name (dialogs st) default_max_retries 0
                (with_mem (append_turn (dialogs st) (Turn "user" prompt)) w))
      as [returned w2].
    cbn [snd with_mem mem] in Hmem.
    destruct returned; [|done]. injection Hstep as <- <-.
    destruct Hwf as (Hwfm & Hi & Hd & Hne).
    destruct (append_turns_facts (dialogs st) (Turn "user" prompt :: answers) (mem w)
                Hwfm Hd) as (_ & _ & Hturns & _).
    change (append_turns (dialogs st) (Turn "user" prompt :: answers) (mem w))
      with (append_turns (dialogs st) answers
              (append_turn (dialogs st) (Turn "user" prompt) (mem w))) in Hturns.
    rewrite <- Hmem in Hturns.
    split; [done|]. exists (Turn "user" prompt :: answers ++ []).
    split; [|by rewrite app_nil_r].
    apply appended_update; [done|done|done| |constructor].
    change (Z.to_nat (default_max_retries - 0)) with 3%nat in Hlen. lia.
  - done.
  - by apply Hidle.
  - by apply Hidle.
Qed.

Lemma appended_by_cons (ev : event) (evs : list event) (ts1 ts : list turn) :
  appended_by rt [ev] ts1 -> appended_by rt evs ts ->
  appended_by rt (ev :: evs) (ts1 ++ ts).
Proof.
  intros H1 H.
  inversion H1 as [|ev0 evs0 ts0 Hk H0|msg evs0 prompt answers ts0 Hty Hp Ha Hn H0]; subst.
  - inversion H0; subst. by apply appended_other.
  - inversion H0; subst. rewrite app_nil_r. cbn [app]. by apply appended_update.
Qed.

Lemma appended_by_conversational (evs : list event) (ts : list turn) :
  appended_by rt evs ts -> Forall conversational ts.
Proof.
  induction 1 as [|ev evs ts Hk H IH|msg evs prompt answers ts Hty Hp Ha Hn H IH];
    [done|done|].
  constructor; [by right|]. apply Forall_app_2; [|done].
  eapply Forall_impl; [exact Ha|]. intros t [Ht|[error_msg ->]]; [by left|by right].
Qed.

Lemma run_appended (evs : list event) :
  forall (st st' : locals) (w w' : world B),
  wf_state st w ->
  forallb (fun ev => negb (is_kind THRESHOLD_START ev)) evs = true ->
  run rt create model_name st w evs = Running st' w' ->
  dialogs st' = dialogs st /\
  exists ts,
    appended_by rt evs ts /\
    turns_of (mem w') (dialogs st') = turns_of (mem w) (dialogs st) ++ ts.
Proof.
  induction evs as [|ev evs IH]; intros st st' w w' Hwf Hevs Hrun.
  - cbn in Hrun. injection Hrun as <- <-. split; [done|].
    exists []. split; [constructor|by rewrite app_nil_r].
  - rewrite run_cons in Hrun. cbn [forallb] in Hevs.
    apply andb_prop in Hevs as [Hev Hevs]. apply negb_true_iff in Hev.
    destruct (step rt create model_name st w ev) as [st1 w1| |] eqn:Hstep; try done.
    destruct (step_cases rt create model_name st st1 w w1 ev Hwf Hstep) as (Hwf1 & _).
    destruct (step_appended st st1 w w1 ev Hwf Hev Hstep) as (D1 & ts1 & A1 & T1).
    destruct (IH st1 st' w1 w' Hwf1 Hevs Hrun) as (D & ts & A & T).
    split; [by rewrite D|]. exists (ts1 ++ ts).
    split; [by apply appended_by_cons|].
    by rewrite T, D1, T1, <- app_assoc.
Qed.

(** X14. The transcript written at exit holds the turns of the current
    epoch only.  A [THRESHOLD_START] leaves [dialogs] with the turns
    [init_dialogs] has at that moment and nothing else; the events that
    follow, none of them a [THRESHOLD_START], append what [appended_by]
    says of them: nothing but, for each [EVOLUTION_UPDATE] in order, the
    user turn with its round prompt and the at most five turns of its
    retry loop (responses and error feedback).  The
    transcript written at exit is the blocks of the former followed by the
    blocks of the latter, so that whatever [dialogs] held before the
    [THRESHOLD_START] is not written. *)
Theorem transcript_holds_the_last_epoch
    (msg : Message) (evs : list event) (kv : list (pyvalue * pyvalue))
    (st st1 st2 : locals) (w w1 w2 : world B) :
  wf_state st w ->
  handle_THRESHOLD_START rt msg st w = Ok (st1, w1) ->
  forallb (fun ev => negb (is_kind THRESHOLD_START ev)) evs = true ->
  run rt create model_name st1 w1 evs = Running st2 w2 ->
  dict_lookup "command" kv = Some (PyStr "exit") ->
  exists since w3,
    turns_of (mem w1) (dialogs st1) = turns_of (mem w) (init_dialogs st) /\
    appended_by rt evs since /\
    Forall conversational since /\
    turns_of (mem w2) (dialogs st2) = turns_of (mem w) (init_dialogs st) ++ since /\
    run rt create model_name st2 w2 [Received (Msg COMMAND (PyDict kv))] = Exited w3 /\
    out_f w3 = (out_f w2 +:+ ENDED) +:+
               (transcript (turns_of (mem w) (init_dialogs st)) +:+ transcript since).
Proof.
  intros Hwf Hh Hevs Hrun Hexit.
  destruct (handle_THRESHOLD_START_spec rt msg st st1 w w1 Hwf Hh)
    as (Hwf1 & _ & _ & _ & _ & _ & Hcopy & _).
  destruct (run_appended evs st1 st2 w1 w2 Hwf1 Hevs Hrun)
    as (_ & since & Hsince & Hturns).
  rewrite Hcopy in Hturns.
  exists since, (flush_transcript st2 (write ENDED w2)).
  split; [done|]. split; [done|].
  split; [by apply (appended_by_conversational evs)|]. split; [done|]. split.
  - rewrite run_cons. cbn [step msg_type payload py_get]. by rewrite Hexit.
  - cbn [flush_transcript write out_f mem]. by rewrite Hturns, transcript_app.
Qed.

End Epoch.

(** ** No dict is shared *)

Lemma concat_alter_snoc (d : dref) (ls : list (list dref)) :
  forall l, (l < length ls)%nat ->
  concat (alter (fun items => items ++ [d]) l ls) ≡ₚ d :: concat ls.
Proof.
  induction ls as [|x ls IH]; intros l Hl; [cbn in Hl; lia|].
  destruct l as [|l]; cbn [alter list_alter concat].
  - rewrite <- app_assoc. symmetry. apply Permutation_middle.
  - rewrite IH by (cbn in Hl; lia). symmetry. apply Permutation_middle.
Qed.

Lemma wf_store_concat (m : store) :
  wf_store m -> Forall (fun d => (d < length (dicts m))%nat) (concat (lists m)).
Proof. intros Hwf. by apply List.Forall_concat. Qed.

Lemma unshared_append_turn (l : lref) (t : turn) (m : store) :
  wf_store m -> (l < length (lists m))%nat ->
  unshared m -> unshared (append_turn l t m).
Proof.
  intros Hwf Hl Hun. unfold unshared.
  rewrite lists_append_turn, concat_alter_snoc by done.
  apply NoDup_cons. split; [|done].
  intros Hin. pose proof (wf_store_concat m Hwf) as Hlt.
  rewrite Forall_forall in Hlt. specialize (Hlt _ Hin). cbn in Hlt. lia.
Qed.

Lemma unshared_append_turns (l : lref) (ts : list turn) :
  forall m, wf_store m -> (l < length (lists m))%nat ->
  unshared m -> unshared (append_turns l ts m).
Proof.
  induction ts as [|t ts IH]; intros m Hwf Hl Hun; [done|].
  change (append_turns l (t :: ts) m) with (append_turns l ts (append_turn l t m)).
  apply IH.
  - by apply wf_store_append_turn.
  - by rewrite length_lists_append_turn.
  - by apply unshared_append_turn.
Qed.

Lemma unshared_new_list (m : store) : unshared m -> unshared (snd (new_list m)).
Proof.
  unfold unshared, new_list. cbn [snd lists].
  rewrite concat_app. cbn. by rewrite app_nil_r.
Qed.

(** What [unshared] means for the lists of the store. *)
Lemma unshared_lists (ls : list (list dref)) :
  NoDup (concat ls) ->
  (forall i a, ls !! i = Some a -> NoDup a) /\
  (forall i j a b d, ls !! i = Some a -> ls !! j = Some b ->
                     d ∈ a -> d ∈ b -> i = j).
Proof.
  induction ls as [|x ls IH]; [by split; intros []|].
  cbn [concat]. intros (Hx & Hdisj & Hrest)%NoDup_app.
  destruct (IH Hrest) as [IH1 IH2].
  assert (Hin : forall j b d, ls !! j = Some b -> d ∈ b -> d ∈ concat ls).
  { intros j b d Hj Hd. apply list_elem_of_In, in_concat.
    exists b. split; apply list_elem_of_In; [|done].
    by eapply list_elem_of_lookup_2. }
  split.
  - intros [|i] a Hi; [by injection Hi as <-|by eapply IH1].
  - intros [|i] [|j] a b d Hi Hj Ha Hb; [done| | |].
    + injection Hi as <-. destruct (Hdisj d Ha). by eapply Hin.
    + injection Hj as <-. destruct (Hdisj d Hb). by eapply Hin.
    + f_equal. by eapply IH2.
Qed.

Lemma deepcopy_items_distinct (y : lref) (items : list dref) :
  forall (memo : list (dref * dref)) (m : store),
  NoDup items ->
  (forall p, In p memo -> fst p ∉ items) ->
  Forall (fun a => (a < length (dicts m))%nat) items ->
  deepcopy_items memo items y m
  = append_turns y (omap (fun a => dicts m !! a) items) m.
Proof.
  induction items as [|a rest IH]; intros memo m Hnd Hmemo Hlt; [done|].
  apply NoDup_cons in Hnd as [Ha Hnd].
  apply Forall_cons in Hlt as [Hlt Hrest].
  destruct (lookup_lt_is_Some_2 (dicts m) a Hlt) as [t Ht].
  cbn [deepcopy_items].
  destruct (List.find _ memo) as [p|] eqn:Hfind.
  { apply find_some in Hfind as [Hin Heq]. apply Nat.eqb_eq in Heq.
    destruct (Hmemo p Hin). rewrite Heq. by left. }
  rewrite Ht. unfold new_dict; cbn beta iota zeta.
  change (list_append y (length (dicts m)) (Store (lists m) (dicts m ++ [t])))
    with (append_turn y t m).
  rewrite (omap_cons_Some _ a t) by done.
  change (append_turns y (t :: omap (fun a0 => dicts m !! a0) rest) m)
    with (append_turns y (omap (fun a0 => dicts m !! a0) rest) (append_turn y t m)).
  rewrite IH.
  - rewrite dicts_append_turn. by rewrite omap_lookup_app.
  - done.
  - intros p [<-|Hin]; [done|].
    intros Hp. destruct (Hmemo p Hin). by right.
  - rewrite dicts_append_turn, length_app. cbn.
    eapply Forall_lt_mono; [|exact Hrest]. lia.
Qed.

(** On a list that holds no dict twice, [copy.deepcopy] is a new list to
    which the turns are appended one by one. *)
Lemma deepcopy_distinct (x : lref) (m : store) :
  wf_store m -> NoDup (items_of m x) ->
  deepcopy x m
  = (length (lists m),
     append_turns (length (lists m)) (turns_of m x) (snd (new_list m))).
Proof.
  intros Hwf Hnd. unfold deepcopy, turns_of, new_list. cbn [snd].
  f_equal.
  apply (deepcopy_items_distinct (length (lists m)) (items_of m x) []
           (Store (lists m ++ [[]]) (dicts m))); [done|by intros p []|].
  exact (wf_store_items m x Hwf).
Qed.

Section Unshared.
Context (rt : Runtime).
Context {B : Type}.
Context (create : B -> string -> list turn -> outcome string * B).
Context (model_name : string).

Lemma items_of_unshared (m : store) (l : lref) : unshared m -> NoDup (items_of m l).
Proof.
  intros Hun. unfold items_of.
  destruct (lists m !! l) as [a|] eqn:Hl; cbn; [|constructor].
  destruct (unshared_lists (lists m) Hun) as [H1 _]. by eapply H1.
Qed.

Lemma step_unshared (st st' : locals) (w w' : world B) (ev : event) :
  wf_state st w -> unshared (mem w) ->
  step rt create model_name st w ev = Running st' w' ->
  unshared (mem w').
Proof.
  intros Hwf Hun Hstep. pose proof Hwf as (Hwfm & Hi & Hd & _).
  destruct ev as [| |msg]; cbn [step] in Hstep; try by injection Hstep as <- <-.
  destruct (msg_type msg) eqn:Hty; try by injection Hstep as <- <-.
  - unfold handle_INIT in Hstep.
    destruct (py_get rt (payload msg) "labels" (PyList [])); [|done].
    destruct (py_get rt (payload msg) "operators" (PyList [])); [|done].
    cbn [mbind outcome_bind] in Hstep.
    change (new_list (mem w)) with (length (lists (mem w)), snd (new_list (mem w))) in Hstep.
    cbn beta iota zeta in Hstep. injection Hstep as <- <-. cbn [mem].
    apply unshared_append_turn.
    + by apply wf_store_new_list.
    + cbn. rewrite length_app. cbn. lia.
    + by apply unshared_new_list.
  - destruct (py_get rt (payload msg) "command" (PyStr EmptyString)) as [command|]; [|done].
    destruct (py_eq_str "exit" command); [done|]. by injection Hstep as <- <-.
  - destruct (handle_EVOLUTION_UPDATE_spec rt create model_name msg st st' w w' Hstep)
      as (_ & _ & prompt & ts & _ & -> & _).
    by apply unshared_append_turns.
  - unfold handle_THRESHOLD_START in Hstep.
    destruct (py_get rt (payload msg) "threshold" PyNone); [|done].
    destruct (py_get rt (payload msg) "train_size" PyNone); [|done].
    destruct (py_get rt (payload msg) "test_size" PyNone); [|done].
    cbn [mbind outcome_bind] in Hstep. cbn zeta in Hstep.
    rewrite deepcopy_distinct in Hstep by (done || by apply items_of_unshared).
    injection Hstep as <- <-. cbn [write mem].
    apply unshared_append_turns.
    + by apply wf_store_new_list.
    + cbn. rewrite length_app. cbn. lia.
    + by apply unshared_new_list.
Qed.

Lemma run_unshared (evs : list event) :
  forall (st st' : locals) (w w' : world B),
  wf_state st w -> unshared (mem w) ->
  run rt create model_name st w evs = Running st' w' ->
  unshared (mem w').
Proof.
  induction evs as [|ev evs IH]; intros st st' w w' Hwf Hun Hrun.
  - cbn in Hrun. by injection Hrun as <- <-.
  - rewrite run_cons in Hrun.
    destruct (step rt create model_name st w ev) as [st1 w1| |] eqn:Hstep; try done.
    destruct (step_cases rt create model_name st st1 w w1 ev Hwf Hstep) as (Hwf1 & _).
    apply (IH st1 st' w1 w' Hwf1); [|exact Hrun].
    exact (step_unshared st st1 w w1 ev Hwf Hun Hstep).
Qed.

(** X15. In every state [llama_main] reaches, each turn dict is held by
    one list only and once only: no list holds a dict twice, and no two
    lists hold the same dict, so that no change made through one list can
    show in another. *)
Theorem no_turn_is_ever_shared
    (queue : list Message) (b : B) (evs : list event) (st : locals) (w : world B) :
  llama_main rt create model_name queue b evs = Running st w ->
  (forall l, NoDup (items_of (mem w) l)) /\
  (forall l1 l2 d,
     d ∈ items_of (mem w) l1 -> d ∈ items_of (mem w) l2 -> l1 = l2).
Proof.
  unfold llama_main. intros Hrun.
  pose proof (llama_start_wf queue b) as Hwf.
  assert (Hun : unshared (mem (snd (llama_start queue b)))) by (cbn; constructor).
  destruct (llama_start queue b) as [st0 w0]. cbn [fst snd] in *.
  pose proof (run_unshared evs st0 st w0 w Hwf Hun Hrun) as Hfinal.
  split; [intros l; by apply items_of_unshared|].
  intros l1 l2 d H1 H2. unfold items_of in H1, H2.
  destruct (lists (mem w) !! l1) as [a|] eqn:E1; [|by apply elem_of_nil in H1].
  destruct (lists (mem w) !! l2) as [c|] eqn:E2; [|by apply elem_of_nil in H2].
  destruct (unshared_lists (lists (mem w)) Hfinal) as [_ Hdisj].
  by eapply Hdisj.
Qed.

End Unshared.

(** ** Well-formed updates *)

Section WellFormed.
Context (rt : Runtime).
Context {B : Type}.
Context (create : B -> string -> list turn -> outcome string * B).
Context (model_name : string).

Lemma round_prompt_template (msg_payload : pyvalue) (prompt : string) :
  round_prompt rt msg_payload = Ok prompt ->
  exists listing,
    if first_round msg_payload
    then prompt = FIRST_ROUND_format listing +:+ JSON_SUFFIX
    else exists results,
           prompt = SUBSEQUENT_ROUND_format listing results +:+ JSON_SUFFIX.
Proof.
  unfold round_prompt. destruct msg_payload; try done.
  cbn [py_get mbind outcome_bind first_round].
  destruct (format_top_individuals rt _) as [listing|]; [|done].
  cbn [mbind outcome_bind]. intros H. exists listing. revert H.
  destruct (dict_lookup "previous_suggestions" kv) as [prev|]; cbn [from_option id];
    [|by intros [= <-]].
  destruct prev; try by intros [= <-].
  all: match goal with
       | |- context [format_previous_results rt ?v] =>
           destruct (format_previous_results rt v) as [results|]; [|done];
           cbn [mbind outcome_bind]; intros [= <-]; by exists results
       end.
Qed.

(** X9. An [EVOLUTION_UPDATE] whose payload has the shape of the
    interface table is always handled: the prompt is built, from the
    first-round template when [previous_suggestions] is absent or [None]
    and from the subsequent-round template otherwise, always followed by
    the schema suffix, and the worker is back at the head of its loop. *)
Theorem well_formed_update_is_handled (msg : Message) (st : locals) (w : world B) :
  msg_type msg = EVOLUTION_UPDATE ->
  well_formed_update rt (payload msg) = true ->
  exists prompt listing w',
    round_prompt rt (payload msg) = Ok prompt /\
    (if first_round (payload msg)
     then prompt = FIRST_ROUND_format listing +:+ JSON_SUFFIX
     else exists results,
            prompt = SUBSEQUENT_ROUND_format listing results +:+ JSON_SUFFIX) /\
    step rt create model_name st w (Received msg) = Running st w'.
Proof.
  intros Hty Hwf.
  pose proof (well_formed_update_builds rt (payload msg) Hwf) as Hok.
  destruct (round_prompt rt (payload msg)) as [prompt|] eqn:Hprompt; [|done].
  destruct (round_prompt_template (payload msg) prompt Hprompt) as [listing Htemplate].
  destruct (process_llm_response_one_envelope rt create model_name (dialogs st)
              default_max_retries
              (with_mem (append_turn (dialogs st) (Turn "user" prompt)) w))
    as (b & env & ts & w' & Hrun & _); [done|].
  exists prompt, listing, w'. split; [done|]. split; [done|].
  cbn [step]. rewrite Hty. unfold handle_EVOLUTION_UPDATE. by rewrite Hprompt, Hrun.
Qed.

End WellFormed.

(** ** What the retry loop leaves alone *)

Lemma dicts_append_turns (l : lref) (ts : list turn) :
  forall m, dicts (append_turns l ts m) = dicts m ++ ts.
Proof.
  induction ts as [|t ts IH]; intros m; [by rewrite app_nil_r|].
  change (append_turns l (t :: ts) m) with (append_turns l ts (append_turn l t m)).
  by rewrite IH, dicts_append_turn, <- app_assoc.
Qed.

Section Frame.
Context (rt : Runtime).
Context {B : Type}.
Context (create : B -> string -> list turn -> outcome string * B).
Context (model_name : string) (dialogs : lref).

(** X16. Whatever the backend answers and whatever [max_retries] is,
    [process_llm_response] only appends to [dialogs]: the turns that were
    there stay first and unchanged, no existing turn dict is modified,
    every other list keeps its turns, and nothing is written to the
    file. *)
Theorem process_llm_response_only_appends (max_retries : Z) (w : world B) :
  wf_store (mem w) ->
  (dialogs < length (lists (mem w)))%nat ->
  let w' := snd (process_llm_response rt create model_name dialogs max_retries w) in
  turns_of (mem w) dialogs `prefix_of` turns_of (mem w') dialogs /\
  (forall l, l <> dialogs -> turns_of (mem w') l = turns_of (mem w) l) /\
  (forall d t, dicts (mem w) !! d = Some t -> dicts (mem w') !! d = Some t) /\
  wf_store (mem w') /\
  out_f w' = out_f w.
Proof.
  intros Hwf Hl w'.
  assert (H : exists ts, mem w' = append_turns dialogs ts (mem w) /\ out_f w' = out_f w).
  { subst w'. destruct (decide (0 < max_retries)) as [Hpos|Hnpos].
    - destruct (process_llm_response_one_envelope rt create model_name dialogs
                  max_retries w Hpos) as (b & env & ts & w1 & -> & _ & _ & Hout & Hmem & _).
      by exists ts.
    - unfold process_llm_response. rewrite retry_loop_not_entered by lia.
      by exists []. }
  destruct H as (ts & Hmem & Hout).
  destruct (append_turns_facts dialogs ts (mem w) Hwf Hl) as (W & _ & T & O).
  rewrite Hmem. split; [rewrite T; by apply prefix_app_r|].
  split; [intros l Hne; by apply O|]. split; [|done].
  intros d t Hd. rewrite dicts_append_turns. by apply lookup_app_l_Some.
Qed.

End Frame.

(** ** The system turn *)

Section SystemTurn.
Context (rt : Runtime).
Context {B : Type}.
Context (create : B -> string -> list turn -> outcome string * B).
Context (model_name : string).

Lemma step_prefix_is_system (st st' : locals) (w w' : world B) (ev : event) :
  wf_state st w -> prefix_is_system st w ->
  step rt create model_name st w ev = Running st' w' ->
  prefix_is_system st' w'.
Proof.
  intros Hwf [Hinit Hdial] Hstep.
  destruct (step_cases rt create model_name st st' w w' ev Hwf Hstep)
    as (Hwf' & _ & Hsame & Hcase).
  pose proof Hwf as (_ & Hi & Hd & Hne).
  destruct Hcase as [(_ & _ & -> & extra & T & F)|[(Hk & D & I & T)|(_ & I & D & T & _)]].
  - split; [by rewrite (Hsame (init_dialogs st) Hi Hne)|].
    destruct Hdial as (pre & conv & Hturns & Hpre & Hconv).
    exists pre, (conv ++ extra). rewrite T, Hturns, <- app_assoc.
    split; [done|]. split; [done|]. by apply Forall_app_2.
  - destruct ev as [| |msg]; try done. cbn [is_kind] in Hk.
    apply bool_decide_eq_true_1 in Hk. cbn [step] in Hstep. rewrite Hk in Hstep.
    destruct (handle_INIT rt msg st w) as [[st1 w1]|] eqn:Hh; [|done].
    injection Hstep as -> ->.
    destruct (handle_INIT_spec rt msg st st' w w' Hwf Hh)
      as (labels & operators & _ & _ & _ & _ & _ & _ & _ & _ & _ & Hnew & _).
    split; [right; by eexists|]. by rewrite D, T.
  - split; [rewrite I; by rewrite (Hsame (init_dialogs st) Hi Hne)|].
    rewrite T. destruct Hinit as [->|[prompt ->]].
    + exists [], []. split; [done|]. split; [by left|done].
    + exists [Turn "system" prompt], []. split; [done|]. split; [right; by eexists|done].
Qed.

Lemma run_prefix_is_system (evs : list event) :
  forall (st st' : locals) (w w' : world B),
  wf_state st w -> prefix_is_system st w ->
  run rt create model_name st w evs = Running st' w' ->
  prefix_is_system st' w'.
Proof.
  induction evs as [|ev evs IH]; intros st st' w w' Hwf Hinv Hrun.
  - cbn in Hrun. by injection Hrun as <- <-.
  - rewrite run_cons in Hrun.
    destruct (step rt create model_name st w ev) as [st1 w1| |] eqn:Hstep; try done.
    destruct (step_cases rt create model_name st st1 w w1 ev Hwf Hstep) as (Hwf1 & _).
    apply (IH st1 st' w1 w' Hwf1); [|exact Hrun].
    exact (step_prefix_is_system st st1 w w1 ev Hwf Hinv Hstep).
Qed.

(** X17. In every state [llama_main] reaches, the turn history holds at
    most one system turn, and holds it first; every other turn is a user
    or an assistant turn.  The prefix [init_dialogs] is empty (before the
    first [INIT]) or holds exactly one system turn. *)
Theorem system_turn_is_first
    (queue : list Message) (b : B) (evs : list event) (st : locals) (w : world B) :
  llama_main rt create model_name queue b evs = Running st w ->
  system_first (turns_of (mem w) (dialogs st)) /\
  (turns_of (mem w) (init_dialogs st) = [] \/
   exists prompt, turns_of (mem w) (init_dialogs st) = [Turn "system" prompt]).
Proof.
  unfold llama_main. intros Hrun.
  pose proof (llama_start_wf queue b) as Hwf.
  assert (Hinv : prefix_is_system (fst (llama_start queue b)) (snd (llama_start queue b))).
  { split; [by left|]. exists [], []. split; [done|]. split; [by left|done]. }
  destruct (llama_start queue b) as [st0 w0]. cbn [fst snd] in *.
  destruct (run_prefix_is_system evs st0 st w0 w Hwf Hinv Hrun) as [Hinit Hdial].
  done.
Qed.

End SystemTurn.

(** ** The listing of the previous round *)

Section Previous.
Context (rt : Runtime).

Lemma format_previous_results_loop_blocks (suggs : list pyvalue) :
  forall blocks,
  format_previous_results_loop rt suggs = Ok blocks ->
  length blocks = length suggs /\
  forall k sugg, suggs !! k = Some sugg ->
    exists status expression reason,
      py_getitem rt sugg "status" = Ok status /\
      py_getitem rt sugg "expression" = Ok expression /\
      py_getitem rt sugg "reason" = Ok reason /\
      if py_eq_str "success" status
      then exists fitness fitness_4f,
             py_getitem rt sugg "fitness" = Ok fitness /\
             format_4f rt fitness = Ok fitness_4f /\
             blocks !! k = Some (success_block rt expression fitness_4f reason)
      else exists error,
             py_getitem rt sugg "error" = Ok error /\
             blocks !! k = Some (failure_block rt expression error reason).
Proof.
  induction suggs as [|sugg0 suggs IH]; intros blocks.
  - intros [= <-]. split; [done|]. intros k sugg Hk. by destruct k.
  - cbn [format_previous_results_loop]. unfold format_previous_result.
    destruct (py_getitem rt sugg0 "status") as [status|] eqn:Hs; cbn; [|done].
    destruct (py_eq_str "success" status) eqn:Hsuccess.
    + destruct (py_getitem rt sugg0 "expression") as [expression|] eqn:He; cbn; [|done].
      destruct (py_getitem rt sugg0 "fitness") as [fitness|] eqn:Hf; cbn; [|done].
      destruct (format_4f rt fitness) as [fitness_4f|] eqn:H4; cbn; [|done].
      destruct (py_getitem rt sugg0 "reason") as [reason|] eqn:Hr; cbn; [|done].
      destruct (format_previous_results_loop rt suggs) as [rest|] eqn:Hrest; cbn; [|done].
      intros [= <-]. destruct (IH rest eq_refl) as [Hlen Hblocks].
      split; [cbn; by rewrite Hlen|].
      intros [|k] sugg Hk.
      * injection Hk as <-. exists status, expression, reason.
        rewrite Hs, He, Hr, Hsuccess. split; [done|]. split; [done|]. split; [done|].
        exists fitness, fitness_4f. rewrite Hf. done.
      * exact (Hblocks k sugg Hk).
    + destruct (py_getitem rt sugg0 "expression") as [expression|] eqn:He; cbn; [|done].
      destruct (py_getitem rt sugg0 "error") as [error|] eqn:Hf; cbn; [|done].
      destruct (py_getitem rt sugg0 "reason") as [reason|] eqn:Hr; cbn; [|done].
      destruct (format_previous_results_loop rt suggs) as [rest|] eqn:Hrest; cbn; [|done].
      intros [= <-]. destruct (IH rest eq_refl) as [Hlen Hblocks].
      split; [cbn; by rewrite Hlen|].
      intros [|k] sugg Hk.
      * injection Hk as <-. exists status, expression, reason.
        rewrite Hs, He, Hr, Hsuccess. split; [done|]. split; [done|]. split; [done|].
        exists error. rewrite Hf. done.
      * exact (Hblocks k sugg Hk).
Qed.

(** X18. When [format_previous_results] returns, its text is the blocks
    of the suggestions of the previous round joined by blank lines, one
    block per suggestion and in their order.  A suggestion whose [status]
    is the str ['success'] is shown with its [expression], its [fitness]
    formatted with [.4f] and its [reason]; every other suggestion, whatever
    its [status], is shown as a failed evaluation, with its [expression],
    its [error] and its [reason]. *)
Theorem format_previous_results_lists_each_in_order
    (suggestions suggs : pyvalue) (items : list pyvalue) (text : string) :
  py_getitem rt suggestions "suggestions" = Ok suggs ->
  py_iter rt suggs = Ok items ->
  format_previous_results rt suggestions = Ok text ->
  exists blocks,
    text = String.concat (nl +:+ nl) blocks /\
    length blocks = length items /\
    forall k sugg, items !! k = Some sugg ->
      exists status expression reason,
        py_getitem rt sugg "status" = Ok status /\
        py_getitem rt sugg "expression" = Ok expression /\
        py_getitem rt sugg "reason" = Ok reason /\
        if py_eq_str "success" status
        then exists fitness fitness_4f,
               py_getitem rt sugg "fitness" = Ok fitness /\
               format_4f rt fitness = Ok fitness_4f /\
               blocks !! k = Some (success_block rt expression fitness_4f reason)
        else exists error,
               py_getitem rt sugg "error" = Ok error /\
               blocks !! k = Some (failure_block rt expression error reason).
Proof.
  intros Hsuggs Hiter. unfold format_previous_results.
  rewrite Hsuggs. cbn [mbind outcome_bind]. rewrite Hiter. cbn [mbind outcome_bind].
  destruct (format_previous_results_loop rt items) as [blocks|] eqn:Hb; cbn; [|done].
  intros [= <-]. exists blocks. split; [done|].
  by apply format_previous_results_loop_blocks.
Qed.

End Previous.

(** ** When the worker stops with an exception *)

Section Crash.
Context (rt : Runtime).
Context {B : Type}.
Context (create : B -> string -> list turn -> outcome string * B).
Context (model_name : string).

Lemma py_get_raises (v : pyvalue) (k : string) (default : pyvalue) (e : exn) :
  py_get rt v k default = Raise e ->
  (forall kv, v <> PyDict kv) /\
  e = Exn AttributeError (fault_str rt (NoAttribute v "get")).
Proof.
  destruct v; cbn; try done; intros [= <-]; (split; [done|reflexivity]).
Qed.

Lemma py_get_dict (kv : list (pyvalue * pyvalue)) (k : string) (default : pyvalue) :
  py_get rt (PyDict kv) k default = Ok (from_option id default (dict_lookup k kv)).
Proof. reflexivity. Qed.

Lemma step_crash (st : locals) (w w' : world B) (ev : event) (e : exn) :
  step rt create model_name st w ev = Crashed e w' ->
  w' = w /\
  exists msg, ev = Received msg /\
    ((forall kv, payload msg <> PyDict kv) /\
     e = Exn AttributeError (fault_str rt (NoAttribute (payload msg) "get")) \/
     msg_type msg = EVOLUTION_UPDATE /\ round_prompt rt (payload msg) = Raise e).
Proof.
  destruct ev as [| |msg]; [done|done|]. cbn [step].
  destruct (msg_type msg) eqn:Hty; try done.
  - unfold handle_INIT.
    destruct (py_get rt (payload msg) "labels" (PyList [])) as [labels|e0] eqn:Hl.
    + destruct (payload msg) as [| | | | | | | | | | |kv] eqn:Hp; try done.
      all: rewrite py_get_dict; cbn [mbind outcome_bind]; by destruct (new_list (mem w)).
    + cbn [mbind outcome_bind]. intros [= <- <-]. split; [done|].
      exists msg. split; [done|]. left. exact (py_get_raises _ _ _ _ Hl).
  - destruct (py_get rt (payload msg) "command" (PyStr EmptyString)) as [command|e0] eqn:Hc.
    + by destruct (py_eq_str "exit" command).
    + intros [= <- <-]. split; [done|].
      exists msg. split; [done|]. left. exact (py_get_raises _ _ _ _ Hc).
  - unfold handle_EVOLUTION_UPDATE.
    destruct (round_prompt rt (payload msg)) as [prompt|e0] eqn:Hprompt.
    + destruct (process_llm_response_one_envelope rt create model_name (dialogs st)
                  default_max_retries
                  (with_mem (append_turn (dialogs st) (Turn "user" prompt)) w))
        as (b & env & ts & w2 & -> & _); [done|]. done.
    + intros [= <- <-]. split; [done|]. exists msg. split; [done|]. by right.
  - unfold handle_THRESHOLD_START.
    destruct (py_get rt (payload msg) "threshold" PyNone) as [threshold|e0] eqn:Hl.
    + destruct (payload msg) as [| | | | | | | | | | |kv] eqn:Hp; try done.
      all: rewrite !py_get_dict; cbn [mbind outcome_bind];
        by destruct (deepcopy (init_dialogs st) (mem w)).
    + cbn [mbind outcome_bind]. intros [= <- <-]. split; [done|].
      exists msg. split; [done|]. left. exact (py_get_raises _ _ _ _ Hl).
Qed.

(** X19. [llama_main] stops with an exception for two reasons only: the
    payload of an envelope is not a dict (the [AttributeError] of its
    [get]), or the prompt of an [EVOLUTION_UPDATE] cannot be built.  In
    both cases the envelope has had no effect: the lists, the queue, the
    file and the backend are as the events handled before it left them,
    and no turn of the envelope has been appended. *)
Theorem crash_leaves_nothing_half_done (evs : list event) :
  forall (st : locals) (w w' : world B) (e : exn),
  run rt create model_name st w evs = Crashed e w' ->
  exists handled msg later st1,
    evs = handled ++ Received msg :: later /\
    run rt create model_name st w handled = Running st1 w' /\
    ((forall kv, payload msg <> PyDict kv) /\
     e = Exn AttributeError (fault_str rt (NoAttribute (payload msg) "get")) \/
     msg_type msg = EVOLUTION_UPDATE /\ round_prompt rt (payload msg) = Raise e).
Proof.
  induction evs as [|ev evs IH]; intros st w w' e; [done|].
  rewrite run_cons.
  destruct (step rt create model_name st w ev) as [st1 w1|w1|e1 w1] eqn:Hstep; [|done|].
  - intros Hrun.
    destruct (IH st1 w1 w' e Hrun) as (handled & msg & later & st2 & -> & Hhandled & Hwhy).
    exists (ev :: handled), msg, later, st2.
    split; [done|]. split; [|exact Hwhy].
    by rewrite run_cons, Hstep.
  - intros [= <- <-].
    destruct (step_crash st w w1 ev e1 Hstep) as (-> & msg & -> & Hwhy).
    exists [], msg, evs, st. done.
Qed.

End Crash.

(** * Instances of the further properties *)

Lemma retry_budget_witness :
  0 < 3 /\
  exists (b : bool) (env : Message) (ts : list turn) w',
    process_llm_response example_runtime (logged three_bad_answers) example_model 1 3
      w_start_logged = (Ok (PyBool b), w') /\
    (1 <= length (calls w_start_logged w') <= Z.to_nat 3)%nat /\
    (b = false -> length (calls w_start_logged w') = Z.to_nat 3 /\
                  exists msg,
                    env = Msg ERROR (PyDict [(PyStr "error", PyStr msg);
                                             (PyStr "retries", PyInt 3)])) /\
    (b = true -> exists p, env = Msg SUGGESTION p) /\
    emitted w_start_logged w' = [env] /\
    mem w' = append_turns 1 ts (mem w_start_logged) /\
    (length ts <= 2 * length (calls w_start_logged w') - 1)%nat.
Proof.
  split; [lia|].
  apply (retry_budget example_runtime three_bad_answers example_model 1 3
           w_start_logged).
  lia.
Defined.

Lemma backend_sees_history_ending_with_user_witness :
  wf_state st_start w_start_logged /\
  step example_runtime (logged second_try_backend) example_model st_start w_start_logged
    (Received (Msg EVOLUTION_UPDATE (PyDict [])))
  = Running (fst after_logged_round) (snd after_logged_round) /\
  length (calls w_start_logged (snd after_logged_round)) = 2%nat /\
  exists prompt,
    Forall (extends_to_user [Turn "user" prompt])
           (calls w_start_logged (snd after_logged_round)).
Proof.
  assert (Hwf : wf_state st_start w_start_logged) by (apply (llama_start_wf [] 0%nat)).
  assert (Hstep : step example_runtime (logged second_try_backend) example_model st_start
                    w_start_logged (Received (Msg EVOLUTION_UPDATE (PyDict [])))
                  = Running (fst after_logged_round) (snd after_logged_round))
    by (vm_compute; reflexivity).
  split; [exact Hwf|]. split; [exact Hstep|]. split; [vm_compute; reflexivity|].
  destruct (backend_sees_history_ending_with_user example_runtime
              second_try_backend example_model (Msg EVOLUTION_UPDATE (PyDict []))
              st_start (fst after_logged_round) w_start_logged (snd after_logged_round)
              Hwf eq_refl Hstep) as (prompt & sent & _ & _ & Hall).
  exists prompt. exact Hall.
Defined.

Lemma suggestion_is_an_accepted_payload_witness :
  wf_store (mem w_start) /\
  (1 < length (lists (mem w_start)))%nat /\
  process_llm_response example_runtime good_backend example_model 1 3 w_start
  = (Ok (PyBool true), after_good_call) /\
  exists text p b0,
    good_backend b0 example_model (removelast (turns_of (mem after_good_call) 1))
    = (Ok text, llm_client after_good_call) /\
    last (turns_of (mem after_good_call) 1) = Some (Turn "assistant" text) /\
    last (queue_snd after_good_call) = Some (Msg SUGGESTION p) /\
    (json_loads example_runtime text = Ok p \/ literal_eval example_runtime text = Ok p) /\
    accepted example_runtime p.
Proof.
  assert (Hwf : wf_store (mem w_start)) by (repeat constructor).
  assert (Hl : (1 < length (lists (mem w_start)))%nat) by (cbn; lia).
  assert (Hrun : process_llm_response example_runtime good_backend example_model 1 3 w_start
                 = (Ok (PyBool true), after_good_call)) by (vm_compute; reflexivity).
  split; [exact Hwf|]. split; [exact Hl|]. split; [exact Hrun|].
  exact (suggestion_is_an_accepted_payload example_runtime good_backend example_model 1 3
           w_start after_good_call Hwf Hl Hrun).
Defined.

Lemma success_ends_with_the_accepted_response_witness :
  wf_store (mem w_start) /\
  (1 < length (lists (mem w_start)))%nat /\
  exists text p,
    last (turns_of (mem after_good_call) 1) = Some (Turn "assistant" text) /\
    validate_response example_runtime text = Ok p /\
    last (queue_snd after_good_call) = Some (Msg SUGGESTION p).
Proof.
  assert (Hwf : wf_store (mem w_start)) by (repeat constructor).
  assert (Hl : (1 < length (lists (mem w_start)))%nat) by (cbn; lia).
  split; [exact Hwf|]. split; [exact Hl|].
  apply (success_ends_with_the_accepted_response example_runtime good_backend example_model
           1 3 w_start after_good_call Hwf Hl).
  vm_compute; reflexivity.
Defined.

Lemma validate_payload_reads_suggestions_only_witness :
  validate_payload example_runtime example_payload_no_reason
  = validate_payload example_runtime
      (PyDict [(PyStr "anomaly_score", PyInt 3);
               (PyStr "suggestions",
                PyList [PyDict [(PyStr "expression", PyStr "gt(x0,x1)")]])]).
Proof.
  apply (validate_payload_reads_suggestions_only example_runtime).
  reflexivity.
Defined.

Lemma validate_payload_no_suggestions_witness :
  validate_payload example_runtime
    (PyDict [(PyStr "suggestions", PyTuple []); (PyStr "reason", PyStr "none")])
  = Ok tt.
Proof.
  apply (validate_payload_no_suggestions example_runtime _ (PyTuple [])); reflexivity.
Defined.

Lemma format_top_individuals_lists_each_in_order_witness :
  format_top_individuals example_runtime (PyList [example_individual; example_individual])
  = Ok (String.concat nl
          [individual_block example_runtime 0 (PyStr "gt(x0,x1)") "0.5000";
           individual_block example_runtime 1 (PyStr "gt(x0,x1)") "0.5000"]) /\
  exists blocks,
    length blocks = 2%nat /\
    exists expression fitness fitness_4f,
      format_4f example_runtime fitness = Ok fitness_4f /\
      blocks !! 1%nat = Some (individual_block example_runtime 1 expression fitness_4f).
Proof.
  assert (Hf : format_top_individuals example_runtime
                 (PyList [example_individual; example_individual])
               = Ok (String.concat nl
                       [individual_block example_runtime 0 (PyStr "gt(x0,x1)") "0.5000";
                        individual_block example_runtime 1 (PyStr "gt(x0,x1)") "0.5000"]))
    by (vm_compute; reflexivity).
  split; [exact Hf|].
  destruct (format_top_individuals_lists_each_in_order example_runtime
              (PyList [example_individual; example_individual])
              [example_individual; example_individual] _ eq_refl Hf)
    as (blocks & _ & Hlen & Hblocks).
  exists blocks. split; [exact Hlen|].
  destruct (Hblocks 1%nat example_individual eq_refl)
    as (expression & fitness & fitness_4f & _ & _ & H4f & Hblock).
  exists expression, fitness, fitness_4f. split; [exact H4f|exact Hblock].
Defined.

Lemma individual_without_fitness_stops_the_worker_witness :
  run example_runtime good_backend example_model st_start w_start
    [Received (Msg EVOLUTION_UPDATE
       (PyDict [(PyStr "top_individuals",
                 PyList [example_individual; PyDict example_individual_no_fitness])]));
     Received (Msg COMMAND (PyDict exit_command))]
  = Crashed (Exn KeyError (fault_str example_runtime (MissingKey "fitness"))) w_start.
Proof.
  apply (individual_without_fitness_stops_the_worker example_runtime good_backend
           example_model
           [(PyStr "top_individuals",
             PyList [example_individual; PyDict example_individual_no_fitness])]
           example_individual_no_fitness [example_individual] [] (PyStr "x0")
           st_start w_start [Received (Msg COMMAND (PyDict exit_command))]);
    reflexivity.
Defined.

Lemma well_formed_update_is_handled_witness :
  well_formed_update example_runtime example_update = true /\
  first_round example_update = false /\
  exists prompt listing w',
    round_prompt example_runtime example_update = Ok prompt /\
    (exists results,
       prompt = SUBSEQUENT_ROUND_format listing results +:+ JSON_SUFFIX) /\
    step example_runtime good_backend example_model st_start w_start
      (Received (Msg EVOLUTION_UPDATE example_update)) = Running st_start w'.
Proof.
  assert (Hwf : well_formed_update example_runtime example_update = true)
    by (vm_compute; reflexivity).
  split; [exact Hwf|]. split; [reflexivity|].
  destruct (well_formed_update_is_handled example_runtime good_backend example_model
              (Msg EVOLUTION_UPDATE example_update) st_start w_start eq_refl Hwf)
    as (prompt & listing & w' & Hprompt & Htemplate & Hstep).
  exists prompt, listing, w'. split; [exact Hprompt|]. split; [exact Htemplate|exact Hstep].
Defined.

Lemma ignorable_events_change_nothing_witness :
  forallb ignorable example_ignorable = true /\
  run example_runtime good_backend example_model (fst after_round) (snd after_round)
    example_ignorable
  = Running (fst after_round) (snd after_round).
Proof.
  split; [reflexivity|].
  apply (ignorable_events_change_nothing example_runtime good_backend example_model).
  reflexivity.
Defined.

Lemma one_envelope_per_update_witness :
  run example_runtime good_backend example_model st_start w_start example_session
  = Running (fst after_session) (snd after_session) /\
  length (emitted w_start (snd after_session)) = 1%nat /\
  Forall (fun env => msg_type env = SUGGESTION \/ msg_type env = ERROR)
         (emitted w_start (snd after_session)).
Proof.
  assert (Hrun : run example_runtime good_backend example_model st_start w_start
                   example_session = Running (fst after_session) (snd after_session))
    by (vm_compute; reflexivity).
  split; [exact Hrun|].
  destruct (one_envelope_per_update example_runtime good_backend example_model
              example_session st_start (fst after_session) w_start (snd after_session) Hrun)
    as (Hlen & Hall & _).
  split; [exact Hlen|exact Hall].
Defined.

Lemma backend_calls_per_update_witness :
  run example_runtime (logged second_try_backend) example_model st_start w_start_logged
    example_session
  = Running (fst after_logged_session) (snd after_logged_session) /\
  (1 <= length (calls w_start_logged (snd after_logged_session)) <= 3)%nat.
Proof.
  assert (Hrun : run example_runtime (logged second_try_backend) example_model st_start
                   w_start_logged example_session
                 = Running (fst after_logged_session) (snd after_logged_session))
    by (vm_compute; reflexivity).
  split; [exact Hrun|].
  destruct (backend_calls_per_update example_runtime second_try_backend
              example_model example_session st_start (fst after_logged_session)
              w_start_logged (snd after_logged_session) Hrun) as [Hcalls _].
  exact Hcalls.
Defined.

Lemma file_holds_threshold_lines_then_transcript_witness :
  run example_runtime good_backend example_model st_start w_start example_session
  = Running (fst after_session) (snd after_session) /\
  dict_lookup "command" exit_command = Some (PyStr "exit") /\
  length (threshold_lines example_runtime example_session) = 2%nat /\
  exists w'',
    run example_runtime good_backend example_model st_start w_start
      (example_session ++ [Received (Msg COMMAND (PyDict exit_command))]) = Exited w'' /\
    out_f w'' = out_f w_start +:+ written (threshold_lines example_runtime example_session)
                +:+ ENDED +:+
                transcript (turns_of (mem (snd after_session)) (dialogs (fst after_session))).
Proof.
  assert (Hrun : run example_runtime good_backend example_model st_start w_start
                   example_session = Running (fst after_session) (snd after_session))
    by (vm_compute; reflexivity).
  split; [exact Hrun|]. split; [reflexivity|]. split; [reflexivity|].
  destruct (file_holds_threshold_lines_then_transcript example_runtime good_backend
              example_model example_session exit_command st_start (fst after_session)
              w_start (snd after_session) Hrun eq_refl) as [_ Hexit].
  exact Hexit.
Defined.

Lemma transcript_holds_the_last_epoch_witness :
  wf_state (fst after_round) (snd after_round) /\
  handle_THRESHOLD_START example_runtime
    (Msg THRESHOLD_START (PyDict [(PyStr "threshold", PyNone)]))
    (fst after_round) (snd after_round) = Ok (fst after_session, snd after_session) /\
  run example_runtime good_backend example_model (fst after_session) (snd after_session)
    [QueueEmpty; Received (Msg EVOLUTION_UPDATE (PyDict []))]
  = Running (fst after_session_round) (snd after_session_round) /\
  length (turns_of (mem (snd after_round)) (dialogs (fst after_round))) = 3%nat /\
  length (turns_of (mem (snd after_session_round)) (dialogs (fst after_session_round)))
  = 7%nat /\
  exists since w3,
    length since = 6%nat /\
    appended_by example_runtime
      [QueueEmpty; Received (Msg EVOLUTION_UPDATE (PyDict []))] since /\
    turns_of (mem (snd after_session_round)) (dialogs (fst after_session_round))
    = turns_of (mem (snd after_round)) (init_dialogs (fst after_round)) ++ since /\
    run example_runtime good_backend example_model
      (fst after_session_round) (snd after_session_round)
      [Received (Msg COMMAND (PyDict exit_command))] = Exited w3 /\
    out_f w3 = (out_f (snd after_session_round) +:+ ENDED) +:+
               (transcript (turns_of (mem (snd after_round)) (init_dialogs (fst after_round)))
                +:+ transcript since).
Proof.
  assert (Hh : handle_THRESHOLD_START example_runtime
                 (Msg THRESHOLD_START (PyDict [(PyStr "threshold", PyNone)]))
                 (fst after_round) (snd after_round)
               = Ok (fst after_session, snd after_session)) by (vm_compute; reflexivity).
  assert (Hrun : run example_runtime good_backend example_model
                   (fst after_session) (snd after_session)
                   [QueueEmpty; Received (Msg EVOLUTION_UPDATE (PyDict []))]
                 = Running (fst after_session_round) (snd after_session_round))
    by (vm_compute; reflexivity).
  assert (Hlen : length (turns_of (mem (snd after_session_round))
                           (dialogs (fst after_session_round))) = 7%nat)
    by (vm_compute; reflexivity).
  split; [exact wf_state_after_round|]. split; [exact Hh|]. split; [exact Hrun|].
  split; [vm_compute; reflexivity|]. split; [exact Hlen|].
  destruct (transcript_holds_the_last_epoch example_runtime good_backend example_model
              (Msg THRESHOLD_START (PyDict [(PyStr "threshold", PyNone)]))
              [QueueEmpty; Received (Msg EVOLUTION_UPDATE (PyDict []))]
              exit_command (fst after_round) (fst after_session) (fst after_session_round)
              (snd after_round) (snd after_session) (snd after_session_round)
              wf_state_after_round Hh eq_refl Hrun eq_refl)
    as (since & w3 & _ & Hsince & _ & Hturns & Hexit & Hfile).
  exists since, w3.
  split.
  { rewrite Hturns, length_app in Hlen.
    change (length (turns_of (mem (snd after_round)) (init_dialogs (fst after_round))))
      with 1%nat in Hlen.
    lia. }
  split; [exact Hsince|]. split; [exact Hturns|]. split; [exact Hexit|exact Hfile].
Defined.

Lemma no_turn_is_ever_shared_witness :
  llama_main example_runtime good_backend example_model [] 0%nat example_session
  = Running (fst after_session) (snd after_session) /\
  (forall l, NoDup (items_of (mem (snd after_session)) l)) /\
  (forall l1 l2 d,
     d ∈ items_of (mem (snd after_session)) l1 ->
     d ∈ items_of (mem (snd after_session)) l2 -> l1 = l2).
Proof.
  assert (Hrun : llama_main example_runtime good_backend example_model [] 0%nat
                   example_session = Running (fst after_session) (snd after_session))
    by (vm_compute; reflexivity).
  split; [exact Hrun|].
  exact (no_turn_is_ever_shared example_runtime good_backend example_model [] 0%nat
           example_session (fst after_session) (snd after_session) Hrun).
Defined.

Lemma process_llm_response_only_appends_witness :
  wf_store (mem (snd after_round)) /\
  (dialogs (fst after_round) < length (lists (mem (snd after_round))))%nat /\
  turns_of (mem (snd after_round)) (dialogs (fst after_round))
    `prefix_of`
  turns_of (mem (snd (process_llm_response example_runtime three_bad_answers example_model
                        (dialogs (fst after_round)) 3 (snd after_round))))
           (dialogs (fst after_round)) /\
  turns_of (mem (snd (process_llm_response example_runtime three_bad_answers example_model
                        (dialogs (fst after_round)) 3 (snd after_round))))
           (init_dialogs (fst after_round))
  = turns_of (mem (snd after_round)) (init_dialogs (fst after_round)).
Proof.
  destruct wf_state_after_round as (Hwf & _ & Hd & Hne).
  split; [exact Hwf|]. split; [exact Hd|].
  destruct (process_llm_response_only_appends example_runtime three_bad_answers
              example_model (dialogs (fst after_round)) 3 (snd after_round) Hwf Hd)
    as (Hprefix & Hothers & _).
  split; [exact Hprefix|]. apply Hothers. vm_compute. discriminate.
Defined.

Lemma system_turn_is_first_witness :
  llama_main example_runtime good_backend example_model [] 0%nat
    (example_events ++ [Received (Msg EVOLUTION_UPDATE (PyDict []))])
  = Running (fst after_round) (snd after_round) /\
  system_first (turns_of (mem (snd after_round)) (dialogs (fst after_round))) /\
  length (turns_of (mem (snd after_round)) (init_dialogs (fst after_round))) = 1%nat.
Proof.
  assert (Hrun : llama_main example_runtime good_backend example_model [] 0%nat
                   (example_events ++ [Received (Msg EVOLUTION_UPDATE (PyDict []))])
                 = Running (fst after_round) (snd after_round))
    by (vm_compute; reflexivity).
  split; [exact Hrun|].
  destruct (system_turn_is_first example_runtime good_backend example_model [] 0%nat _
              (fst after_round) (snd after_round) Hrun) as [Hfirst _].
  split; [exact Hfirst|vm_compute; reflexivity].
Defined.

Lemma format_previous_results_lists_each_in_order_witness :
  format_previous_results example_runtime example_previous
  = Ok (String.concat (nl +:+ nl)
          [success_block example_runtime (PyStr "gt(x0,x1)") "0.5000" (PyStr "simpler");
           failure_block example_runtime (PyStr "gt(x0,") (PyStr "unbalanced")
             (PyStr "shorter")]) /\
  exists blocks,
    length blocks = 2%nat /\
    exists expression error reason,
      blocks !! 1%nat = Some (failure_block example_runtime expression error reason).
Proof.
  assert (Hf : format_previous_results example_runtime example_previous
               = Ok (String.concat (nl +:+ nl)
                       [success_block example_runtime (PyStr "gt(x0,x1)") "0.5000"
                          (PyStr "simpler");
                        failure_block example_runtime (PyStr "gt(x0,") (PyStr "unbalanced")
                          (PyStr "shorter")]))
    by (vm_compute; reflexivity).
  split; [exact Hf|].
  destruct (format_previous_results_lists_each_in_order example_runtime example_previous
              _ _ _ eq_refl eq_refl Hf) as (blocks & _ & Hlen & Hblocks).
  exists blocks. split; [exact Hlen|].
  destruct (Hblocks 1%nat _ eq_refl) as (status & expression & reason & Hs & _ & _ & Hblock).
  injection Hs as <-.
  destruct Hblock as (error & _ & Hblock).
  exists expression, error, reason. exact Hblock.
Defined.

Lemma crash_leaves_nothing_half_done_witness :
  run example_runtime good_backend example_model st_start w_start
    (example_events ++ [Received (Msg COMMAND PyNone); Received (Msg COMMAND (PyDict exit_command))])
  = Crashed (Exn AttributeError (fault_str example_runtime (NoAttribute PyNone "get")))
      (snd after_reset) /\
  exists handled msg later st1,
    example_events ++ [Received (Msg COMMAND PyNone); Received (Msg COMMAND (PyDict exit_command))]
    = handled ++ Received msg :: later /\
    run example_runtime good_backend example_model st_start w_start handled
    = Running st1 (snd after_reset).
Proof.
  assert (Hrun : run example_runtime good_backend example_model st_start w_start
                   (example_events ++ [Received (Msg COMMAND PyNone);
                                       Received (Msg COMMAND (PyDict exit_command))])
                 = Crashed (Exn AttributeError
                              (fault_str example_runtime (NoAttribute PyNone "get")))
                     (snd after_reset))
    by (vm_compute; reflexivity).
  split; [exact Hrun|].
  destruct (crash_leaves_nothing_half_done example_runtime good_backend example_model _
              st_start w_start (snd after_reset) _ Hrun)
    as (handled & msg & later & st1 & Hevs & Hhandled & _).
  exists handled, msg, later, st1. split; [exact Hevs|exact Hhandled].
Defined.
